(** * Proxmox MCP servers: dispatch, permission gate and node fan-out

    A shallow embedding of the three servers of the repository:
    - [Stdio]   : the MCP server over standard input/output (index.js,
                  class ProxmoxServer);
    - [HttpMcp] : the JSON-RPC endpoint served over HTTP (class
                  ProxmoxMCPServer);
    - [Rest]    : the REST server (class ProxmoxClaudeServer).

    An asynchronous method is a function from the backend to its
    completion (a value or a thrown error, with its message) together with
    the requests it sent to the hypervisor, in order.

    Values that come from the client (tool arguments, request ids, request
    bodies) are JavaScript values.  Replies of the hypervisor API are read
    at the shape the handlers use them at: the elements of GET /nodes are
    node objects, and so on; absent members are [None].  The messages of
    errors raised by the runtime itself are those of V8 and of node-fetch
    3.  What depends on double-precision arithmetic or on ICU collation
    is a member of the class [Runtime]. *)

From Stdlib Require Import String Ascii List ZArith Lia Bool DecimalString.
From Stdlib Require Import Sorting.Sorted Sorting.Permutation.
Import ListNotations.
Open Scope string_scope.

(** ** Text *)

Definition nl : string := String (ascii_of_nat 10) "".

(** Decimal rendering of an integer, as a template literal prints it. *)
Definition string_of_Z (z : Z) : string := NilZero.string_of_int (Z.to_int z).

Definition string_of_nat (n : nat) : string := string_of_Z (Z.of_nat n).

(** [isInfix p s]: [p] occurs in [s] (String.prototype.includes). *)
Fixpoint isInfix (p s : string) : bool :=
  prefix p s || match s with
                | EmptyString => false
                | String _ s' => isInfix p s'
                end.

Definition Infix (p s : string) : Prop := exists a b, s = a ++ p ++ b.

Definition upperAscii (c : ascii) : ascii :=
  let n := nat_of_ascii c in
  if (97 <=? n)%nat && (n <=? 122)%nat then ascii_of_nat (n - 32) else c.

(** String.prototype.toUpperCase on the ASCII letters. *)
Fixpoint toUpperCase (s : string) : string :=
  match s with
  | EmptyString => EmptyString
  | String c s' => String (upperAscii c) (toUpperCase s')
  end.

(** ** JavaScript values

    Numbers sent by a client are integers here; [JUndefined] is a member
    that is absent; the members of an object are listed once each. *)

#[local] Unset Elimination Schemes.
Inductive JsVal : Type :=
| JUndefined
| JNull
| JBool (b : bool)
| JNum (z : Z)
| JStr (s : string)
| JArr (items : list JsVal)
| JObj (members : list (string * JsVal)).
#[local] Set Elimination Schemes.

(** ToString, as applied by a template literal, of the values that
    [printable] (below) holds of.  Of the others, an object with an own
    [toString] member makes ToString throw a TypeError, and a number
    beyond the safe integers is not printed digit by digit: the
    statements that depend on the text of a client value assume it
    printable. *)
Fixpoint toStr (v : JsVal) : string :=
  match v with
  | JUndefined => "undefined"
  | JNull => "null"
  | JBool true => "true"
  | JBool false => "false"
  | JNum z => string_of_Z z
  | JStr s => s
  | JArr items =>
      String.concat ","
        (map (fun x => match x with
                       | JUndefined | JNull => ""
                       | _ => toStr x
                       end) items)
  | JObj _ => "[object Object]"
  end.

(** ToBoolean. *)
Definition truthy (v : JsVal) : bool :=
  match v with
  | JUndefined | JNull => false
  | JBool b => b
  | JNum z => negb (z =? 0)%Z
  | JStr s => negb (s =? "")
  | JArr _ | JObj _ => true
  end.

(** [v === 'lit']. *)
Definition isStr (v : JsVal) (lit : string) : bool :=
  match v with
  | JStr s => s =? lit
  | _ => false
  end.

(** A default parameter value: used when the argument is undefined. *)
Definition orDefault (v d : JsVal) : JsVal :=
  match v with
  | JUndefined => d
  | _ => v
  end.

Fixpoint lookup (k : string) (ms : list (string * JsVal)) : JsVal :=
  match ms with
  | [] => JUndefined
  | (k', v) :: ms' => if k' =? k then v else lookup k ms'
  end.

Definition hasMember (k : string) (ms : list (string * JsVal)) : bool :=
  existsb (fun m => fst m =? k) ms.

(** The values whose ToString is [toStr]: strings, booleans, null,
    undefined, the safe integers, the objects without an own [toString]
    member (they print as [object Object]), and the arrays of such
    values. *)
Fixpoint printable (v : JsVal) : bool :=
  match v with
  | JNum z => (Z.abs z <=? 2 ^ 53)%Z
  | JArr items => forallb printable items
  | JObj ms => negb (hasMember "toString" ms)
  | _ => true
  end.

Definition segmentChar (c : ascii) : bool :=
  let n := nat_of_ascii c in
  ((48 <=? n) && (n <=? 57) || (65 <=? n) && (n <=? 90) || (97 <=? n) && (n <=? 122)
   || (n =? 45) || (n =? 46) || (n =? 95))%nat.

(** A text that stands for itself as one segment of the path of a URL:
    letters, digits, hyphens, underscores and dots, and not a dot
    segment. *)
Definition isSegment (s : string) : bool :=
  negb (s =? ".") && negb (s =? "..")
  && forallb segmentChar (list_ascii_of_string s).

(** A client value that a template literal writes into a path as one
    segment. *)
Definition segment (v : JsVal) : bool := printable v && isSegment (toStr v).

(** ** Completions *)

Inductive Completion (A : Type) : Type :=
| Normal (a : A)
| Thrown (message : string).
Arguments Normal {A} a.
Arguments Thrown {A} message.

(** [v.k], for the member names the servers read (none of them is a
    built-in member of a string, number, boolean or array).  The messages
    are V8's. *)
Definition getProp (v : JsVal) (k : string) : Completion JsVal :=
  match v with
  | JUndefined =>
      Thrown ("Cannot read properties of undefined (reading '" ++ k ++ "')")
  | JNull => Thrown ("Cannot read properties of null (reading '" ++ k ++ "')")
  | JObj ms => Normal (lookup k ms)
  | _ => Normal JUndefined
  end.

(** [v?.k]. *)
Definition getPropOpt (v : JsVal) (k : string) : JsVal :=
  match v with
  | JObj ms => lookup k ms
  | _ => JUndefined
  end.

(** ** Requests to the hypervisor API and the method monad *)

Record Request : Type := mkRequest {
  (** the endpoint given to proxmoxRequest, which appends it to the base
      URL *)
  endpoint : string;
  method : string;
  (** the [command] member of the JSON body of a POST *)
  body : option JsVal
}.

Definition M (Backend A : Type) : Type := Backend -> Completion A * list Request.

Definition ret {B A} (a : A) : M B A := fun _ => (Normal a, []).

Definition throw {B A} (message : string) : M B A := fun _ => (Thrown message, []).

Definition bind {B A C} (m : M B A) (k : A -> M B C) : M B C :=
  fun be =>
    match m be with
    | (Normal a, sent) => let (c, sent') := k a be in (c, (sent ++ sent')%list)
    | (Thrown e, sent) => (Thrown e, sent)
    end.

(** [try { m } catch (error) { h error.message }]. *)
Definition tryCatch {B A} (m : M B A) (h : string -> M B A) : M B A :=
  fun be =>
    match m be with
    | (Normal a, sent) => (Normal a, sent)
    | (Thrown e, sent) => let (c, sent') := h e be in (c, (sent ++ sent')%list)
    end.

Definition liftC {B A} (c : Completion A) : M B A := fun _ => (c, []).

Notation "x <- m ;; k" := (bind m (fun x => k))
  (at level 61, m at next level, right associativity).

(** [for (const x of xs) { acc = step acc x }] with awaits in the body. *)
Fixpoint forEach {B A S} (step : S -> A -> M B S) (xs : list A) (acc : S) : M B S :=
  match xs with
  | [] => ret acc
  | x :: xs' => acc' <- step acc x ;; forEach step xs' acc'
  end.

(** Array.prototype.sort with a consistent comparator: the stable
    arrangement in which [a] comes before [b] whenever [cmp a b < 0]. *)
Fixpoint insertSorted {A} (cmp : A -> A -> Z) (x : A) (l : list A) : list A :=
  match l with
  | [] => [x]
  | y :: l' => if (cmp x y <=? 0)%Z then x :: y :: l' else y :: insertSorted cmp x l'
  end.

Fixpoint sortWith {A} (cmp : A -> A -> Z) (l : list A) : list A :=
  match l with
  | [] => []
  | x :: l' => insertSorted cmp x (sortWith cmp l')
  end.

(** ** Replies of the hypervisor API

    [num] is the type of the numeric metrics (IEEE doubles in the
    program); identifiers ([vmid], [pid]) are integers. *)

Set Implicit Arguments.

Section Payloads.
Variable num : Type.

(** An element of GET /nodes. *)
Record NodeInfo : Type := mkNodeInfo {
  node_node : string;
  node_status : string;
  node_uptime : option num;
  node_cpu : option num;
  node_maxcpu : option num;
  node_mem : option num;
  node_maxmem : option num;
  node_loadavg : option (list num)
}.

(** An element of GET /nodes/{node}/qemu or /lxc. *)
Record GuestInfo : Type := mkGuestInfo {
  guest_vmid : Z;
  guest_name : option string;
  guest_status : string;
  guest_node : option string;
  guest_uptime : option num;
  guest_cpu : option num;
  guest_mem : option num;
  guest_maxmem : option num
}.

(** An element of GET /nodes/{node}/storage. *)
Record StorageInfo : Type := mkStorageInfo {
  storage_storage : string;
  storage_type : option string;
  storage_content : option string;
  storage_enabled : bool;
  storage_active : bool;
  storage_total : option num;
  storage_used : option num
}.

(** A guest as the listings hold it: [{ ...vm, type, node }]. *)
Record VM : Type := mkVM {
  vm_info : GuestInfo;
  vm_type : string;
  vm_node : string
}.

(** A storage pool as the listings hold it: [{ ...storage, node }]. *)
Record Storage : Type := mkStorage {
  st_info : StorageInfo;
  st_node : string
}.

(** GET /nodes/{node}/status. *)
Record NodeStatus : Type := mkNodeStatus {
  ns_uptime : option num;
  ns_cpu : option num;
  ns_loadavg : option (list string);
  ns_memory : option (num * num);   (* used, total *)
  ns_rootfs : option (num * num)    (* used, total *)
}.

(** GET /nodes/{node}/{type}/{vmid}/status/current. *)
Record GuestStatus : Type := mkGuestStatus {
  gs_status : string;
  gs_name : option string;
  gs_uptime : option num;
  gs_cpu : option num;
  gs_mem : option num;
  gs_maxmem : option num;
  gs_diskread : option num;
  gs_diskwrite : option num;
  gs_netin : option num;
  gs_netout : option num
}.

(** The [data] member of the reply to a guest exec POST: null, a bare
    string, or an object with optional [pid] and [output] members. *)
Inductive ExecData : Type :=
| ExecNull
| ExecText (s : string)
| ExecObject (pid : option Z) (output : option string).

(** The text of a response body: blank, not JSON (with JSON.parse's
    message), or a JSON document with its [data] member. *)
Inductive Body (T : Type) : Type :=
| Blank
| NotJson (reason : string)
| Json (data : T).

(** What fetch gives: a rejection, a response that is not ok, or an ok
    response. *)
Inductive Reply (T : Type) : Type :=
| Unreachable (message : string)
| Refused (status : Z) (statusText text : string)
| Answered (body : Body T).

(** The hypervisor API, one view for each shape a handler reads a
    reply at. *)
Record Backend : Type := mkBackend {
  nodeList : Request -> Reply (list NodeInfo);
  guestList : Request -> Reply (list GuestInfo);
  storageList : Request -> Reply (list StorageInfo);
  nodeStatus : Request -> Reply NodeStatus;
  guestStatus : Request -> Reply GuestStatus;
  clusterStatus : Request -> Reply unit;
  guestExec : Request -> Reply ExecData
}.
End Payloads.

Unset Implicit Arguments.

Arguments Blank {T}.
Arguments NotJson {T} reason.
Arguments Unreachable {T} message.
Arguments Refused {T} status statusText text.

(** ** What the JavaScript runtime contributes

    Double-precision arithmetic with its formatting, and ICU collation,
    have no exact counterpart over integers and byte strings; the
    expressions of the program that depend on them are the members of
    this class. *)

Class Runtime : Type := {
  num : Type;
  (** ToBoolean of a number: false for 0 and NaN *)
  numTruthy : num -> bool;
  (** [(x * 100).toFixed(1)] *)
  percent1 : num -> string;
  (** [((a / b) * 100).toFixed(1)] *)
  ratioPercent1 : num -> num -> string;
  (** [x.toFixed(2)] *)
  toFixed2 : num -> string;
  (** ToString of a number *)
  numToString : num -> string;
  (** formatUptime of index.js and of the REST server: days, hours, minutes *)
  formatUptime : num -> string;
  (** formatBytes of index.js and of the REST server *)
  formatBytes : num -> string;
  (** the body of the HTTP server's formatUptime past its guard *)
  hoursMinutes : num -> string;
  (** the body of the HTTP server's formatBytes past its guard *)
  bytesFixed2 : num -> string;
  (** the resource totals of getClusterStatus over the online nodes and
      the text built from them, in index.js and in the HTTP server *)
  resourceUsage : list (NodeInfo num) -> string;
  resourceUsageHttp : list (NodeInfo num) -> string;
  (** [a.localeCompare(b)] *)
  localeCompare : string -> string -> Z
}.

(** The result of a tool: [{ content: [{ type: 'text', text }] }]. *)
Record ContentItem : Type := mkContentItem {
  type : string;
  text : string
}.

Record CallToolResult : Type := mkCallToolResult {
  content : list ContentItem
}.

Definition textResult (t : string) : CallToolResult :=
  {| content := [ {| type := "text"; text := t |} ] |}.

(** A tool descriptor of tools/list. *)
Record Property : Type := mkProperty {
  prop_name : string;
  prop_type : string;
  prop_description : string;
  prop_enum : option (list string);
  prop_default : option string
}.

Record Tool : Type := mkTool {
  name : string;
  description : string;
  properties : list Property;
  required : option (list string)
}.

Definition stringProp (n d : string) : Property :=
  {| prop_name := n; prop_type := "string"; prop_description := d;
     prop_enum := None; prop_default := None |}.

(** A JSON-RPC response envelope. *)
Inductive RpcResult : Type :=
| InitializeResult (protocolVersion serverName serverVersion : string)
| ToolsResult (tools : list Tool)
| ToolResult (r : CallToolResult).

Record RpcError : Type := mkRpcError {
  code : Z;
  message : string;
  data : string
}.

Inductive Envelope : Type :=
| Success (result : RpcResult) (id : JsVal)
| Failure (error : RpcError) (id : JsVal).

(** ** index.js: the server on standard input/output *)

Module Stdio.

(** The pictographs of the messages, as the file stores them. *)
Definition desktop : string := "ðŸ–¥ï¸".
Definition green : string := "ðŸŸ¢".
Definition red : string := "ðŸ”´".
Definition bullet : string := "â€¢".
Definition warning : string := "âš ï¸".
Definition laptop : string := "ðŸ’»".
Definition yellow : string := "ðŸŸ¡".
Definition package : string := "ðŸ“¦".
Definition cross : string := "âŒ".
Definition disk : string := "ðŸ’¾".
Definition crane : string := "ðŸ—ï¸".

(** The server object: of its fields only the elevation flag, read from
    PROXMOX_ALLOW_ELEVATED at construction, decides behaviour. *)
Record ProxmoxServer : Type := mkProxmoxServer {
  allowElevated : bool
}.

Section Server.
Context {RT : Runtime}.
Variable self : ProxmoxServer.

Local Abbreviation Method := (M (Backend num)).

Definition proxmoxRequest {T : Type} (view : Backend num -> Request -> Reply T)
    (endpoint method : string) (body : option JsVal) : Method T :=
  fun be =>
    let rq := mkRequest endpoint method body in
    (match view be rq with
     | Unreachable m => Thrown ("Failed to connect to Proxmox: " ++ m)
     | Refused status _ errorText =>
         Thrown ("Failed to connect to Proxmox: "
                 ++ ("Proxmox API error: " ++ string_of_Z status ++ " - " ++ errorText))
     | Answered Blank =>
         Thrown ("Failed to connect to Proxmox: " ++ "Empty response from Proxmox API")
     | Answered (NotJson reason) =>
         Thrown ("Failed to parse Proxmox API response: " ++ reason)
     | Answered (Json d) => Normal d
     end, [rq]).

(** The tools of the ListTools handler. *)
Definition tools : list Tool :=
  [ {| name := "proxmox_get_nodes";
       description := "List all Proxmox cluster nodes with their status and resources";
       properties := [];
       required := None |};
    {| name := "proxmox_get_node_status";
       description := "Get detailed status information for a specific Proxmox node";
       properties := [ stringProp "node" "Node name (e.g., pve1, proxmox-node2)" ];
       required := Some ["node"] |};
    {| name := "proxmox_get_vms";
       description := "List all virtual machines across the cluster with their status";
       properties :=
         [ stringProp "node" "Optional: filter by specific node";
           {| prop_name := "type"; prop_type := "string";
              prop_description := "VM type filter";
              prop_enum := Some ["qemu"; "lxc"; "all"];
              prop_default := Some "all" |} ];
       required := None |};
    {| name := "proxmox_get_vm_status";
       description := "Get detailed status information for a specific VM";
       properties :=
         [ stringProp "node" "Node name where VM is located";
           stringProp "vmid" "VM ID number";
           {| prop_name := "type"; prop_type := "string";
              prop_description := "VM type";
              prop_enum := Some ["qemu"; "lxc"];
              prop_default := Some "qemu" |} ];
       required := Some ["node"; "vmid"] |};
    {| name := "proxmox_execute_vm_command";
       description := "Execute a shell command on a virtual machine via Proxmox API";
       properties :=
         [ stringProp "node" "Node name where VM is located";
           stringProp "vmid" "VM ID number";
           stringProp "command" "Shell command to execute";
           {| prop_name := "type"; prop_type := "string";
              prop_description := "VM type";
              prop_enum := Some ["qemu"; "lxc"];
              prop_default := Some "qemu" |} ];
       required := Some ["node"; "vmid"; "command"] |};
    {| name := "proxmox_get_storage";
       description := "List all storage pools and their usage across the cluster";
       properties := [ stringProp "node" "Optional: filter by specific node" ];
       required := None |};
    {| name := "proxmox_get_cluster_status";
       description := "Get overall cluster status including nodes and resource usage";
       properties := [];
       required := None |} ].

(** [x ? f x : 'N/A'] on a metric that may be absent. *)
Definition ifNum (o : option num) (f : num -> string) : string :=
  match o with
  | Some x => if numTruthy x then f x else "N/A"
  | None => "N/A"
  end.

(** [a && b ? f a b : 'N/A']. *)
Definition ifBoth (a b : option num) (f : num -> num -> string) : string :=
  match a, b with
  | Some x, Some y => if numTruthy x && numTruthy y then f x y else "N/A"
  | _, _ => "N/A"
  end.

Definition isBoth (a b : option num) : bool :=
  match a, b with
  | Some x, Some y => numTruthy x && numTruthy y
  | _, _ => false
  end.

(** [s || d] on a string member that may be absent. *)
Definition strOr (o : option string) (d : string) : string :=
  match o with
  | Some s => if s =? "" then d else s
  | None => d
  end.

Definition percent (x : num) : string := percent1 x ++ "%".

Definition usage (used total : num) : string :=
  formatBytes used ++ " / " ++ formatBytes total
  ++ " (" ++ ratioPercent1 used total ++ "%)".

Definition renderNode (n : NodeInfo num) : string :=
  let status := if node_status n =? "online" then green else red in
  let uptime := ifNum (node_uptime n) formatUptime in
  let cpuUsage := ifNum (node_cpu n) percent in
  let memUsage := ifBoth (node_mem n) (node_maxmem n) usage in
  status ++ " **" ++ node_node n ++ "**" ++ nl
  ++ "   " ++ bullet ++ " Status: " ++ node_status n ++ nl
  ++ "   " ++ bullet ++ " Uptime: " ++ uptime ++ nl
  ++ "   " ++ bullet ++ " CPU: " ++ cpuUsage ++ nl
  ++ "   " ++ bullet ++ " Memory: " ++ memUsage ++ nl
  ++ "   " ++ bullet ++ " Load: "
  ++ match node_loadavg n with
     | Some (x :: _) => toFixed2 x
     | _ => "N/A"
     end ++ nl ++ nl.

Definition getNodes : Method CallToolResult :=
  nodes <- proxmoxRequest (@nodeList num) "/nodes" "GET" None ;;
  let output :=
    fold_left (fun output node => output ++ renderNode node) nodes
      (desktop ++ "  **Proxmox Cluster Nodes**" ++ nl ++ nl) in
  ret (textResult output).

Definition usedOfTotal (m : option (num * num)) : string :=
  match m with
  | Some (used, total) => usage used total
  | None => "N/A"
  end.

Definition nodeStatusNotice : string :=
  warning ++ "  **Node Status Requires Elevated Permissions**" ++ nl ++ nl
  ++ "To view detailed node status, set `PROXMOX_ALLOW_ELEVATED=true` in your .env file and ensure your API token has Sys.Audit permissions."
  ++ nl ++ nl
  ++ "**Current permissions**: Basic (node listing only)".

Definition getNodeStatus (node : JsVal) : Method CallToolResult :=
  if negb (allowElevated self) then ret (textResult nodeStatusNotice)
  else
    status <- proxmoxRequest (@nodeStatus num)
                ("/nodes/" ++ toStr node ++ "/status") "GET" None ;;
    let up := match ns_uptime status with
              | Some u => numTruthy u
              | None => false
              end in
    let loadavg := match ns_loadavg status with
                   | Some l => String.concat ", " l
                   | None => ""
                   end in
    let output :=
      desktop ++ "  **Node " ++ toStr node ++ " Status**" ++ nl ++ nl
      ++ bullet ++ " **Status**: "
      ++ (if up then green ++ " Online" else red ++ " Offline") ++ nl
      ++ bullet ++ " **Uptime**: " ++ ifNum (ns_uptime status) formatUptime ++ nl
      ++ bullet ++ " **Load Average**: "
      ++ (if loadavg =? "" then "N/A" else loadavg) ++ nl
      ++ bullet ++ " **CPU Usage**: " ++ ifNum (ns_cpu status) percent ++ nl
      ++ bullet ++ " **Memory**: " ++ usedOfTotal (ns_memory status) ++ nl
      ++ bullet ++ " **Root Disk**: " ++ usedOfTotal (ns_rootfs status) ++ nl in
    ret (textResult output).

Definition wants (typeFilter : JsVal) (kind : string) : bool :=
  isStr typeFilter "all" || isStr typeFilter kind.

(** The first half of getVMs: the array [vms] before it is sorted. *)
Definition collectVMs (nodeFilter typeFilter : JsVal) : Method (list (VM num)) :=
  if truthy nodeFilter then
    nodeVMs <- proxmoxRequest (@guestList num)
                 ("/nodes/" ++ toStr nodeFilter ++ "/qemu") "GET" None ;;
    nodeLXCs <- proxmoxRequest (@guestList num)
                  ("/nodes/" ++ toStr nodeFilter ++ "/lxc") "GET" None ;;
    let vms := [] in
    let vms := if wants typeFilter "qemu"
               then (vms ++ map (fun vm => mkVM vm "qemu" (toStr nodeFilter)) nodeVMs)%list
               else vms in
    let vms := if wants typeFilter "lxc"
               then (vms ++ map (fun vm => mkVM vm "lxc" (toStr nodeFilter)) nodeLXCs)%list
               else vms in
    ret vms
  else
    nodes <- proxmoxRequest (@nodeList num) "/nodes" "GET" None ;;
    forEach
      (fun vms node =>
         vms <- (if wants typeFilter "qemu" then
                   nodeVMs <- proxmoxRequest (@guestList num)
                                ("/nodes/" ++ node_node node ++ "/qemu") "GET" None ;;
                   ret (vms ++ map (fun vm => mkVM vm "qemu" (node_node node)) nodeVMs)%list
                 else ret vms) ;;
         if wants typeFilter "lxc" then
           nodeLXCs <- proxmoxRequest (@guestList num)
                         ("/nodes/" ++ node_node node ++ "/lxc") "GET" None ;;
           ret (vms ++ map (fun vm => mkVM vm "lxc"
                                        (strOr (guest_node vm) (node_node node)))
                           nodeLXCs)%list
         else ret vms)
      nodes [].

(** [parseInt(a.vmid) - parseInt(b.vmid)]. *)
Definition byVmid (a b : VM num) : Z :=
  (guest_vmid (vm_info a) - guest_vmid (vm_info b))%Z.

Definition statusIcon (status : string) : string :=
  if status =? "running" then green
  else if status =? "stopped" then red
  else yellow.

Definition vmTitle (o : option string) (vmid : string) : string :=
  strOr o ("VM-" ++ vmid).

Definition renderVM (vm : VM num) : string :=
  let i := vm_info vm in
  let status := statusIcon (guest_status i) in
  let typeIcon := if vm_type vm =? "qemu" then desktop else package in
  let uptime := ifNum (guest_uptime i) formatUptime in
  let cpuUsage := ifNum (guest_cpu i) percent in
  let memUsage := ifBoth (guest_mem i) (guest_maxmem i)
                    (fun mem maxmem => formatBytes mem ++ " / " ++ formatBytes maxmem) in
  status ++ " " ++ typeIcon ++ " **"
  ++ vmTitle (guest_name i) (string_of_Z (guest_vmid i))
  ++ "** (ID: " ++ string_of_Z (guest_vmid i) ++ ")" ++ nl
  ++ "   " ++ bullet ++ " Node: " ++ vm_node vm ++ nl
  ++ "   " ++ bullet ++ " Status: " ++ guest_status i ++ nl
  ++ "   " ++ bullet ++ " Type: " ++ toUpperCase (vm_type vm) ++ nl
  ++ (if guest_status i =? "running" then
        "   " ++ bullet ++ " Uptime: " ++ uptime ++ nl
        ++ "   " ++ bullet ++ " CPU: " ++ cpuUsage ++ nl
        ++ "   " ++ bullet ++ " Memory: " ++ memUsage ++ nl
      else "")
  ++ nl.

(** The second half of getVMs: the text built from [vms]. *)
Definition renderVMs (vms : list (VM num)) : string :=
  let output := laptop ++ " **Virtual Machines**" ++ nl ++ nl in
  match vms with
  | [] => output ++ "No virtual machines found." ++ nl
  | _ => fold_left (fun output vm => output ++ renderVM vm)
           (sortWith byVmid vms) output
  end.

Definition getVMs (nodeFilter typeFilter : JsVal) : Method CallToolResult :=
  let nodeFilter := orDefault nodeFilter JNull in
  let typeFilter := orDefault typeFilter (JStr "all") in
  vms <- collectVMs nodeFilter typeFilter ;;
  ret (textResult (renderVMs vms)).

(** [type.toUpperCase()] on an argument. *)
Definition upperOf (what : string) (v : JsVal) : Completion string :=
  match v with
  | JStr s => Normal (toUpperCase s)
  | JUndefined =>
      Thrown "Cannot read properties of undefined (reading 'toUpperCase')"
  | JNull => Thrown "Cannot read properties of null (reading 'toUpperCase')"
  | _ => Thrown (what ++ ".toUpperCase is not a function")
  end.

Definition getVMStatus (node vmid type : JsVal) : Method CallToolResult :=
  let type := orDefault type (JStr "qemu") in
  vmStatus <- proxmoxRequest (@guestStatus num)
                ("/nodes/" ++ toStr node ++ "/" ++ toStr type ++ "/" ++ toStr vmid
                 ++ "/status/current") "GET" None ;;
  let status := statusIcon (gs_status vmStatus) in
  let typeIcon := if isStr type "qemu" then desktop else package in
  TYPE <- liftC (upperOf "type" type) ;;
  let output :=
    status ++ " " ++ typeIcon ++ " **" ++ vmTitle (gs_name vmStatus) (toStr vmid)
    ++ "** (ID: " ++ toStr vmid ++ ")" ++ nl ++ nl
    ++ bullet ++ " **Node**: " ++ toStr node ++ nl
    ++ bullet ++ " **Status**: " ++ gs_status vmStatus ++ nl
    ++ bullet ++ " **Type**: " ++ TYPE ++ nl
    ++ (if gs_status vmStatus =? "running" then
          bullet ++ " **Uptime**: " ++ ifNum (gs_uptime vmStatus) formatUptime ++ nl
          ++ bullet ++ " **CPU Usage**: " ++ ifNum (gs_cpu vmStatus) percent ++ nl
          ++ bullet ++ " **Memory**: "
          ++ ifBoth (gs_mem vmStatus) (gs_maxmem vmStatus) usage ++ nl
          ++ bullet ++ " **Disk Read**: " ++ ifNum (gs_diskread vmStatus) formatBytes ++ nl
          ++ bullet ++ " **Disk Write**: " ++ ifNum (gs_diskwrite vmStatus) formatBytes ++ nl
          ++ bullet ++ " **Network In**: " ++ ifNum (gs_netin vmStatus) formatBytes ++ nl
          ++ bullet ++ " **Network Out**: " ++ ifNum (gs_netout vmStatus) formatBytes ++ nl
        else "") in
  ret (textResult output).

(** [result.pid || 'N/A'] in a template literal. *)
Definition pidText (result : ExecData) : Completion string :=
  match result with
  | ExecNull => Thrown "Cannot read properties of null (reading 'pid')"
  | ExecText _ => Normal "N/A"
  | ExecObject (Some pid) _ => Normal (if (pid =? 0)%Z then "N/A" else string_of_Z pid)
  | ExecObject None _ => Normal "N/A"
  end.

(** [result || 'Command executed successfully'] in a template literal. *)
Definition resultText (result : ExecData) : string :=
  match result with
  | ExecNull => "Command executed successfully"
  | ExecText s => if s =? "" then "Command executed successfully" else s
  | ExecObject _ _ => "[object Object]"
  end.

Definition elevationNotice (command : JsVal) : string :=
  warning ++ "  **VM Command Execution Requires Elevated Permissions**" ++ nl ++ nl
  ++ "To execute commands on VMs, set `PROXMOX_ALLOW_ELEVATED=true` in your .env file and ensure your API token has appropriate VM permissions."
  ++ nl ++ nl
  ++ "**Current permissions**: Basic (VM listing only)" ++ nl
  ++ "**Requested command**: `" ++ toStr command ++ "`".

(** The text of the catch block of executeVMCommand. *)
Definition executionFailure (vmid : JsVal) (message : string) : string :=
  cross ++ " **Failed to execute command on VM " ++ toStr vmid ++ "**"
  ++ nl ++ nl ++ "Error: " ++ message ++ nl ++ nl
  ++ "*Note: Make sure the VM has guest agent installed and running*".

(** The text of the guest-agent branch of executeVMCommand. *)
Definition submittedText (vmid command : JsVal) (pid : string) : string :=
  laptop ++ " **Command executed on VM " ++ toStr vmid ++ "**" ++ nl ++ nl
  ++ "**Command**: `" ++ toStr command ++ "`" ++ nl
  ++ "**Result**: Command submitted to guest agent" ++ nl
  ++ "**PID**: " ++ pid ++ nl ++ nl
  ++ "*Note: Use guest agent status to check command completion*".

(** The text of the container branch of executeVMCommand. *)
Definition executedText (vmid command : JsVal) (result : string) : string :=
  package ++ " **Command executed on LXC " ++ toStr vmid ++ "**" ++ nl ++ nl
  ++ "**Command**: `" ++ toStr command ++ "`" ++ nl
  ++ "**Output**:" ++ nl ++ "```" ++ nl ++ result ++ nl ++ "```".

(** The try block of executeVMCommand. *)
Definition attemptCommand (node vmid command type : JsVal) : Method CallToolResult :=
  if isStr type "qemu" then
    result <- proxmoxRequest (@guestExec num)
                ("/nodes/" ++ toStr node ++ "/qemu/" ++ toStr vmid ++ "/agent/exec")
                "POST" (Some command) ;;
    pid <- liftC (pidText result) ;;
    ret (textResult (submittedText vmid command pid))
  else
    result <- proxmoxRequest (@guestExec num)
                ("/nodes/" ++ toStr node ++ "/lxc/" ++ toStr vmid ++ "/exec")
                "POST" (Some command) ;;
    ret (textResult (executedText vmid command (resultText result))).

Definition executeVMCommand (node vmid command type : JsVal) : Method CallToolResult :=
  let type := orDefault type (JStr "qemu") in
  if negb (allowElevated self) then
    ret (textResult (elevationNotice command))
  else
    tryCatch (attemptCommand node vmid command type)
      (fun message => ret (textResult (executionFailure vmid message))).

(** The loop over [storages] that keeps the first pool of each
    [`${storage.storage}-${storage.node}`] key. *)
Definition uniqueStorages (storages : list (Storage num)) : list (Storage num) :=
  snd (fold_left
         (fun (st : list string * list (Storage num)) storage =>
            let (seen, unique) := st in
            let key := storage_storage (st_info storage) ++ "-" ++ st_node storage in
            if existsb (String.eqb key) seen then (seen, unique)
            else (key :: seen, (unique ++ [storage])%list))
         storages ([], [])).

Definition renderStorage (storage : Storage num) : string :=
  let i := st_info storage in
  let enabled := if storage_enabled i then green else red in
  let usagePercent := ifBoth (storage_total i) (storage_used i)
                        (fun total used => ratioPercent1 used total) in
  enabled ++ " **" ++ storage_storage i ++ "**" ++ nl
  ++ "   " ++ bullet ++ " Node: " ++ st_node storage ++ nl
  ++ "   " ++ bullet ++ " Type: " ++ strOr (storage_type i) "N/A" ++ nl
  ++ "   " ++ bullet ++ " Content: " ++ strOr (storage_content i) "N/A" ++ nl
  ++ (if isBoth (storage_total i) (storage_used i) then
        "   " ++ bullet ++ " Usage: "
        ++ ifBoth (storage_used i) (storage_total i)
             (fun used total => formatBytes used ++ " / " ++ formatBytes total)
        ++ " (" ++ usagePercent ++ "%)" ++ nl
      else "")
  ++ "   " ++ bullet ++ " Status: "
  ++ (if storage_enabled i then "Enabled" else "Disabled") ++ nl ++ nl.

(** The first half of getStorage: the array [storages]. *)
Definition collectStorages (nodeFilter : JsVal) : Method (list (Storage num)) :=
  if truthy nodeFilter then
    storages <- proxmoxRequest (@storageList num)
                  ("/nodes/" ++ toStr nodeFilter ++ "/storage") "GET" None ;;
    ret (map (fun storage => mkStorage storage (toStr nodeFilter)) storages)
  else
    nodes <- proxmoxRequest (@nodeList num) "/nodes" "GET" None ;;
    forEach
      (fun storages node =>
         nodeStorages <- proxmoxRequest (@storageList num)
                           ("/nodes/" ++ node_node node ++ "/storage") "GET" None ;;
         ret (storages
              ++ map (fun storage => mkStorage storage (node_node node)) nodeStorages)%list)
      nodes [].

(** [a.storage.localeCompare(b.storage)]. *)
Definition byStorageName (a b : Storage num) : Z :=
  localeCompare (storage_storage (st_info a)) (storage_storage (st_info b)).

(** The second half of getStorage: the text built from [storages]. *)
Definition renderStorages (storages : list (Storage num)) : string :=
  let output := disk ++ " **Storage Pools**" ++ nl ++ nl in
  match storages with
  | [] => output ++ "No storage found." ++ nl
  | _ =>
      fold_left (fun output storage => output ++ renderStorage storage)
        (sortWith byStorageName (uniqueStorages storages)) output
  end.

Definition getStorage (nodeFilter : JsVal) : Method CallToolResult :=
  let nodeFilter := orDefault nodeFilter JNull in
  storages <- collectStorages nodeFilter ;;
  ret (textResult (renderStorages storages)).

Definition isOnline (n : NodeInfo num) : bool := node_status n =? "online".

Definition getClusterStatus : Method CallToolResult :=
  tryCatch
    (nodes <- proxmoxRequest (@nodeList num) "/nodes" "GET" None ;;
     _ <- (if allowElevated self then
             tryCatch
               (_ <- proxmoxRequest (@clusterStatus num) "/cluster/status" "GET" None ;;
                ret tt)
               (fun _ => ret tt)
           else ret tt) ;;
     let onlineNodes := length (filter isOnline nodes) in
     let totalNodes := length nodes in
     let output :=
       crane ++ "  **Proxmox Cluster Status**" ++ nl ++ nl
       ++ "**Cluster Health**: "
       ++ (if (onlineNodes =? totalNodes)%nat then green ++ " Healthy"
           else yellow ++ " Warning") ++ nl
       ++ "**Nodes**: " ++ string_of_nat onlineNodes ++ "/"
       ++ string_of_nat totalNodes ++ " online" ++ nl ++ nl
       ++ (if allowElevated self then resourceUsage (filter isOnline nodes)
           else warning ++ "  **Limited Information**: Resource usage requires elevated permissions"
                ++ nl ++ nl)
       ++ "**Node Details**:" ++ nl in
     let output :=
       fold_left
         (fun output node =>
            output ++ (if isOnline node then green else red) ++ " " ++ node_node node
            ++ " - " ++ node_status node ++ nl)
         (sortWith (fun a b => localeCompare (node_node a) (node_node b)) nodes)
         output in
     ret (textResult output))
    (fun message =>
       ret (textResult (cross ++ " **Failed to get cluster status**" ++ nl ++ nl
                        ++ "Error: " ++ message))).

(** The switch of the CallTool handler, inside its try block. *)
Definition dispatch (name : string) (args : JsVal) : Method CallToolResult :=
  if name =? "proxmox_get_nodes" then getNodes
  else if name =? "proxmox_get_node_status" then
    node <- liftC (getProp args "node") ;;
    getNodeStatus node
  else if name =? "proxmox_get_vms" then
    node <- liftC (getProp args "node") ;;
    type <- liftC (getProp args "type") ;;
    getVMs node type
  else if name =? "proxmox_get_vm_status" then
    node <- liftC (getProp args "node") ;;
    vmid <- liftC (getProp args "vmid") ;;
    type <- liftC (getProp args "type") ;;
    getVMStatus node vmid type
  else if name =? "proxmox_execute_vm_command" then
    node <- liftC (getProp args "node") ;;
    vmid <- liftC (getProp args "vmid") ;;
    command <- liftC (getProp args "command") ;;
    type <- liftC (getProp args "type") ;;
    executeVMCommand node vmid command type
  else if name =? "proxmox_get_storage" then
    node <- liftC (getProp args "node") ;;
    getStorage node
  else if name =? "proxmox_get_cluster_status" then getClusterStatus
  else throw ("Unknown tool: " ++ name).

(** The CallTool handler registered by setupToolHandlers, on
    [request.params = { name, arguments: args }]. *)
Definition callTool (name : string) (args : JsVal) : Method CallToolResult :=
  tryCatch (dispatch name args)
    (fun message => ret (textResult ("Error: " ++ message))).

(** The ListTools handler registered by setupToolHandlers. *)
Definition listTools : Method (list Tool) := ret tools.

(** The two requests index.js registers a handler for. *)
Inductive McpRequest : Type :=
| ListTools (id : JsVal)
| CallTool (id : JsVal) (name : string) (args : JsVal).

(** The SDK's Server sends what a registered handler returns as the
    result of a response that carries the id of the request.  It calls a
    handler only with a request that has passed the check against the
    schema of the request: an id that is a string or a number and, for
    tools/call, arguments that are an object or absent ([isRequestId] and
    [isArguments] below); any other request it answers itself. *)
Definition respond (request : McpRequest) : Method Envelope :=
  match request with
  | ListTools id => ts <- listTools ;; ret (Success (ToolsResult ts) id)
  | CallTool id name args =>
      r <- callTool name args ;; ret (Success (ToolResult r) id)
  end.

End Server.

End Stdio.

(** The pictographs of the two HTTP servers. *)
Module Glyph.
Definition desktop : string := "🖥️".
Definition green : string := "🟢".
Definition red : string := "🔴".
Definition bullet : string := "•".
Definition laptop : string := "💻".
Definition crane : string := "🏗️".
Definition yellow : string := "🟡".
Definition package : string := "📦".
Definition warning : string := "⚠️".
Definition cross : string := "❌".
Definition disk : string := "💾".
Definition folder : string := "📁".
End Glyph.

(** ** The JSON-RPC endpoint over HTTP (class ProxmoxMCPServer) *)

Module HttpMcp.

Import Glyph.

(** [proxmoxConfig]: the elevation flag is stored at construction; no
    method of the class reads it. *)
Record ProxmoxMCPServer : Type := mkProxmoxMCPServer {
  allowElevated : bool
}.

(** What the POST route sends: [res.status(..).json(..)]. *)
Record HttpResponse : Type := mkHttpResponse {
  http_status : Z;
  http_json : Envelope
}.

Section Server.
Context {RT : Runtime}.

Local Abbreviation Method := (M (Backend num)).

Definition proxmoxRequest {T : Type} (view : Backend num -> Request -> Reply T)
    (endpoint : string) : Method T :=
  fun be =>
    let rq := mkRequest endpoint "GET" None in
    (match view be rq with
     | Unreachable m => Thrown m
     | Refused status statusText _ =>
         Thrown ("Proxmox API error: " ++ string_of_Z status ++ " " ++ statusText)
     | Answered Blank => Thrown "Unexpected end of JSON input"
     | Answered (NotJson reason) => Thrown reason
     | Answered (Json d) => Normal d
     end, [rq]).

Definition formatUptime (seconds : option num) : string :=
  match seconds with
  | Some s => if numTruthy s then hoursMinutes s else "N/A"
  | None => "N/A"
  end.

Definition formatBytes (bytes : option num) : string :=
  match bytes with
  | Some b => if numTruthy b then bytesFixed2 b else "0 B"
  | None => "0 B"
  end.

(** [(x * 100).toFixed(1)] on a member that may be absent. *)
Definition percentOf (x : option num) : string :=
  match x with
  | Some c => percent1 c
  | None => "NaN"
  end.

Definition ratioOf (a b : option num) : string :=
  match a, b with
  | Some x, Some y => ratioPercent1 x y
  | _, _ => "NaN"
  end.

Definition renderNode (node : NodeInfo num) : string :=
  let status := if node_status node =? "online" then green else red in
  let uptime := formatUptime (node_uptime node) in
  let cpuPercent := percentOf (node_cpu node) in
  let memoryUsed := formatBytes (node_mem node) in
  let memoryTotal := formatBytes (node_maxmem node) in
  let memoryPercent := ratioOf (node_mem node) (node_maxmem node) in
  status ++ " **" ++ node_node node ++ "**" ++ nl
  ++ "   " ++ bullet ++ " Status: " ++ node_status node ++ nl
  ++ "   " ++ bullet ++ " Uptime: " ++ uptime ++ nl
  ++ "   " ++ bullet ++ " CPU: " ++ cpuPercent ++ "%" ++ nl
  ++ "   " ++ bullet ++ " Memory: " ++ memoryUsed ++ " / " ++ memoryTotal
  ++ " (" ++ memoryPercent ++ "%)" ++ nl
  ++ "   " ++ bullet ++ " Load: "
  ++ match node_loadavg node with
     | Some (x :: _) => numToString x
     | Some [] => "undefined"
     | None => "N/A"
     end ++ nl ++ nl.

Definition getNodes : Method string :=
  nodes <- proxmoxRequest (@nodeList num) "/nodes" ;;
  ret (fold_left (fun result node => result ++ renderNode node) nodes
         (desktop ++ "  **Proxmox Cluster Nodes**" ++ nl ++ nl)).

Definition wants (typeFilter : JsVal) (kind : string) : bool :=
  isStr typeFilter "all" || isStr typeFilter kind.

(** The loop of getVMs.  One try block holds both fetches of a node:
    what was pushed to [allVMs] before a fetch throws stays in it. *)
Definition collectVMs (nodeFilter typeFilter : JsVal) : Method (list (VM num)) :=
  nodes <- proxmoxRequest (@nodeList num) "/nodes" ;;
  forEach
    (fun allVMs node =>
       if truthy nodeFilter && negb (isStr nodeFilter (node_node node)) then ret allVMs
       else
         tryCatch
           (allVMs' <- (if wants typeFilter "qemu" then
                          qemuVMs <- proxmoxRequest (@guestList num)
                                       ("/nodes/" ++ node_node node ++ "/qemu") ;;
                          ret (allVMs ++ map (fun vm => mkVM vm "qemu" (node_node node))
                                             qemuVMs)%list
                        else ret allVMs) ;;
            tryCatch
              (if wants typeFilter "lxc" then
                 lxcVMs <- proxmoxRequest (@guestList num)
                             ("/nodes/" ++ node_node node ++ "/lxc") ;;
                 ret (allVMs' ++ map (fun vm => mkVM vm "lxc" (node_node node)) lxcVMs)%list
               else ret allVMs')
              (fun _ => ret allVMs'))
           (fun _ => ret allVMs))
    nodes [].

(** [a.vmid - b.vmid]. *)
Definition byVmid (a b : VM num) : Z :=
  (guest_vmid (vm_info a) - guest_vmid (vm_info b))%Z.

Definition renderVM (vm : VM num) : string :=
  let i := vm_info vm in
  let status := if guest_status i =? "running" then green else red in
  let icon := if vm_type vm =? "qemu" then desktop else package in
  status ++ " " ++ icon ++ " **"
  ++ match guest_name i with Some s => s | None => "undefined" end
  ++ "** (ID: " ++ string_of_Z (guest_vmid i) ++ ")" ++ nl
  ++ "   " ++ bullet ++ " Node: " ++ vm_node vm ++ nl
  ++ "   " ++ bullet ++ " Status: " ++ guest_status i ++ nl
  ++ "   " ++ bullet ++ " Type: " ++ toUpperCase (vm_type vm) ++ nl
  ++ (if guest_status i =? "running" then
        match guest_uptime i with
        | Some u => if numTruthy u then
                      "   " ++ bullet ++ " Uptime: " ++ formatUptime (Some u) ++ nl
                    else ""
        | None => ""
        end
        ++ match guest_cpu i with
           | Some c => "   " ++ bullet ++ " CPU: "
                       ++ (if numTruthy c then percent1 c ++ "%" else "N/A") ++ nl
           | None => ""
           end
        ++ match guest_mem i, guest_maxmem i with
           | Some m, Some mm =>
               if numTruthy m && numTruthy mm then
                 "   " ++ bullet ++ " Memory: " ++ formatBytes (Some m) ++ " / "
                 ++ formatBytes (Some mm) ++ nl
               else ""
           | _, _ => ""
           end
      else "")
  ++ nl.

Definition getVMs (nodeFilter typeFilter : JsVal) : Method string :=
  let nodeFilter := orDefault nodeFilter JNull in
  let typeFilter := orDefault typeFilter (JStr "all") in
  allVMs <- collectVMs nodeFilter typeFilter ;;
  ret (fold_left (fun result vm => result ++ renderVM vm)
         (sortWith byVmid allVMs)
         (laptop ++ " **Virtual Machines**" ++ nl ++ nl)).

Definition isOnline (n : NodeInfo num) : bool := node_status n =? "online".

Definition getClusterStatus : Method string :=
  nodes <- proxmoxRequest (@nodeList num) "/nodes" ;;
  _ <- proxmoxRequest (@clusterStatus num) "/cluster/status" ;;
  let onlineNodes := length (filter isOnline nodes) in
  let totalNodes := length nodes in
  let result :=
    crane ++ "  **Proxmox Cluster Status**" ++ nl ++ nl
    ++ "**Cluster Health**: "
    ++ (if (onlineNodes =? totalNodes)%nat then green ++ " Healthy"
        else yellow ++ " Degraded") ++ nl
    ++ "**Nodes**: " ++ string_of_nat onlineNodes ++ "/"
    ++ string_of_nat totalNodes ++ " online" ++ nl ++ nl
    ++ resourceUsageHttp (filter isOnline nodes)
    ++ "**Node Details**:" ++ nl in
  ret (fold_left
         (fun result node =>
            result ++ (if isOnline node then green else red) ++ " " ++ node_node node
            ++ ": " ++ node_status node ++ nl)
         nodes result).

Definition handleInitialize (self : ProxmoxMCPServer) (request : JsVal) : Envelope :=
  Success (InitializeResult "2024-11-05" "proxmox-mcp-server" "1.0.0")
    (getPropOpt request "id").

Definition tools : list Tool :=
  [ {| name := "proxmox_get_nodes";
       description := "List all Proxmox cluster nodes with their status and resource usage";
       properties := [];
       required := Some [] |};
    {| name := "proxmox_get_vms";
       description := "List all virtual machines across the cluster";
       properties :=
         [ stringProp "node" "Filter by specific node (optional)";
           {| prop_name := "type"; prop_type := "string";
              prop_description := "Filter by VM type (optional)";
              prop_enum := Some ["qemu"; "lxc"; "all"];
              prop_default := None |} ];
       required := Some [] |};
    {| name := "proxmox_get_cluster_status";
       description := "Get overall cluster status including nodes and resource usage";
       properties := [];
       required := Some [] |} ].

Definition handleToolsList (self : ProxmoxMCPServer) (request : JsVal) : Envelope :=
  Success (ToolsResult tools) (getPropOpt request "id").

(** [const { name, arguments: args } = request.params]. *)
Definition destructureParams (params : JsVal) : Completion (JsVal * JsVal) :=
  match params with
  | JUndefined =>
      Thrown "Cannot destructure property 'name' of 'request.params' as it is undefined."
  | JNull =>
      Thrown "Cannot destructure property 'name' of 'request.params' as it is null."
  | _ => Normal (getPropOpt params "name", getPropOpt params "arguments")
  end.

(** The switch of handleToolCall, inside its try block. *)
Definition dispatch (name args : JsVal) : Method string :=
  if isStr name "proxmox_get_nodes" then getNodes
  else if isStr name "proxmox_get_vms" then
    getVMs (getPropOpt args "node") (getPropOpt args "type")
  else if isStr name "proxmox_get_cluster_status" then getClusterStatus
  else throw ("Unknown tool: " ++ toStr name).

Definition handleToolCall (self : ProxmoxMCPServer) (request : JsVal) : Method Envelope :=
  p <- liftC (destructureParams (getPropOpt request "params")) ;;
  let (name, args) := p in
  tryCatch
    (result <- dispatch name args ;;
     ret (Success (ToolResult (textResult result)) (getPropOpt request "id")))
    (fun message =>
       ret (Failure {| code := -32603; message := "Tool execution failed";
                       data := message |}
              (getPropOpt request "id"))).

(** handleMCPRequest, past the line that logs [request.method]: the log
    line writes to the console only, unless the method is not printable,
    in which case its template literal throws. *)
Definition handleMCPRequest (self : ProxmoxMCPServer) (request : JsVal) : Method Envelope :=
  method <- liftC (getProp request "method") ;;
  if isStr method "initialize" then ret (handleInitialize self request)
  else if isStr method "tools/list" then ret (handleToolsList self request)
  else if isStr method "tools/call" then handleToolCall self request
  else ret (Failure {| code := -32601; message := "Method not found";
                       data := "Unknown method: " ++ toStr method |}
              (getPropOpt request "id")).

(** The handler of POST / installed by setupMCPEndpoint, on [req.body]. *)
Definition post (self : ProxmoxMCPServer) (body : JsVal)
    : Backend num -> HttpResponse * list Request :=
  fun be =>
    match handleMCPRequest self body be with
    | (Normal response, sent) => (mkHttpResponse 200 response, sent)
    | (Thrown message, sent) =>
        (mkHttpResponse 500
           (Failure {| code := -32603; message := "Internal error"; data := message |}
              (let id := getPropOpt body "id" in
               if truthy id then id else JNull)),
         sent)
    end.

End Server.

End HttpMcp.

(** ** The REST server (class ProxmoxClaudeServer) *)

Module Rest.

Import Glyph.

Record ProxmoxClaudeServer : Type := mkProxmoxClaudeServer {
  allowElevated : bool
}.

Section Payloads.
Variable num : Type.

(** [{ content: [..], vms }]. *)
Record VMsResult : Type := mkVMsResult {
  vms_content : list ContentItem;
  vms_vms : list (VM num)
}.

(** [{ content: [..], storages }]. *)
Record StoragesResult : Type := mkStoragesResult {
  storages_content : list ContentItem;
  storages_storages : list (Storage num)
}.

(** [{ content: [..], result }]; the elevation notice and the failure
    report have no [result] member. *)
Record CommandResult : Type := mkCommandResult {
  command_content : list ContentItem;
  command_result : option ExecData
}.
End Payloads.

Arguments mkVMsResult {num}.
Arguments vms_content {num}.
Arguments vms_vms {num}.
Arguments mkStoragesResult {num}.
Arguments storages_content {num}.
Arguments storages_storages {num}.

Section Server.
Context {RT : Runtime}.
Variable self : ProxmoxClaudeServer.

Local Abbreviation Method := (M (Backend num)).

Definition textItem (t : string) : list ContentItem :=
  [ {| type := "text"; text := t |} ].

Definition proxmoxRequest {T : Type} (view : Backend num -> Request -> Reply T)
    (endpoint method : string) (data : option JsVal) : Method T :=
  fun be =>
    let rq := mkRequest endpoint method
                (if method =? "GET" then None else data) in
    (match view be rq with
     | Unreachable m => Thrown m
     | Refused status statusText _ =>
         Thrown ("Proxmox API error: " ++ string_of_Z status ++ " " ++ statusText)
     | Answered Blank => Thrown "Unexpected end of JSON input"
     | Answered (NotJson reason) => Thrown reason
     | Answered (Json d) => Normal d
     end, [rq]).

Definition wants (type : JsVal) (kind : string) : bool :=
  isStr type "all" || isStr type kind.

(** The first half of getVMs: the array [vms] before it is sorted. *)
Definition collectVMs (nodeName type : JsVal) : Method (list (VM num)) :=
  if truthy nodeName then
    vms <- (if wants type "qemu" then
              qemuVMs <- proxmoxRequest (@guestList num)
                           ("/nodes/" ++ toStr nodeName ++ "/qemu") "GET" None ;;
              ret (map (fun vm => mkVM vm "qemu" (toStr nodeName)) qemuVMs)
            else ret []) ;;
    if wants type "lxc" then
      lxcVMs <- proxmoxRequest (@guestList num)
                  ("/nodes/" ++ toStr nodeName ++ "/lxc") "GET" None ;;
      ret (vms ++ map (fun vm => mkVM vm "lxc" (toStr nodeName)) lxcVMs)%list
    else ret vms
  else
    nodes <- proxmoxRequest (@nodeList num) "/nodes" "GET" None ;;
    forEach
      (fun vms node =>
         vms <- (if wants type "qemu" then
                   tryCatch
                     (qemuVMs <- proxmoxRequest (@guestList num)
                                   ("/nodes/" ++ node_node node ++ "/qemu") "GET" None ;;
                      ret (vms ++ map (fun vm => mkVM vm "qemu" (node_node node))
                                      qemuVMs)%list)
                     (fun _ => ret vms)
                 else ret vms) ;;
         if wants type "lxc" then
           tryCatch
             (lxcVMs <- proxmoxRequest (@guestList num)
                          ("/nodes/" ++ node_node node ++ "/lxc") "GET" None ;;
              ret (vms ++ map (fun vm => mkVM vm "lxc" (node_node node)) lxcVMs)%list)
             (fun _ => ret vms)
         else ret vms)
      nodes [].

(** [a.vmid - b.vmid]. *)
Definition byVmid (a b : VM num) : Z :=
  (guest_vmid (vm_info a) - guest_vmid (vm_info b))%Z.

Definition ifNum (o : option num) (f : num -> string) : string :=
  match o with
  | Some x => if numTruthy x then f x else "N/A"
  | None => "N/A"
  end.

Definition ifBoth (a b : option num) (f : num -> num -> string) : string :=
  match a, b with
  | Some x, Some y => if numTruthy x && numTruthy y then f x y else "N/A"
  | _, _ => "N/A"
  end.

Definition strOr (o : option string) (d : string) : string :=
  match o with
  | Some s => if s =? "" then d else s
  | None => d
  end.

Definition renderVM (vm : VM num) : string :=
  let i := vm_info vm in
  let status := if guest_status i =? "running" then green
                else if guest_status i =? "stopped" then red
                else yellow in
  let typeIcon := if vm_type vm =? "qemu" then desktop else package in
  status ++ " " ++ typeIcon ++ " **"
  ++ strOr (guest_name i) ("VM-" ++ string_of_Z (guest_vmid i))
  ++ "** (ID: " ++ string_of_Z (guest_vmid i) ++ ")" ++ nl
  ++ "   " ++ bullet ++ " Node: " ++ vm_node vm ++ nl
  ++ "   " ++ bullet ++ " Status: " ++ guest_status i ++ nl
  ++ "   " ++ bullet ++ " Type: " ++ toUpperCase (vm_type vm) ++ nl
  ++ (if guest_status i =? "running" then
        "   " ++ bullet ++ " Uptime: " ++ ifNum (guest_uptime i) formatUptime ++ nl
        ++ "   " ++ bullet ++ " CPU: "
        ++ ifNum (guest_cpu i) (fun c => percent1 c ++ "%") ++ nl
        ++ "   " ++ bullet ++ " Memory: "
        ++ ifBoth (guest_mem i) (guest_maxmem i)
             (fun mem maxmem => formatBytes mem ++ " / " ++ formatBytes maxmem) ++ nl
      else "")
  ++ nl.

(** The second half of getVMs: the text built from the sorted [vms]. *)
Definition renderVMs (vms : list (VM num)) : string :=
  fold_left (fun output vm => output ++ renderVM vm) vms
    (laptop ++ " **Virtual Machines**" ++ nl ++ nl).

Definition getVMs (nodeName type : JsVal) : Method (VMsResult num) :=
  let nodeName := orDefault nodeName JNull in
  let type := orDefault type (JStr "all") in
  vms <- collectVMs nodeName type ;;
  let vms := sortWith byVmid vms in
  ret {| vms_content := textItem (renderVMs vms); vms_vms := vms |}.

(** [result.output || 'Command executed successfully']. *)
Definition outputText (result : ExecData) : Completion string :=
  match result with
  | ExecNull => Thrown "Cannot read properties of null (reading 'output')"
  | ExecText _ => Normal "Command executed successfully"
  | ExecObject _ output => Normal (strOr output "Command executed successfully")
  end.

(** [result.pid || 'N/A']. *)
Definition pidText (result : ExecData) : Completion string :=
  match result with
  | ExecNull => Thrown "Cannot read properties of null (reading 'pid')"
  | ExecText _ => Normal "N/A"
  | ExecObject (Some pid) _ => Normal (if (pid =? 0)%Z then "N/A" else string_of_Z pid)
  | ExecObject None _ => Normal "N/A"
  end.

Definition elevationNotice (command : JsVal) : string :=
  warning ++ "  **VM Command Execution Requires Elevated Permissions**" ++ nl ++ nl
  ++ "To execute commands on VMs, set `PROXMOX_ALLOW_ELEVATED=true` in your .env file and ensure your API token has appropriate VM permissions."
  ++ nl ++ nl
  ++ "**Current permissions**: Basic (VM listing only)" ++ nl
  ++ "**Requested command**: `" ++ toStr command ++ "`".

(** The text of the guest-agent branch of executeVMCommand. *)
Definition submittedText (vmid command : JsVal) (pid : string) : string :=
  laptop ++ " **Command executed on VM " ++ toStr vmid ++ "**" ++ nl ++ nl
  ++ "**Command**: `" ++ toStr command ++ "`" ++ nl
  ++ "**Result**: Command submitted to guest agent" ++ nl
  ++ "**PID**: " ++ pid ++ nl ++ nl
  ++ "*Note: Use guest agent status to check command completion*".

(** The text of the container branch of executeVMCommand. *)
Definition executedText (vmid command : JsVal) (out : string) : string :=
  package ++ " **Command executed on container " ++ toStr vmid ++ "**" ++ nl ++ nl
  ++ "**Command**: `" ++ toStr command ++ "`" ++ nl
  ++ "**Output**: " ++ out ++ nl.

(** The text of the catch block of executeVMCommand. *)
Definition executionFailure (message : string) : string :=
  cross ++ " **Command execution failed**" ++ nl ++ nl
  ++ "**Error**: " ++ message ++ nl ++ nl
  ++ "*Note: Ensure the VM has guest agent installed and running (for QEMU VMs)*".

(** The try block of executeVMCommand. *)
Definition attemptCommand (node vmid command type : JsVal) : Method CommandResult :=
  if isStr type "qemu" then
    result <- proxmoxRequest (@guestExec num)
                ("/nodes/" ++ toStr node ++ "/qemu/" ++ toStr vmid ++ "/agent/exec")
                "POST" (Some command) ;;
    pid <- liftC (pidText result) ;;
    ret {| command_content := textItem (submittedText vmid command pid);
           command_result := Some result |}
  else
    result <- proxmoxRequest (@guestExec num)
                ("/nodes/" ++ toStr node ++ "/lxc/" ++ toStr vmid ++ "/exec")
                "POST" (Some command) ;;
    out <- liftC (outputText result) ;;
    ret {| command_content := textItem (executedText vmid command out);
           command_result := Some result |}.

Definition executeVMCommand (node vmid command type : JsVal) : Method CommandResult :=
  let type := orDefault type (JStr "qemu") in
  if negb (allowElevated self) then
    ret {| command_content := textItem (elevationNotice command);
           command_result := None |}
  else
    tryCatch (attemptCommand node vmid command type)
      (fun message =>
         ret {| command_content := textItem (executionFailure message);
                command_result := None |}).

Definition renderStorage (storage : Storage num) : string :=
  let i := st_info storage in
  let usagePercent :=
    match storage_total i with
    | Some total =>
        if numTruthy total then
          match storage_used i with
          | Some used => ratioPercent1 used total
          | None => "NaN"
          end
        else "N/A"
    | None => "N/A"
    end in
  folder ++ " **" ++ storage_storage i ++ "** (" ++ st_node storage ++ ")" ++ nl
  ++ "   " ++ bullet ++ " Type: "
  ++ match storage_type i with Some t => t | None => "undefined" end ++ nl
  ++ "   " ++ bullet ++ " Status: "
  ++ (if storage_active i then green ++ " Active" else red ++ " Inactive") ++ nl
  ++ "   " ++ bullet ++ " Used: " ++ ifNum (storage_used i) formatBytes ++ nl
  ++ "   " ++ bullet ++ " Total: " ++ ifNum (storage_total i) formatBytes ++ nl
  ++ "   " ++ bullet ++ " Usage: " ++ usagePercent ++ "%" ++ nl ++ nl.

Definition getStorage (nodeName : JsVal) : Method (StoragesResult num) :=
  let nodeName := orDefault nodeName JNull in
  storages <-
    (if truthy nodeName then
       storages <- proxmoxRequest (@storageList num)
                     ("/nodes/" ++ toStr nodeName ++ "/storage") "GET" None ;;
       ret (map (fun storage => mkStorage storage (toStr nodeName)) storages)
     else
       nodes <- proxmoxRequest (@nodeList num) "/nodes" "GET" None ;;
       forEach
         (fun storages node =>
            tryCatch
              (nodeStorages <- proxmoxRequest (@storageList num)
                                 ("/nodes/" ++ node_node node ++ "/storage") "GET" None ;;
               ret (storages
                    ++ map (fun storage => mkStorage storage (node_node node))
                           nodeStorages)%list)
              (fun _ => ret storages))
         nodes []) ;;
  let output :=
    fold_left (fun output storage => output ++ renderStorage storage) storages
      (disk ++ " **Storage Pools**" ++ nl ++ nl) in
  ret {| storages_content := textItem output; storages_storages := storages |}.

End Server.

End Rest.

(** ** Notions used by the statements *)

(** Every value [m] can return satisfies [P]. *)
Definition Returns {B A : Type} (P : A -> Prop) (m : M B A) : Prop :=
  forall be a, fst (m be) = Normal a -> P a.

(** A tool result that is one text item. *)
Definition SingleText (r : CallToolResult) : Prop := exists t, r = textResult t.

(** The names of the tools an envelope lists. *)
Definition toolNames (e : Envelope) : list string :=
  match e with
  | Success (ToolsResult ts) _ => map name ts
  | _ => []
  end.

(** The id an envelope carries. *)
Definition idOf (e : Envelope) : JsVal :=
  match e with
  | Success _ id => id
  | Failure _ id => id
  end.

(** The seven tools of the catalogue. *)
Definition catalogue : list string :=
  [ "proxmox_get_nodes"; "proxmox_get_node_status"; "proxmox_get_vms";
    "proxmox_get_vm_status"; "proxmox_execute_vm_command"; "proxmox_get_storage";
    "proxmox_get_cluster_status" ].

(** The guests a reply contributes to a listing: those of an answer, none
    of a failure. *)
Definition answered {T : Type} (r : Reply (list T)) : list T :=
  match r with
  | Answered (Json l) => l
  | _ => []
  end.

Definition get (endpoint : string) : Request := mkRequest endpoint "GET" None.

(** The three tools of the HTTP endpoint. *)
Definition httpCatalogue : list string :=
  [ "proxmox_get_nodes"; "proxmox_get_vms"; "proxmox_get_cluster_status" ].

(** A JSON-RPC request as the HTTP endpoint receives it in [req.body]. *)
Definition rpc (id : JsVal) (method : string) (params : JsVal) : JsVal :=
  JObj [ ("jsonrpc", JStr "2.0"); ("id", id); ("method", JStr method);
         ("params", params) ].

(** The params of tools/call. *)
Definition toolCall (name : string) (args : JsVal) : JsVal :=
  JObj [ ("name", JStr name); ("arguments", args) ].

(** The error member of the Failure that handleToolCall builds. *)
Definition toolFailure (message : string) : RpcError :=
  {| code := -32603; message := "Tool execution failed"; data := message |}.

(** The POST that submits a command to the guest agent of a virtual
    machine, and the POST that executes it in a container. *)
Definition agentExec (node vmid command : JsVal) : Request :=
  mkRequest ("/nodes/" ++ toStr node ++ "/qemu/" ++ toStr vmid ++ "/agent/exec")
    "POST" (Some command).

Definition lxcExec (node vmid command : JsVal) : Request :=
  mkRequest ("/nodes/" ++ toStr node ++ "/lxc/" ++ toStr vmid ++ "/exec")
    "POST" (Some command).

(** The POST that executeVMCommand sends for a guest of kind [type]. *)
Definition execRequest (node vmid command type : JsVal) : Request :=
  if isStr type "qemu" then agentExec node vmid command
  else lxcExec node vmid command.

(** [a] is listed no later than [b] by ascending vmid. *)
Definition vmidLe {num : Type} (a b : VM num) : Prop :=
  (guest_vmid (vm_info a) <= guest_vmid (vm_info b))%Z.

(** The ids of the requests the SDK hands to a handler: a string or a
    number. *)
Definition isRequestId (id : JsVal) : bool :=
  match id with
  | JStr _ | JNum _ => true
  | _ => false
  end.

(** The arguments of the tools/call requests the SDK hands to the
    handler: an object, or absent. *)
Definition isArguments (args : JsVal) : bool :=
  match args with
  | JUndefined | JObj _ => true
  | _ => false
  end.

(** Such arguments whose members are all printable. *)
Definition plainArguments (args : JsVal) : bool :=
  match args with
  | JUndefined => true
  | JObj ms => forallb (fun m => printable (snd m)) ms
  | _ => false
  end.

Section FanOut.
Context {RT : Runtime}.

(** The guests one node contributes to the REST listing of all nodes:
    those of each selected kind whose request was answered. *)
Definition contribution (be : Backend num) (type : JsVal) (node : NodeInfo num)
    : list (VM num) :=
  ((if Rest.wants type "qemu" then
      map (fun vm => mkVM vm "qemu" (node_node node))
        (answered (guestList be (get ("/nodes/" ++ node_node node ++ "/qemu"))))
    else [])
   ++ (if Rest.wants type "lxc" then
         map (fun vm => mkVM vm "lxc" (node_node node))
           (answered (guestList be (get ("/nodes/" ++ node_node node ++ "/lxc"))))
       else []))%list.

(** The requests the REST listing of all nodes sends for one node. *)
Definition targets (type : JsVal) (node : NodeInfo num) : list Request :=
  ((if Rest.wants type "qemu" then [get ("/nodes/" ++ node_node node ++ "/qemu")] else [])
   ++ (if Rest.wants type "lxc" then [get ("/nodes/" ++ node_node node ++ "/lxc")]
       else []))%list.

End FanOut.

(** ** Data of the worked examples

    Payloads without metrics: [num] has no value, so no formatting member
    is ever applied; the resource totals over such nodes are all zero. *)

Definition noMetric : Empty_set -> string := fun x => match x with end.

Definition byteOrder (a b : string) : Z :=
  match String.compare a b with
  | Lt => -1
  | Eq => 0
  | Gt => 1
  end%Z.

Definition plainRuntime : Runtime :=
  {| num := Empty_set;
     numTruthy := fun x => match x with end;
     percent1 := noMetric;
     ratioPercent1 := fun x => match x with end;
     toFixed2 := noMetric;
     numToString := noMetric;
     formatUptime := noMetric;
     formatBytes := noMetric;
     hoursMinutes := noMetric;
     bytesFixed2 := noMetric;
     resourceUsage := fun _ =>
       "**Resource Usage**:" ++ nl
       ++ Stdio.bullet ++ " CPU: N/A% (0.0/0 cores)" ++ nl
       ++ Stdio.bullet ++ " Memory: N/A% (0 B/0 B)" ++ nl ++ nl;
     resourceUsageHttp := fun _ =>
       "**Resource Usage**:" ++ nl
       ++ Glyph.bullet ++ " CPU: 0.0/0 cores (0%)" ++ nl
       ++ Glyph.bullet ++ " Memory: 0 B / 0 B (0%)" ++ nl ++ nl;
     localeCompare := byteOrder |}.

Definition bareNode (n : string) : NodeInfo Empty_set :=
  mkNodeInfo n "online" None None None None None None.

Definition stoppedGuest (vmid : Z) (n : string) : GuestInfo Empty_set :=
  mkGuestInfo vmid (Some n) "stopped" None None None None None.

(** A hypervisor that cannot be reached. *)
Definition unreachable : Backend Empty_set :=
  let down {T} : Request -> Reply T := fun _ => Unreachable "connect ECONNREFUSED" in
  mkBackend down down down down down down down.

(** The nodes pve2 and pve1, answered in this order. *)
Definition pve2pve1 : Backend Empty_set :=
  let down {T} : Request -> Reply T := fun _ => Unreachable "connect ECONNREFUSED" in
  mkBackend (fun _ => Answered (Json [bareNode "pve2"; bareNode "pve1"]))
    down down down down down down.

(** Two nodes: pveA holds the containers 103 and 101 and no virtual
    machine; pveB answers every guest listing with [second]. *)
Definition twoNodes (second : Reply (list (GuestInfo Empty_set))) : Backend Empty_set :=
  let down {T} : Request -> Reply T := fun _ => Unreachable "connect ECONNREFUSED" in
  mkBackend (fun _ => Answered (Json [bareNode "pveA"; bareNode "pveB"]))
    (fun rq =>
       if endpoint rq =? "/nodes/pveA/lxc" then
         Answered (Json [stoppedGuest 103 "db"; stoppedGuest 101 "web"])
       else if endpoint rq =? "/nodes/pveA/qemu" then Answered (Json [])
       else second)
    down down down down down.

(** A hypervisor whose guest agent accepts a command as process 4242 and
    whose containers answer with the text [up 3 days]. *)
Definition accepting : Backend Empty_set :=
  let down {T} : Request -> Reply T := fun _ => Unreachable "connect ECONNREFUSED" in
  mkBackend down down down down down down
    (fun rq =>
       if endpoint rq =? "/nodes/n1/qemu/100/agent/exec" then
         Answered (Json (ExecObject (Some 4242%Z) None))
       else Answered (Json (ExecText "up 3 days"))).

Definition elevated : Stdio.ProxmoxServer := Stdio.mkProxmoxServer true.
Definition basic : Stdio.ProxmoxServer := Stdio.mkProxmoxServer false.

(** ** Start-up: the .env file and the elevation flag

    What index.js and the REST server run before they construct their
    server.  [process.env] is a list of assignments, the latest first;
    the text of the file is valid UTF-8. *)

Module Startup.

(** [s.split(sep)] on a separator of one character, as the piece before
    the first separator and the pieces after it:
    [const [key, ...values] = line.split('=')]. *)
Fixpoint splitAt (sep : ascii) (s : string) : string * list string :=
  match s with
  | EmptyString => (EmptyString, [])
  | String c s' =>
      let (piece, pieces) := splitAt sep s' in
      if Ascii.eqb c sep then (EmptyString, piece :: pieces)
      else (String c piece, pieces)
  end.

Definition split (sep : ascii) (s : string) : list string :=
  let (piece, pieces) := splitAt sep s in piece :: pieces.

Definition utf8 (bytes : list nat) : string :=
  string_of_list_ascii (map ascii_of_nat bytes).

(** The code points String.prototype.trim removes (WhiteSpace and
    LineTerminator of ECMAScript), in UTF-8. *)
Definition whiteSpace : list string :=
  map utf8
    [ [9]; [10]; [11]; [12]; [13]; [32]; [194; 160]; [225; 154; 128];
      [226; 128; 128]; [226; 128; 129]; [226; 128; 130]; [226; 128; 131];
      [226; 128; 132]; [226; 128; 133]; [226; 128; 134]; [226; 128; 135];
      [226; 128; 136]; [226; 128; 137]; [226; 128; 138]; [226; 128; 168];
      [226; 128; 169]; [226; 128; 175]; [226; 129; 159]; [227; 128; 128];
      [239; 187; 191] ].

(** [s] without its prefix [p], if it starts with [p]. *)
Fixpoint stripPrefix (p s : string) : option string :=
  match p, s with
  | EmptyString, _ => Some s
  | String a p', String b s' => if Ascii.eqb a b then stripPrefix p' s' else None
  | String _ _, EmptyString => None
  end.

(** [s] without its first character, if that is one of [ws]. *)
Fixpoint dropOne (ws : list string) (s : string) : option string :=
  match ws with
  | [] => None
  | w :: ws' =>
      match stripPrefix w s with
      | Some rest => Some rest
      | None => dropOne ws' s
      end
  end.

Fixpoint dropAll (ws : list string) (fuel : nat) (s : string) : string :=
  match fuel with
  | O => s
  | S fuel' =>
      match dropOne ws s with
      | Some rest => dropAll ws fuel' rest
      | None => s
      end
  end.

Definition reverse (s : string) : string :=
  string_of_list_ascii (rev (list_ascii_of_string s)).

Definition trimStart (s : string) : string :=
  dropAll whiteSpace (String.length s) s.

Definition trimEnd (s : string) : string :=
  reverse (dropAll (map reverse whiteSpace) (String.length s) (reverse s)).

(** String.prototype.trim. *)
Definition trim (s : string) : string := trimEnd (trimStart s).

Definition Env : Type := list (string * string).

(** [process.env[k]]: [None] is undefined. *)
Fixpoint getEnv (k : string) (env : Env) : option string :=
  match env with
  | [] => None
  | (k', v) :: env' => if k' =? k then Some v else getEnv k env'
  end.

(** [process.env[k] = v]; setenv refuses an empty name, and the
    assignment is then without effect. *)
Definition setEnv (k v : string) (env : Env) : Env :=
  if k =? "" then env else (k, v) :: env.

(** The body of the loop over the lines that hold an = sign. *)
Definition assign (env : Env) (line : string) : Env :=
  let (key, values) := splitAt "=" line in
  if negb (key =? "") && (0 <? length values)%nat
  then setEnv (trim key) (trim (String.concat "=" values)) env
  else env.

(** The loader, on the text of the file; [None]: the file cannot be
    read, and the catch block prints a warning. *)
Definition loadEnv (envFile : option string) (env : Env) : Env :=
  match envFile with
  | Some text =>
      fold_left assign (filter (isInfix "=") (split (ascii_of_nat 10) text)) env
  | None => env
  end.

(** [process.env.PROXMOX_ALLOW_ELEVATED === 'true']. *)
Definition allowsElevated (env : Env) : bool :=
  match getEnv "PROXMOX_ALLOW_ELEVATED" env with
  | Some v => v =? "true"
  | None => false
  end.

(** [new ProxmoxServer()] of index.js and [new ProxmoxClaudeServer()] of
    the REST server, after the loader has run. *)
Definition stdioServer (envFile : option string) (env : Env) : Stdio.ProxmoxServer :=
  Stdio.mkProxmoxServer (allowsElevated (loadEnv envFile env)).

Definition restServer (envFile : option string) (env : Env) : Rest.ProxmoxClaudeServer :=
  Rest.mkProxmoxClaudeServer (allowsElevated (loadEnv envFile env)).

End Startup.

(** ** formatUptime on a whole number of seconds

    Uptimes are whole seconds; below 2^53 the quotients and remainders of
    the function are exact in double precision, and Math.floor is the
    integer quotient. *)

Module Uptime.

Definition dhm (days hours minutes : Z) : string :=
  string_of_Z days ++ "d " ++ string_of_Z hours ++ "h " ++ string_of_Z minutes ++ "m".

Definition hm (hours minutes : Z) : string :=
  string_of_Z hours ++ "h " ++ string_of_Z minutes ++ "m".

(** formatUptime of index.js and of the REST server. *)
Definition formatUptime (seconds : Z) : string :=
  let days := (seconds / 86400)%Z in
  let hours := (Z.rem seconds 86400 / 3600)%Z in
  let minutes := (Z.rem seconds 3600 / 60)%Z in
  if (0 <? days)%Z then dhm days hours minutes
  else if (0 <? hours)%Z then hm hours minutes
  else string_of_Z minutes ++ "m".

(** formatUptime of the JSON-RPC endpoint over HTTP. *)
Definition formatUptimeHttp (seconds : Z) : string :=
  if (seconds =? 0)%Z then "N/A"
  else
    let hours := (seconds / 3600)%Z in
    let minutes := (Z.rem seconds 3600 / 60)%Z in
    hm hours minutes.

End Uptime.

(** ** The /api routes of the REST server *)

Module RestApi.

(** [res.json({ success: true, data })], or
    [res.status(500).json({ success: false, error })]. *)
Record ApiResponse (A : Type) : Type := mkApiResponse {
  api_status : Z;
  api_success : bool;
  api_data : option A;
  api_error : option string
}.
Arguments mkApiResponse {A}.
Arguments api_status {A}.
Arguments api_success {A}.
Arguments api_data {A}.
Arguments api_error {A}.

Section Routes.
Context {RT : Runtime}.
Variable self : Rest.ProxmoxClaudeServer.

(** The try and catch blocks every /api route has. *)
Definition api {A : Type} (handler : M (Backend num) A)
    : Backend num -> ApiResponse A * list Request :=
  fun be =>
    match handler be with
    | (Normal result, sent) => (mkApiResponse 200 true (Some result) None, sent)
    | (Thrown message, sent) => (mkApiResponse 500 false None (Some message), sent)
    end.

(** GET /api/vms, on [req.query]. *)
Definition apiVms (query : JsVal)
    : Backend num -> ApiResponse (Rest.VMsResult num) * list Request :=
  api (let node := getPropOpt query "node" in
       let type := orDefault (getPropOpt query "type") (JStr "all") in
       Rest.getVMs node type).

(** [const { command, type = 'qemu' } = req.body]. *)
Definition destructureBody (body : JsVal) : Completion (JsVal * JsVal) :=
  match body with
  | JUndefined =>
      Thrown "Cannot destructure property 'command' of 'req.body' as it is undefined."
  | JNull =>
      Thrown "Cannot destructure property 'command' of 'req.body' as it is null."
  | _ => Normal (getPropOpt body "command",
                 orDefault (getPropOpt body "type") (JStr "qemu"))
  end.

(** POST /api/vms/:node/:vmid/exec, on [req.params] and [req.body]. *)
Definition apiExec (node vmid : string) (body : JsVal)
    : Backend num -> ApiResponse Rest.CommandResult * list Request :=
  api (p <- liftC (destructureBody body) ;;
       let (command, type) := p in
       Rest.executeVMCommand self (JStr node) (JStr vmid) command type).

(** GET /api/storage, on [req.query]. *)
Definition apiStorage (query : JsVal)
    : Backend num -> ApiResponse (Rest.StoragesResult num) * list Request :=
  api (Rest.getStorage (getPropOpt query "node")).

End Routes.

End RestApi.

(** ** Notions used by the further properties *)

(** A reply that carries a JSON document. *)
Definition isAnswered {T : Type} (r : Reply T) : bool :=
  match r with
  | Answered (Json _) => true
  | _ => false
  end.

(** The elements of a list up to the first one that fails [ok], that one
    included. *)
Fixpoint upToFailure {A : Type} (ok : A -> bool) (l : list A) : list A :=
  match l with
  | [] => []
  | x :: l' => if ok x then x :: upToFailure ok l' else [x]
  end.

(** The first element of each key, in order, among those whose key is
    not in [seen]. *)
Fixpoint firstByKey {A : Type} (key : A -> string) (seen : list string) (l : list A)
    : list A :=
  match l with
  | [] => []
  | x :: l' =>
      if existsb (String.eqb (key x)) seen then firstByKey key seen l'
      else x :: firstByKey key (key x :: seen) l'
  end.

Section Listings.
Context {RT : Runtime}.

(** The guests one node contributes to the stdio listing of all nodes
    when each of its requests is answered, and these requests. *)
Definition stdioContribution (be : Backend num) (typeFilter : JsVal)
    (node : NodeInfo num) : list (VM num) :=
  ((if Stdio.wants typeFilter "qemu" then
      map (fun vm => mkVM vm "qemu" (node_node node))
        (answered (guestList be (get ("/nodes/" ++ node_node node ++ "/qemu"))))
    else [])
   ++ (if Stdio.wants typeFilter "lxc" then
         map (fun vm => mkVM vm "lxc" (Stdio.strOr (guest_node vm) (node_node node)))
           (answered (guestList be (get ("/nodes/" ++ node_node node ++ "/lxc"))))
       else []))%list.

Definition stdioTargets (typeFilter : JsVal) (node : NodeInfo num) : list Request :=
  ((if Stdio.wants typeFilter "qemu" then [get ("/nodes/" ++ node_node node ++ "/qemu")]
    else [])
   ++ (if Stdio.wants typeFilter "lxc" then [get ("/nodes/" ++ node_node node ++ "/lxc")]
       else []))%list.

(** The nodes the listing of the JSON-RPC endpoint does not skip. *)
Definition listed (nodeFilter : JsVal) (node : NodeInfo num) : bool :=
  negb (truthy nodeFilter && negb (isStr nodeFilter (node_node node))).

(** The guests one node contributes to the listing of the JSON-RPC
    endpoint: nothing when the first selected request fails; the virtual
    machines alone when the request for the containers fails. *)
Definition httpContribution (be : Backend num) (typeFilter : JsVal)
    (node : NodeInfo num) : list (VM num) :=
  let qemu := guestList be (get ("/nodes/" ++ node_node node ++ "/qemu")) in
  let lxc := guestList be (get ("/nodes/" ++ node_node node ++ "/lxc")) in
  if HttpMcp.wants typeFilter "qemu" then
    if isAnswered qemu then
      (map (fun vm => mkVM vm "qemu" (node_node node)) (answered qemu)
       ++ (if HttpMcp.wants typeFilter "lxc" then
             map (fun vm => mkVM vm "lxc" (node_node node)) (answered lxc)
           else []))%list
    else []
  else if HttpMcp.wants typeFilter "lxc" then
    map (fun vm => mkVM vm "lxc" (node_node node)) (answered lxc)
  else [].

(** The requests that listing sends for one node: none for the
    containers once the request for the virtual machines has failed. *)
Definition httpTargets (be : Backend num) (typeFilter : JsVal)
    (node : NodeInfo num) : list Request :=
  let qemu := get ("/nodes/" ++ node_node node ++ "/qemu") in
  let lxc := get ("/nodes/" ++ node_node node ++ "/lxc") in
  if HttpMcp.wants typeFilter "qemu" then
    qemu :: (if isAnswered (guestList be qemu) && HttpMcp.wants typeFilter "lxc"
             then [lxc] else [])
  else if HttpMcp.wants typeFilter "lxc" then [lxc]
  else [].

(** The pools one node contributes to a storage listing. *)
Definition pools (be : Backend num) (node : NodeInfo num) : list (Storage num) :=
  map (fun storage => mkStorage storage (node_node node))
    (answered (storageList be (get ("/nodes/" ++ node_node node ++ "/storage")))).

Definition poolsRequest (node : NodeInfo num) : Request :=
  get ("/nodes/" ++ node_node node ++ "/storage").

(** The key by which index.js tells storage pools apart. *)
Definition storageKey (storage : Storage num) : string :=
  storage_storage (st_info storage) ++ "-" ++ st_node storage.

End Listings.

(** The requests of a method are all GETs. *)
Definition OnlyGets {B A : Type} (m : M B A) : Prop :=
  forall be, Forall (fun rq => method rq = "GET") (snd (m be)).

(** [null] or [undefined]. *)
Definition isNullish (v : JsVal) : bool :=
  match v with
  | JUndefined | JNull => true
  | _ => false
  end.

(** The request bodies the POST route of the JSON-RPC endpoint cannot
    handle: no body at all, and a tools/call without params. *)
Definition unhandled (body : JsVal) : bool :=
  isNullish body
  || (isStr (getPropOpt body "method") "tools/call"
      && isNullish (getPropOpt body "params")).

Section RestListing.
Context {RT : Runtime}.

(** Whether the requests GET /api/vms depends on are answered: those of
    the selected kinds of the node asked for, or GET /nodes alone. *)
Definition vmsAnswered (be : Backend num) (node type : JsVal) : bool :=
  if truthy node then
    (negb (Rest.wants type "qemu")
     || isAnswered (guestList be (get ("/nodes/" ++ toStr node ++ "/qemu"))))
    && (negb (Rest.wants type "lxc")
        || isAnswered (guestList be (get ("/nodes/" ++ toStr node ++ "/lxc"))))
  else isAnswered (nodeList be (get "/nodes")).

End RestListing.

(** * Properties *)

(** ** Text *)

Lemma append_assoc (a b c : string) : (a ++ b) ++ c = a ++ (b ++ c).
Proof.
  induction a as [| x a IH]; simpl; [reflexivity | now rewrite IH].
Qed.

Lemma append_nil_r (a : string) : a ++ "" = a.
Proof.
  induction a as [| x a IH]; simpl; [reflexivity | now rewrite IH].
Qed.

Lemma prefix_iff (p s : string) : prefix p s = true <-> exists b, s = p ++ b.
Proof.
  revert s; induction p as [| x p IH]; intros s; simpl.
  - split; [intros _; now exists s | intros _; now destruct s].
  - destruct s as [| y s].
    + split; [discriminate | intros [b H]; discriminate].
    + simpl. destruct (ascii_dec x y) as [-> | Hne].
      * rewrite IH. split; intros [b H]; exists b; [now rewrite H | now inversion H].
      * split; [discriminate | intros [b H]; inversion H; congruence].
Qed.

Lemma Infix_here (p b : string) : Infix p (p ++ b).
Proof. now exists "", b. Qed.

Lemma Infix_append_l (a p s : string) : Infix p s -> Infix p (a ++ s).
Proof.
  intros [u [v ->]]. exists (a ++ u), v. now rewrite append_assoc.
Qed.

Lemma isInfix_iff (p s : string) : isInfix p s = true <-> Infix p s.
Proof.
  induction s as [| c s IH].
  - change (isInfix p "") with (prefix p "" || false).
    rewrite orb_false_r, prefix_iff. split.
    + intros [b ->]. apply Infix_here.
    + intros [[| x a] [b H]]; [now exists b | discriminate].
  - change (isInfix p (String c s)) with (prefix p (String c s) || isInfix p s).
    rewrite orb_true_iff, prefix_iff, IH. split.
    + intros [[b ->] | H]; [apply Infix_here | apply (Infix_append_l (String c "")), H].
    + intros [[| x a] [b H]].
      * left. now exists b.
      * right. simpl in H. inversion H. now exists a, b.
Qed.

Lemma not_Infix (p s : string) : isInfix p s = false -> ~ Infix p s.
Proof.
  intros H I. apply isInfix_iff in I. congruence.
Qed.

Lemma Infix_append_r (p s b : string) : Infix p s -> Infix p (s ++ b).
Proof.
  intros [u [v ->]]. exists u, (v ++ b). now rewrite !append_assoc.
Qed.

(** Finds [p] in a text built by appending: as one of the appended
    pieces, or inside one that is a literal. *)
Ltac infix_in_text :=
  repeat first
    [ apply Infix_here
    | apply Infix_append_r; apply isInfix_iff; reflexivity
    | apply Infix_append_l ].



(** ** Sorting *)

Section Sorting.
Context {A : Type} (cmp : A -> A -> Z).

Lemma insertSorted_Permutation (x : A) (l : list A) :
  Permutation (insertSorted cmp x l) (x :: l).
Proof.
  induction l as [| y l IH]; simpl; [reflexivity |].
  destruct (cmp x y <=? 0)%Z; [reflexivity |].
  rewrite IH. apply perm_swap.
Qed.

Lemma sortWith_Permutation (l : list A) : Permutation (sortWith cmp l) l.
Proof.
  induction l as [| x l IH]; simpl; [reflexivity |].
  rewrite insertSorted_Permutation. now apply perm_skip.
Qed.

(** A comparator that is consistent: any two elements are comparable, and
    the comparison is transitive. *)
Hypothesis cmp_total : forall a b, (cmp a b <= 0)%Z \/ (cmp b a <= 0)%Z.
Hypothesis cmp_trans :
  forall a b c, (cmp a b <= 0)%Z -> (cmp b c <= 0)%Z -> (cmp a c <= 0)%Z.

Let le (a b : A) : Prop := (cmp a b <= 0)%Z.

Lemma insertSorted_sorted (x : A) (l : list A) :
  StronglySorted le l -> StronglySorted le (insertSorted cmp x l).
Proof.
  induction 1 as [| y l Hs IH Hy]; simpl.
  - repeat constructor.
  - destruct (Z.leb_spec (cmp x y) 0) as [Hle | Hgt].
    + constructor; [now constructor |].
      constructor; [exact Hle |].
      eapply Forall_impl; [| exact Hy]. intros z Hz. exact (cmp_trans _ _ _ Hle Hz).
    + constructor; [exact IH |].
      eapply Permutation_Forall;
        [symmetry; apply (insertSorted_Permutation x l) |].
      constructor; [| exact Hy].
      destruct (cmp_total y x) as [H | H]; [exact H | lia].
Qed.

Lemma sortWith_sorted (l : list A) : StronglySorted le (sortWith cmp l).
Proof.
  induction l as [| x l IH]; simpl; [constructor | now apply insertSorted_sorted].
Qed.
End Sorting.

Lemma StronglySorted_weaken {A : Type} (R S : A -> A -> Prop) (l : list A) :
  (forall a b, R a b -> S a b) -> StronglySorted R l -> StronglySorted S l.
Proof.
  intros RS. induction 1 as [| x l Hs IH Hx]; constructor; [exact IH |].
  eapply Forall_impl; [| exact Hx]. intros y. apply RS.
Qed.

(** Sorting by an integer key: [cmp a b = key a - key b]. *)
Section SortingByKey.
Context {A : Type} (key : A -> Z).

Let cmp (a b : A) : Z := (key a - key b)%Z.

Lemma sortByKey_sorted (l : list A) :
  StronglySorted (fun a b => key a <= key b)%Z (sortWith cmp l).
Proof.
  eapply StronglySorted_weaken; [| apply (sortWith_sorted cmp)];
    unfold cmp; intros; lia.
Qed.


End SortingByKey.

(** ** The method monad *)

Section Monad.
Context {B : Type}.

Lemma Returns_ret {A : Type} (P : A -> Prop) (a : A) :
  P a -> Returns P (@ret B A a).
Proof. intros H be a' E. simpl in E. inversion E; subst. exact H. Qed.

Lemma Returns_throw {A : Type} (P : A -> Prop) (e : string) :
  Returns P (@throw B A e).
Proof. intros be a E. discriminate. Qed.

Lemma Returns_bind {A C : Type} (P : C -> Prop) (m : M B A) (k : A -> M B C) :
  (forall a, Returns P (k a)) -> Returns P (bind m k).
Proof.
  intros H be c. unfold bind. destruct (m be) as [[a | e] sent]; [| discriminate].
  specialize (H a be c). destruct (k a be) as [c' sent']. exact H.
Qed.

Lemma Returns_tryCatch {A : Type} (P : A -> Prop) (m : M B A) (h : string -> M B A) :
  Returns P m -> (forall e, Returns P (h e)) -> Returns P (tryCatch m h).
Proof.
  intros Hm Hh be a. unfold tryCatch. specialize (Hm be a).
  destruct (m be) as [[a' | e] sent]; [exact Hm |].
  specialize (Hh e be a). destruct (h e be) as [c sent']. exact Hh.
Qed.

(** A method that only returns sends what its continuation sends. *)
Lemma bind_ret {A C : Type} (a : A) (k : A -> M B C) (be : B) :
  bind (ret a) k be = k a be.
Proof. unfold bind, ret. now destruct (k a be). Qed.

Lemma bind_liftC_Normal {A C : Type} (a : A) (k : A -> M B C) (be : B) :
  bind (liftC (Normal a)) k be = k a be.
Proof. unfold bind, liftC. now destruct (k a be). Qed.

Lemma bind_Normal {A C : Type} (m : M B A) (k : A -> M B C) (be : B)
    (a : A) (sent : list Request) (c : Completion C) (sent' : list Request) :
  m be = (Normal a, sent) -> k a be = (c, sent') ->
  bind m k be = (c, (sent ++ sent')%list).
Proof. intros Hm Hk. unfold bind. now rewrite Hm, Hk. Qed.

Lemma bind_Thrown {A C : Type} (m : M B A) (k : A -> M B C) (be : B)
    (e : string) (sent : list Request) :
  m be = (Thrown e, sent) -> bind m k be = (Thrown e, sent).
Proof. intros Hm. unfold bind. now rewrite Hm. Qed.

Lemma bind_liftC_Thrown {A C : Type} (e : string) (k : A -> M B C) (be : B) :
  bind (liftC (Thrown e)) k be = (Thrown e, []).
Proof. reflexivity. Qed.
End Monad.

Ltac returns :=
  cbv zeta;
  repeat lazymatch goal with
    | |- Returns _ (bind _ _) => apply Returns_bind; intros
    | |- Returns _ (tryCatch _ _) => apply Returns_tryCatch; [| intros]
    | |- Returns _ (ret _) => apply Returns_ret
    | |- Returns _ (throw _) => apply Returns_throw
    | |- Returns _ (if ?b then _ else _) => destruct b
    end.

(** ** The stdio server: every tool answers with one text item *)

Section StdioResults.
Context {RT : Runtime}.
Variable self : Stdio.ProxmoxServer.

Local Ltac single := try (now eexists).

Lemma getNodes_text : Returns SingleText Stdio.getNodes.
Proof. unfold Stdio.getNodes. returns; single. Qed.

Lemma getNodeStatus_text node : Returns SingleText (Stdio.getNodeStatus self node).
Proof. unfold Stdio.getNodeStatus. returns; single. Qed.

Lemma getVMs_text nodeFilter typeFilter :
  Returns SingleText (Stdio.getVMs nodeFilter typeFilter).
Proof. unfold Stdio.getVMs. returns; single. Qed.

Lemma getVMStatus_text node vmid type :
  Returns SingleText (Stdio.getVMStatus node vmid type).
Proof. unfold Stdio.getVMStatus. returns; single. Qed.

Lemma attemptCommand_text node vmid command type :
  Returns SingleText (Stdio.attemptCommand node vmid command type).
Proof. unfold Stdio.attemptCommand. returns; single. Qed.

Lemma executeVMCommand_text node vmid command type :
  Returns SingleText (Stdio.executeVMCommand self node vmid command type).
Proof.
  unfold Stdio.executeVMCommand. returns; single. apply attemptCommand_text.
Qed.

Lemma getStorage_text nodeFilter : Returns SingleText (Stdio.getStorage nodeFilter).
Proof. unfold Stdio.getStorage. returns; single. Qed.

Lemma getClusterStatus_text : Returns SingleText (Stdio.getClusterStatus self).
Proof. unfold Stdio.getClusterStatus. returns; single. Qed.

Lemma dispatch_text name args : Returns SingleText (Stdio.dispatch self name args).
Proof.
  unfold Stdio.dispatch. returns;
    auto using getNodes_text, getNodeStatus_text, getVMs_text, getVMStatus_text,
      executeVMCommand_text, getStorage_text, getClusterStatus_text.
Qed.
End StdioResults.

(** ** The stdio server: dispatch, gate and catch *)

Section StdioDispatch.
Context {RT : Runtime}.
Variable self : Stdio.ProxmoxServer.

(** What callTool answers, by what its switch did. *)
Lemma callTool_outcome (name : string) (args : JsVal) (be : Backend num) :
  match fst (Stdio.dispatch self name args be) with
  | Normal r => fst (Stdio.callTool self name args be) = Normal r /\ SingleText r
  | Thrown message =>
      fst (Stdio.callTool self name args be) = Normal (textResult ("Error: " ++ message))
  end.
Proof.
  pose proof (dispatch_text self name args be) as T.
  unfold Stdio.callTool, tryCatch.
  destruct (Stdio.dispatch self name args be) as [[r | e] sent]; simpl in *.
  - split; [reflexivity | now apply T].
  - reflexivity.
Qed.

Lemma not_in_catalogue (name : string) :
  ~ In name catalogue ->
  (name =? "proxmox_get_nodes") = false
  /\ (name =? "proxmox_get_node_status") = false
  /\ (name =? "proxmox_get_vms") = false
  /\ (name =? "proxmox_get_vm_status") = false
  /\ (name =? "proxmox_execute_vm_command") = false
  /\ (name =? "proxmox_get_storage") = false
  /\ (name =? "proxmox_get_cluster_status") = false.
Proof.
  intros H. repeat split; apply String.eqb_neq; intros ->; apply H; simpl; tauto.
Qed.

Lemma callTool_unknown (name : string) (args : JsVal) (be : Backend num) :
  ~ In name catalogue ->
  Stdio.callTool self name args be
  = (Normal (textResult ("Error: " ++ "Unknown tool: " ++ name)), []).
Proof.
  intros H. destruct (not_in_catalogue name H) as (E1 & E2 & E3 & E4 & E5 & E6 & E7).
  unfold Stdio.callTool, Stdio.dispatch, tryCatch.
  now rewrite E1, E2, E3, E4, E5, E6, E7.
Qed.

(** C10. The CallTool handler of the stdio server never throws: for every
    tool name, every arguments value and every backend it returns a result.
    When the switch returns, the result is what the tool returned, a single
    text item; when anything inside the switch throws, the result is the
    single text item "Error: " followed by the message of the error.  In
    particular a request without arguments makes each tool that reads a
    member of them answer with the TypeError's message. *)
Theorem callTool_never_throws (name : string) (args : JsVal) (be : Backend num) :
  (exists t, fst (Stdio.callTool self name args be) = Normal (textResult t))
  /\ match fst (Stdio.dispatch self name args be) with
     | Normal r => fst (Stdio.callTool self name args be) = Normal r /\ SingleText r
     | Thrown message =>
         fst (Stdio.callTool self name args be)
         = Normal (textResult ("Error: " ++ message))
     end
  /\ Forall
       (fun tool =>
          Stdio.callTool self tool JUndefined be
          = (Normal (textResult
                       "Error: Cannot read properties of undefined (reading 'node')"),
             []))
       [ "proxmox_get_node_status"; "proxmox_get_vms"; "proxmox_get_vm_status";
         "proxmox_execute_vm_command"; "proxmox_get_storage" ].
Proof.
  pose proof (callTool_outcome name args be) as O.
  split; [| split].
  - destruct (fst (Stdio.dispatch self name args be)) as [r | e].
    + destruct O as [E [t ->]]. now exists t.
    + eexists. exact O.
  - exact O.
  - repeat constructor.
Qed.

End StdioDispatch.

Section StdioGate.
Context {RT : Runtime}.

Lemma elevationNotice_has_command (command : JsVal) :
  Infix ("**Requested command**: `" ++ toStr command ++ "`")
    (Stdio.elevationNotice command).
Proof.
  exists (Stdio.warning ++ "  **VM Command Execution Requires Elevated Permissions**"
          ++ nl ++ nl
          ++ "To execute commands on VMs, set `PROXMOX_ALLOW_ELEVATED=true` in your .env file and ensure your API token has appropriate VM permissions."
          ++ nl ++ nl
          ++ "**Current permissions**: Basic (VM listing only)" ++ nl), "".
  unfold Stdio.elevationNotice. now rewrite append_nil_r, !append_assoc.
Qed.

Lemma elevationNotice_explains (command : JsVal) :
  Infix "Requires Elevated Permissions" (Stdio.elevationNotice command).
Proof.
  unfold Stdio.elevationNotice. apply Infix_append_l, Infix_append_r.
  now apply isInfix_iff.
Qed.

Lemma nodeStatusNotice_explains :
  Infix "Requires Elevated Permissions" Stdio.nodeStatusNotice.
Proof.
  unfold Stdio.nodeStatusNotice. apply Infix_append_l, Infix_append_r.
  now apply isInfix_iff.
Qed.

(** C1, as amended.  While the elevation flag is false, a tools/call of a
    gated tool whose arguments are an object is answered, without any
    request to the hypervisor, by a result whose single text item is the
    elevation notice of the tool.  The notice of
    proxmox_execute_vm_command, for a command that is printable (a
    string, say), explains that elevation is required and contains the
    command after the words "Requested command"; the notice of
    proxmox_get_node_status is a fixed text, whatever the arguments are.
    A call without arguments is answered by the message of the TypeError
    instead, again without any request. *)
Theorem gated_tools_answer_with_notice
    (self : Stdio.ProxmoxServer) (members : list (string * JsVal)) (be : Backend num) :
  Stdio.allowElevated self = false ->
  let command := lookup "command" members in
  (printable command = true ->
   Stdio.callTool self "proxmox_execute_vm_command" (JObj members) be
   = (Normal (textResult (Stdio.elevationNotice command)), [])
   /\ Infix "Requires Elevated Permissions" (Stdio.elevationNotice command)
   /\ Infix ("**Requested command**: `" ++ toStr command ++ "`")
         (Stdio.elevationNotice command))
  /\ Stdio.callTool self "proxmox_get_node_status" (JObj members) be
     = (Normal (textResult Stdio.nodeStatusNotice), [])
  /\ Infix "Requires Elevated Permissions" Stdio.nodeStatusNotice
  /\ Stdio.callTool self "proxmox_execute_vm_command" JUndefined be
     = (Normal (textResult "Error: Cannot read properties of undefined (reading 'node')"),
        [])
  /\ Stdio.callTool self "proxmox_get_node_status" JUndefined be
     = (Normal (textResult "Error: Cannot read properties of undefined (reading 'node')"),
        []).
Proof.
  intros E command.
  split; [intros P; split; [| split] | split; [| split; [| split]]];
    auto using elevationNotice_explains, elevationNotice_has_command,
      nodeStatusNotice_explains.
  - unfold Stdio.callTool, Stdio.dispatch, Stdio.executeVMCommand, tryCatch, bind, liftC.
    simpl. now rewrite E.
  - unfold Stdio.callTool, Stdio.dispatch, Stdio.getNodeStatus, tryCatch, bind, liftC.
    simpl. now rewrite E.
Qed.

End StdioGate.

(** The scenario of the specification: elevation disabled, the command
    [uptime] for guest 100 of node n1. *)
Lemma gated_tools_answer_with_notice_witness :
  Stdio.callTool (RT := plainRuntime) basic "proxmox_execute_vm_command"
    (JObj [ ("node", JStr "n1"); ("vmid", JStr "100"); ("command", JStr "uptime") ])
    unreachable
  = (Normal (textResult (Stdio.elevationNotice (JStr "uptime"))), [])
  /\ Infix "**Requested command**: `uptime`" (Stdio.elevationNotice (JStr "uptime")).
Proof.
  pose proof (gated_tools_answer_with_notice (RT := plainRuntime) basic
                [ ("node", JStr "n1"); ("vmid", JStr "100"); ("command", JStr "uptime") ]
                unreachable eq_refl) as (H & _).
  destruct (H eq_refl) as (H1 & _ & H3).
  split; [exact H1 | exact H3].
Defined.

(** C1, counterexample.  With elevation disabled, the answer to
    proxmox_get_node_status for the node pve1 is the elevation notice, and
    the notice does not contain the requested tool's argument. *)
Lemma gated_node_status_omits_its_argument :
  Stdio.callTool (RT := plainRuntime) basic "proxmox_get_node_status"
    (JObj [ ("node", JStr "pve1") ]) unreachable
  = (Normal (textResult Stdio.nodeStatusNotice), [])
  /\ ~ Infix "pve1" Stdio.nodeStatusNotice.
Proof.
  split; [reflexivity | now apply not_Infix].
Qed.

(** ** Tool errors on the two transports *)

Section ToolErrors.
Context {RT : Runtime}.
Variable self : Stdio.ProxmoxServer.
Variable http : HttpMcp.ProxmoxMCPServer.

Lemma respond_callTool (id : JsVal) (name : string) (args : JsVal) (be : Backend num) :
  Stdio.respond self (Stdio.CallTool id name args) be
  = match Stdio.callTool self name args be with
    | (Normal r, sent) => (Normal (Success (ToolResult r) id), sent)
    | (Thrown e, sent) => (Thrown e, sent)
    end.
Proof.
  unfold Stdio.respond, bind.
  destruct (Stdio.callTool self name args be) as [[r | e] sent]; simpl;
    [now rewrite app_nil_r | reflexivity].
Qed.

(** handleToolCall, by what its switch did. *)
Lemma handleToolCall_outcome (request name args : JsVal) (be : Backend num) :
  HttpMcp.destructureParams (getPropOpt request "params") = Normal (name, args) ->
  HttpMcp.handleToolCall http request be
  = match HttpMcp.dispatch name args be with
    | (Normal result, sent) =>
        (Normal (Success (ToolResult (textResult result)) (getPropOpt request "id")), sent)
    | (Thrown message, sent) =>
        (Normal (Failure (toolFailure message) (getPropOpt request "id")), sent)
    end.
Proof.
  intros E. unfold HttpMcp.handleToolCall. rewrite E, bind_liftC_Normal.
  unfold tryCatch, bind.
  destruct (HttpMcp.dispatch name args be) as [[t | e] sent]; simpl;
    now rewrite app_nil_r.
Qed.

Lemma handleMCPRequest_toolCall (id params : JsVal) (be : Backend num) :
  HttpMcp.handleMCPRequest http (rpc id "tools/call" params) be
  = HttpMcp.handleToolCall http (rpc id "tools/call" params) be.
Proof.
  unfold HttpMcp.handleMCPRequest, rpc. simpl. now rewrite bind_liftC_Normal.
Qed.

Lemma http_dispatch_unknown (name : string) (args : JsVal) (be : Backend num) :
  ~ In name httpCatalogue ->
  HttpMcp.dispatch (JStr name) args be = (Thrown ("Unknown tool: " ++ name), []).
Proof.
  intros H. unfold HttpMcp.dispatch, isStr.
  assert (E1 : (name =? "proxmox_get_nodes") = false)
    by (apply String.eqb_neq; intros ->; apply H; simpl; tauto).
  assert (E2 : (name =? "proxmox_get_vms") = false)
    by (apply String.eqb_neq; intros ->; apply H; simpl; tauto).
  assert (E3 : (name =? "proxmox_get_cluster_status") = false)
    by (apply String.eqb_neq; intros ->; apply H; simpl; tauto).
  now rewrite E1, E2, E3.
Qed.

(** C2, as amended.  A tools/call whose name is no tool of the catalogue
    is answered on the stdio transport, when the request is one the SDK
    hands to the handler (its id a string or a number, its arguments an
    object or absent), by a Success whose text is
    "Error: Unknown tool: <name>", and on the HTTP transport by a Failure
    with code -32603, message "Tool execution failed" and data
    "Unknown tool: <name>"; neither sends a request to the hypervisor.
    More generally an error thrown inside the tool switch becomes the text
    "Error: <message>" of a Success on stdio (for such a request whose
    arguments have printable members), and the data of such a Failure on
    HTTP. *)
Theorem tool_errors_by_transport
    (id : JsVal) (name : string) (args : JsVal) (be : Backend num) :
  ~ In name catalogue ->
  (isRequestId id = true -> isArguments args = true ->
   Stdio.respond self (Stdio.CallTool id name args) be
   = (Normal (Success (ToolResult (textResult ("Error: " ++ "Unknown tool: " ++ name))) id),
      []))
  /\ HttpMcp.handleMCPRequest http (rpc id "tools/call" (toolCall name args)) be
     = (Normal (Failure (toolFailure ("Unknown tool: " ++ name)) id), [])
  /\ (forall tool arguments,
        isRequestId id = true -> plainArguments arguments = true ->
        match fst (Stdio.dispatch self tool arguments be) with
        | Normal r =>
            fst (Stdio.respond self (Stdio.CallTool id tool arguments) be)
            = Normal (Success (ToolResult r) id)
        | Thrown message =>
            fst (Stdio.respond self (Stdio.CallTool id tool arguments) be)
            = Normal (Success (ToolResult (textResult ("Error: " ++ message))) id)
        end)
  /\ (forall tool arguments,
        match fst (HttpMcp.dispatch (JStr tool) arguments be) with
        | Normal result =>
            fst (HttpMcp.handleMCPRequest http
                   (rpc id "tools/call" (toolCall tool arguments)) be)
            = Normal (Success (ToolResult (textResult result)) id)
        | Thrown message =>
            fst (HttpMcp.handleMCPRequest http
                   (rpc id "tools/call" (toolCall tool arguments)) be)
            = Normal (Failure (toolFailure message) id)
        end).
Proof.
  intros H. split; [| split; [| split]].
  - intros _ _. now rewrite respond_callTool, callTool_unknown.
  - rewrite handleMCPRequest_toolCall,
      (handleToolCall_outcome _ (JStr name) args) by reflexivity.
    rewrite http_dispatch_unknown; [reflexivity |].
    intros I. apply H. unfold httpCatalogue, catalogue in *. simpl in *. tauto.
  - intros tool arguments _ _. rewrite respond_callTool.
    pose proof (callTool_outcome self tool arguments be) as O.
    destruct (fst (Stdio.dispatch self tool arguments be)) as [r | e];
      [destruct O as [O _] |];
      destruct (Stdio.callTool self tool arguments be) as [c sent];
      simpl in O; now subst c.
  - intros tool arguments.
    rewrite handleMCPRequest_toolCall,
      (handleToolCall_outcome _ (JStr tool) arguments) by reflexivity.
    now destruct (HttpMcp.dispatch (JStr tool) arguments be) as [[t | e] sent].
Qed.

End ToolErrors.

(** The scenario of the specification: the tool nonexistent_tool with
    empty arguments. *)
Lemma tool_errors_by_transport_witness :
  Stdio.respond (RT := plainRuntime) basic
    (Stdio.CallTool (JNum 1) "nonexistent_tool" (JObj [])) unreachable
  = (Normal (Success (ToolResult (textResult "Error: Unknown tool: nonexistent_tool"))
               (JNum 1)), []).
Proof.
  refine (proj1 (tool_errors_by_transport (RT := plainRuntime) basic
                   (HttpMcp.mkProxmoxMCPServer false) (JNum 1) "nonexistent_tool"
                   (JObj []) unreachable _) eq_refl eq_refl).
  unfold catalogue; simpl; intuition discriminate.
Defined.

(** C2, counterexample.  On the HTTP transport the call of
    nonexistent_tool is answered by a protocol Failure, not by a Success
    with an explanatory text. *)
Lemma http_unknown_tool_is_a_failure :
  HttpMcp.post (RT := plainRuntime) (HttpMcp.mkProxmoxMCPServer false)
    (rpc (JNum 1) "tools/call" (toolCall "nonexistent_tool" (JObj []))) unreachable
  = ({| HttpMcp.http_status := 200;
        HttpMcp.http_json :=
          Failure {| code := -32603; message := "Tool execution failed";
                     data := "Unknown tool: nonexistent_tool" |} (JNum 1) |}, []).
Proof. reflexivity. Qed.

(** ** The listing of all nodes by the REST server *)

Section RestFanOut.
Context {RT : Runtime}.

(** A loop whose body always returns, appending [f x] to the array and
    sending [g x], returns the array extended by every [f x] after
    sending every [g x]. *)
Lemma forEach_appends {B A T : Type} (step : list T -> A -> M B (list T))
    (f : A -> list T) (g : A -> list Request) (be : B) :
  (forall acc x, step acc x be = (Normal (acc ++ f x)%list, g x)) ->
  forall xs acc,
    forEach step xs acc be = (Normal (acc ++ flat_map f xs)%list, flat_map g xs).
Proof.
  intros Hstep. induction xs as [| x xs IH]; intros acc; simpl.
  - now rewrite app_nil_r.
  - unfold bind. rewrite Hstep, IH. now rewrite <- app_assoc.
Qed.

Lemma rest_get {T : Type} (view : Backend num -> Request -> Reply T)
    (endpoint : string) (be : Backend num) (d : T) :
  view be (get endpoint) = Answered (Json d) ->
  Rest.proxmoxRequest view endpoint "GET" None be = (Normal d, [get endpoint]).
Proof.
  intros E. unfold Rest.proxmoxRequest. simpl. fold (get endpoint). now rewrite E.
Qed.

(** One guarded fetch of the loop: the guests of an answer are pushed, a
    failure leaves the array as it is; the request is sent either way. *)
Lemma guarded_fetch (endpoint kind : string) (node : NodeInfo num)
    (vms : list (VM num)) (be : Backend num) :
  tryCatch
    (l <- Rest.proxmoxRequest (@guestList num) endpoint "GET" None ;;
     ret (vms ++ map (fun vm => mkVM vm kind (node_node node)) l)%list)
    (fun _ => ret vms) be
  = (Normal (vms ++ map (fun vm => mkVM vm kind (node_node node))
                      (answered (guestList be (get endpoint))))%list,
     [get endpoint]).
Proof.
  unfold tryCatch, bind, Rest.proxmoxRequest, get, answered. simpl.
  destruct (guestList be _) as [m | st stt tx | [| reason | l]]; simpl;
    now rewrite ?app_nil_r.
Qed.

Lemma collectVMs_all_nodes (nodeName type : JsVal) (be : Backend num)
    (nodes : list (NodeInfo num)) :
  truthy nodeName = false ->
  nodeList be (get "/nodes") = Answered (Json nodes) ->
  Rest.collectVMs nodeName type be
  = (Normal (flat_map (contribution be type) nodes),
     get "/nodes" :: flat_map (targets type) nodes).
Proof.
  intros F N. unfold Rest.collectVMs. rewrite F.
  eapply eq_trans;
    [eapply bind_Normal;
     [exact (rest_get _ _ _ _ N)
     | apply (forEach_appends _ (contribution be type) (targets type))]
    | reflexivity].
  intros acc node. unfold contribution, targets.
  destruct (Rest.wants type "qemu"), (Rest.wants type "lxc");
    (eapply eq_trans;
     [eapply bind_Normal; first [apply guarded_fetch | reflexivity] |]);
    simpl; now rewrite ?app_nil_r, ?app_assoc.
Qed.

(** C3, as amended.  The REST server's listing of the guests of all nodes
    (getVMs without a node filter) sends, after GET /nodes, one request
    for every node and selected kind, in node order, whether or not an
    earlier one failed, and it returns.  The [vms] it returns are the
    guests of the requests that were answered, each with its kind and
    node, arranged by vmid; a request that failed contributes no guest.
    The result holds this array and the text built from it and nothing
    else: a target that failed is recorded nowhere. *)
Theorem rest_listing_isolates_failures (nodeName type : JsVal) (be : Backend num)
    (nodes : list (NodeInfo num)) :
  truthy nodeName = false ->
  nodeList be (get "/nodes") = Answered (Json nodes) ->
  let type' := orDefault type (JStr "all") in
  let merged := flat_map (contribution be type') nodes in
  Rest.getVMs nodeName type be
  = (Normal {| Rest.vms_content := Rest.textItem (Rest.renderVMs (sortWith Rest.byVmid merged));
               Rest.vms_vms := sortWith Rest.byVmid merged |},
     get "/nodes" :: flat_map (targets type') nodes)
  /\ Permutation (sortWith Rest.byVmid merged) merged
  /\ StronglySorted vmidLe (sortWith Rest.byVmid merged).
Proof.
  intros F N type' merged. split; [| split].
  - unfold Rest.getVMs, bind.
    rewrite (collectVMs_all_nodes _ type' be nodes); [| now destruct nodeName | exact N].
    simpl. now rewrite app_nil_r.
  - apply sortWith_Permutation.
  - apply (sortByKey_sorted (fun vm => guest_vmid (vm_info vm))).
Qed.

End RestFanOut.

(** The scenario of the specification: the containers of a two-node
    cluster whose second node cannot be reached. *)
Lemma rest_listing_isolates_failures_witness :
  Rest.vms_vms
    (match fst (Rest.getVMs (RT := plainRuntime) JUndefined (JStr "lxc")
                  (twoNodes (Unreachable "connect EHOSTUNREACH"))) with
     | Normal r => r
     | Thrown _ => Rest.mkVMsResult [] []
     end)
  = [ mkVM (stoppedGuest 101 "web") "lxc" "pveA"; mkVM (stoppedGuest 103 "db") "lxc" "pveA" ].
Proof.
  rewrite (proj1 (rest_listing_isolates_failures (RT := plainRuntime) JUndefined (JStr "lxc")
                    (twoNodes (Unreachable "connect EHOSTUNREACH"))
                    [bareNode "pveA"; bareNode "pveB"] eq_refl eq_refl)).
  reflexivity.
Defined.

(** C3, counterexample.  In the two-node cluster whose node pveB cannot be
    reached, the REST listing of the containers sends the request for pveB
    and returns the text and the array of the containers of pveA.  pveB is
    in no collection of the result: the result is the very one returned
    when pveB answers with an empty list. *)
Lemma failed_target_is_recorded_nowhere :
  Rest.getVMs (RT := plainRuntime) JUndefined (JStr "lxc")
    (twoNodes (Unreachable "connect EHOSTUNREACH"))
  = (Normal
       {| Rest.vms_content :=
            Rest.textItem
              (Rest.renderVMs (RT := plainRuntime)
                 [ mkVM (stoppedGuest 101 "web") "lxc" "pveA";
                   mkVM (stoppedGuest 103 "db") "lxc" "pveA" ]);
          Rest.vms_vms :=
            [ mkVM (stoppedGuest 101 "web") "lxc" "pveA";
              mkVM (stoppedGuest 103 "db") "lxc" "pveA" ] |},
     [ get "/nodes"; get "/nodes/pveA/lxc"; get "/nodes/pveB/lxc" ])
  /\ Rest.getVMs (RT := plainRuntime) JUndefined (JStr "lxc")
       (twoNodes (Unreachable "connect EHOSTUNREACH"))
     = Rest.getVMs (RT := plainRuntime) JUndefined (JStr "lxc")
         (twoNodes (Answered (Json [])))
  /\ ~ Infix "pveB"
         (Rest.renderVMs (RT := plainRuntime)
            [ mkVM (stoppedGuest 101 "web") "lxc" "pveA";
              mkVM (stoppedGuest 103 "db") "lxc" "pveA" ]).
Proof.
  split; [reflexivity | split; [reflexivity | now apply not_Infix]].
Qed.

(** The same cluster on the stdio server: getVMs of index.js has no
    guard around the fetches of a node, so the failure of pveB ends the
    listing and the handler answers with the message of the error. *)
Lemma stdio_listing_stops_at_a_failure :
  Stdio.callTool (RT := plainRuntime) basic "proxmox_get_vms"
    (JObj [ ("type", JStr "lxc") ]) (twoNodes (Unreachable "connect EHOSTUNREACH"))
  = (Normal (textResult "Error: Failed to connect to Proxmox: connect EHOSTUNREACH"),
     [ get "/nodes"; get "/nodes/pveA/lxc"; get "/nodes/pveB/lxc" ]).
Proof. reflexivity. Qed.

(** ** tools/list on the two transports *)

Section ToolsList.
Context {RT : Runtime}.

(** C4, as amended.  Whatever the elevation flag, tools/list is answered
    on the stdio transport with the seven tools of the catalogue, and on
    the HTTP transport with three of them: proxmox_get_nodes,
    proxmox_get_vms and proxmox_get_cluster_status.  Neither sends a
    request to the hypervisor. *)
Theorem tools_list_ignores_elevation
    (self : Stdio.ProxmoxServer) (http : HttpMcp.ProxmoxMCPServer)
    (id params : JsVal) (be : Backend num) :
  Stdio.respond self (Stdio.ListTools id) be
  = (Normal (Success (ToolsResult Stdio.tools) id), [])
  /\ toolNames (Success (ToolsResult Stdio.tools) id) = catalogue
  /\ HttpMcp.handleMCPRequest http (rpc id "tools/list" params) be
     = (Normal (Success (ToolsResult HttpMcp.tools) id), [])
  /\ toolNames (HttpMcp.handleToolsList http (rpc id "tools/list" params)) = httpCatalogue.
Proof. repeat split. Qed.

(** C5, as amended.  The two transports do not answer alike.  Both answer
    tools/list with a Success that carries the id of the request, but the
    HTTP transport lists three of the seven tools of the stdio transport.
    A call of one of the other four tools is answered on the HTTP
    transport by a Failure (code -32603, "Unknown tool: <name>") that
    carries the id, and on the stdio transport by a Success with one text
    item that carries the id, as is every call the SDK hands to the
    handler (its id a string or a number, its arguments an object or
    absent). *)
Theorem transports_differ
    (self : Stdio.ProxmoxServer) (http : HttpMcp.ProxmoxMCPServer)
    (id params args : JsVal) (be : Backend num) :
  ((isRequestId id = true ->
    fst (Stdio.respond self (Stdio.ListTools id) be)
    = Normal (Success (ToolsResult Stdio.tools) id))
   /\ fst (HttpMcp.handleMCPRequest http (rpc id "tools/list" params) be)
      = Normal (Success (ToolsResult HttpMcp.tools) id)
   /\ incl (map name HttpMcp.tools) (map name Stdio.tools)
   /\ length HttpMcp.tools = 3 /\ length Stdio.tools = 7)
  /\ Forall
       (fun tool =>
          fst (HttpMcp.handleMCPRequest http (rpc id "tools/call" (toolCall tool args)) be)
          = Normal (Failure (toolFailure ("Unknown tool: " ++ tool)) id)
          /\ (isRequestId id = true -> isArguments args = true ->
              exists t,
                fst (Stdio.respond self (Stdio.CallTool id tool args) be)
                = Normal (Success (ToolResult (textResult t)) id)))
       [ "proxmox_get_node_status"; "proxmox_get_vm_status";
         "proxmox_execute_vm_command"; "proxmox_get_storage" ].
Proof.
  split.
  - repeat split. intros n I. simpl in *. tauto.
  - assert (S : forall tool, exists t,
               fst (Stdio.respond self (Stdio.CallTool id tool args) be)
               = Normal (Success (ToolResult (textResult t)) id)).
    { intros tool. rewrite respond_callTool.
      pose proof (callTool_outcome self tool args be) as O.
      destruct (Stdio.callTool self tool args be) as [c sent]. simpl in *.
      destruct (fst (Stdio.dispatch self tool args be)) as [r | e].
      - destruct O as [-> [t ->]]. now exists t.
      - rewrite O. now eexists. }
    repeat constructor; auto.
Qed.

End ToolsList.

(** The call of proxmox_get_storage with id 1 and empty arguments, on
    the two transports. *)
Lemma transports_differ_witness :
  fst (HttpMcp.handleMCPRequest (RT := plainRuntime) (HttpMcp.mkProxmoxMCPServer false)
         (rpc (JNum 1) "tools/call" (toolCall "proxmox_get_storage" (JObj []))) unreachable)
  = Normal (Failure (toolFailure ("Unknown tool: " ++ "proxmox_get_storage")) (JNum 1))
  /\ exists t,
       fst (Stdio.respond (RT := plainRuntime) basic
              (Stdio.CallTool (JNum 1) "proxmox_get_storage" (JObj [])) unreachable)
       = Normal (Success (ToolResult (textResult t)) (JNum 1)).
Proof.
  pose proof (proj2 (transports_differ (RT := plainRuntime) basic
                       (HttpMcp.mkProxmoxMCPServer false) (JNum 1) JUndefined (JObj [])
                       unreachable)) as F.
  rewrite Forall_forall in F.
  destruct (F "proxmox_get_storage" ltac:(simpl; tauto)) as [H S].
  split; [exact H | exact (S eq_refl eq_refl)].
Defined.

(** C4, counterexample.  The HTTP transport lists three tools, not the
    seven of the catalogue. *)
Lemma http_lists_three_tools :
  toolNames (HttpMcp.handleToolsList (HttpMcp.mkProxmoxMCPServer true)
               (rpc (JNum 1) "tools/list" JUndefined))
  = [ "proxmox_get_nodes"; "proxmox_get_vms"; "proxmox_get_cluster_status" ]
  /\ toolNames (HttpMcp.handleToolsList (HttpMcp.mkProxmoxMCPServer true)
                  (rpc (JNum 1) "tools/list" JUndefined))
     <> catalogue.
Proof. split; [reflexivity | discriminate]. Qed.

(** C5, counterexample.  The same tools/list request with id 1 is answered
    with different envelopes by the two transports. *)
Lemma tools_list_envelopes_differ :
  fst (Stdio.respond (RT := plainRuntime) basic (Stdio.ListTools (JNum 1)) unreachable)
  <> fst (HttpMcp.handleMCPRequest (RT := plainRuntime) (HttpMcp.mkProxmoxMCPServer false)
            (rpc (JNum 1) "tools/list" JUndefined) unreachable).
Proof. simpl. intros H. inversion H. Qed.

(** ** The id of a request in its response *)

Section RequestId.
Context {RT : Runtime}.
Variable http : HttpMcp.ProxmoxMCPServer.

(** Every envelope the dispatcher returns carries the id member of the
    request. *)
Lemma handleMCPRequest_echoes_id (request : JsVal) (be : Backend num) (e : Envelope) :
  fst (HttpMcp.handleMCPRequest http request be) = Normal e ->
  idOf e = getPropOpt request "id".
Proof.
  unfold HttpMcp.handleMCPRequest, bind.
  destruct (getProp request "method") as [method | err] eqn:G; simpl; [| discriminate].
  destruct (isStr method "initialize"); [intros H; now inversion H |].
  destruct (isStr method "tools/list"); [intros H; now inversion H |].
  destruct (isStr method "tools/call").
  - unfold HttpMcp.handleToolCall, bind.
    destruct (HttpMcp.destructureParams _) as [[nm args] | err]; simpl; [| discriminate].
    unfold tryCatch, bind.
    destruct (HttpMcp.dispatch nm args be) as [[t | err] sent]; simpl;
      intros H; now inversion H.
  - intros H. now inversion H.
Qed.

End RequestId.

(** C8, at the failing input.  A tools/call request with id 0 and no
    params makes handleToolCall throw; the POST route answers with status
    500 and an envelope whose id is null. *)
Lemma error_path_replaces_falsy_id :
  HttpMcp.post (RT := plainRuntime) (HttpMcp.mkProxmoxMCPServer false)
    (JObj [ ("jsonrpc", JStr "2.0"); ("id", JNum 0); ("method", JStr "tools/call") ])
    unreachable
  = ({| HttpMcp.http_status := 500;
        HttpMcp.http_json :=
          Failure
            {| code := -32603; message := "Internal error";
               data := "Cannot destructure property 'name' of 'request.params' as it is undefined." |}
            JNull |}, []).
Proof. reflexivity. Qed.

(** ** Remote command execution *)

Section Commands.
Context {RT : Runtime}.
Variable self : Stdio.ProxmoxServer.
Variable rest : Rest.ProxmoxClaudeServer.
Hypothesis stdio_elevated : Stdio.allowElevated self = true.
Hypothesis rest_elevated : Rest.allowElevated rest = true.

(** What proxmoxRequest does, by the reply. *)
Lemma stdio_request {T : Type} (view : Backend num -> Request -> Reply T)
    (endpoint method : string) (body : option JsVal) (be : Backend num) :
  Stdio.proxmoxRequest view endpoint method body be
  = (match view be (mkRequest endpoint method body) with
     | Unreachable m => Thrown ("Failed to connect to Proxmox: " ++ m)
     | Refused status _ errorText =>
         Thrown ("Failed to connect to Proxmox: "
                 ++ ("Proxmox API error: " ++ string_of_Z status ++ " - " ++ errorText))
     | Answered Blank =>
         Thrown ("Failed to connect to Proxmox: " ++ "Empty response from Proxmox API")
     | Answered (NotJson reason) =>
         Thrown ("Failed to parse Proxmox API response: " ++ reason)
     | Answered (Json d) => Normal d
     end, [mkRequest endpoint method body]).
Proof. reflexivity. Qed.

Lemma rest_post {T : Type} (view : Backend num -> Request -> Reply T)
    (endpoint : string) (data : option JsVal) (be : Backend num) :
  Rest.proxmoxRequest view endpoint "POST" data be
  = (match view be (mkRequest endpoint "POST" data) with
     | Unreachable m => Thrown m
     | Refused status statusText _ =>
         Thrown ("Proxmox API error: " ++ string_of_Z status ++ " " ++ statusText)
     | Answered Blank => Thrown "Unexpected end of JSON input"
     | Answered (NotJson reason) => Thrown reason
     | Answered (Json d) => Normal d
     end, [mkRequest endpoint "POST" data]).
Proof. reflexivity. Qed.

(** With elevation, executeVMCommand is its try block, a thrown error
    turned into the failure text. *)
Lemma stdio_executeVMCommand_outcome (node vmid command type : JsVal) (be : Backend num) :
  Stdio.executeVMCommand self node vmid command type be
  = match Stdio.attemptCommand node vmid command (orDefault type (JStr "qemu")) be with
    | (Normal r, sent) => (Normal r, sent)
    | (Thrown message, sent) =>
        (Normal (textResult (Stdio.executionFailure vmid message)), sent)
    end.
Proof.
  unfold Stdio.executeVMCommand, tryCatch. rewrite stdio_elevated. cbv zeta. cbn [negb].
  destruct (Stdio.attemptCommand _ _ _ _ be) as [[r | e] sent];
    [reflexivity | cbn; now rewrite app_nil_r].
Qed.

Lemma rest_executeVMCommand_outcome (node vmid command type : JsVal) (be : Backend num) :
  Rest.executeVMCommand rest node vmid command type be
  = match Rest.attemptCommand node vmid command (orDefault type (JStr "qemu")) be with
    | (Normal r, sent) => (Normal r, sent)
    | (Thrown message, sent) =>
        (Normal {| Rest.command_content := Rest.textItem (Rest.executionFailure message);
                   Rest.command_result := None |}, sent)
    end.
Proof.
  unfold Rest.executeVMCommand, tryCatch. rewrite rest_elevated. cbv zeta. cbn [negb].
  destruct (Rest.attemptCommand _ _ _ _ be) as [[r | e] sent];
    [reflexivity | cbn; now rewrite app_nil_r].
Qed.






(** C9, as amended.  With elevation, for a node and a guest id that are
    written into the path as they are and a printable command, an error
    thrown while the command is executed (the request refused or
    unanswered, or a reply without the member read from it) is caught:
    executeVMCommand returns a result whose single text item is the
    failure report, never an error.  The report of the stdio server is a
    fixed wording around the guest id and the message of the error; the
    report of the REST server is a fixed wording around the message.
    The command has no part in either: two calls that differ in the
    command only and fail with the same message return the same
    report. *)
Theorem command_failure_is_reported_as_text
    (node vmid command type : JsVal) (be : Backend num) :
  segment node = true -> segment vmid = true -> printable command = true ->
  let type' := orDefault type (JStr "qemu") in
  (forall message sent,
     Stdio.attemptCommand node vmid command type' be = (Thrown message, sent) ->
     Stdio.executeVMCommand self node vmid command type be
     = (Normal (textResult (Stdio.executionFailure vmid message)), sent)
     /\ Infix (toStr vmid) (Stdio.executionFailure vmid message)
     /\ Infix message (Stdio.executionFailure vmid message))
  /\ (forall message sent,
        Rest.attemptCommand node vmid command type' be = (Thrown message, sent) ->
        Rest.executeVMCommand rest node vmid command type be
        = (Normal {| Rest.command_content := Rest.textItem (Rest.executionFailure message);
                     Rest.command_result := None |}, sent)
        /\ Infix message (Rest.executionFailure message))
  /\ (forall status statusText text,
        guestExec be (execRequest node vmid command type') = Refused status statusText text ->
        Stdio.attemptCommand node vmid command type' be
        = (Thrown ("Failed to connect to Proxmox: "
                   ++ ("Proxmox API error: " ++ string_of_Z status ++ " - " ++ text)),
           [execRequest node vmid command type'])
        /\ Rest.attemptCommand node vmid command type' be
           = (Thrown ("Proxmox API error: " ++ string_of_Z status ++ " " ++ statusText),
              [execRequest node vmid command type']))
  /\ (forall reason,
        guestExec be (execRequest node vmid command type') = Unreachable reason ->
        Stdio.attemptCommand node vmid command type' be
        = (Thrown ("Failed to connect to Proxmox: " ++ reason),
           [execRequest node vmid command type'])
        /\ Rest.attemptCommand node vmid command type' be
           = (Thrown reason, [execRequest node vmid command type']))
  /\ (forall message,
        Stdio.executionFailure vmid message
        = Stdio.cross ++ " **Failed to execute command on VM " ++ toStr vmid ++ "**"
          ++ nl ++ nl ++ "Error: " ++ message ++ nl ++ nl
          ++ "*Note: Make sure the VM has guest agent installed and running*"
        /\ Rest.executionFailure message
           = Glyph.cross ++ " **Command execution failed**" ++ nl ++ nl
             ++ "**Error**: " ++ message ++ nl ++ nl
             ++ "*Note: Ensure the VM has guest agent installed and running (for QEMU VMs)*")
  /\ (forall command' message sent sent',
        printable command' = true ->
        Stdio.attemptCommand node vmid command type' be = (Thrown message, sent) ->
        Stdio.attemptCommand node vmid command' type' be = (Thrown message, sent') ->
        fst (Stdio.executeVMCommand self node vmid command type be)
        = fst (Stdio.executeVMCommand self node vmid command' type be))
  /\ (forall command' message sent sent',
        printable command' = true ->
        Rest.attemptCommand node vmid command type' be = (Thrown message, sent) ->
        Rest.attemptCommand node vmid command' type' be = (Thrown message, sent') ->
        fst (Rest.executeVMCommand rest node vmid command type be)
        = fst (Rest.executeVMCommand rest node vmid command' type be)).
Proof.
  intros _ _ _ type'.
  split; [| split; [| split; [| split; [| split; [| split]]]]];
    [| | | | now split
     | intros command' message sent sent' _ A A';
       rewrite !stdio_executeVMCommand_outcome; fold type'; now rewrite A, A'
     | intros command' message sent sent' _ A A';
       rewrite !rest_executeVMCommand_outcome; fold type'; now rewrite A, A'].
  - intros message sent A. rewrite stdio_executeVMCommand_outcome. fold type'. rewrite A.
    repeat split; unfold Stdio.executionFailure; infix_in_text.
  - intros message sent A. rewrite rest_executeVMCommand_outcome. fold type'. rewrite A.
    repeat split; unfold Rest.executionFailure; infix_in_text.
  - intros status statusText text G.
    unfold Stdio.attemptCommand, Rest.attemptCommand, execRequest, agentExec, lxcExec in *.
    destruct (isStr type' "qemu"); unfold bind; now rewrite stdio_request, rest_post, G.
  - intros reason G.
    unfold Stdio.attemptCommand, Rest.attemptCommand, execRequest, agentExec, lxcExec in *.
    destruct (isStr type' "qemu"); unfold bind; now rewrite stdio_request, rest_post, G.
Qed.

End Commands.


(** The command [uptime] for guest 100 of node n1 on a hypervisor that
    cannot be reached. *)
Lemma command_failure_is_reported_as_text_witness :
  Stdio.executeVMCommand (RT := plainRuntime) elevated
    (JStr "n1") (JStr "100") (JStr "uptime") JUndefined unreachable
  = (Normal (textResult
               (Stdio.executionFailure (JStr "100")
                  "Failed to connect to Proxmox: connect ECONNREFUSED")),
     [agentExec (JStr "n1") (JStr "100") (JStr "uptime")]).
Proof.
  pose proof (command_failure_is_reported_as_text (RT := plainRuntime) elevated
                (Rest.mkProxmoxClaudeServer true) eq_refl eq_refl
                (JStr "n1") (JStr "100") (JStr "uptime") JUndefined unreachable
                eq_refl eq_refl eq_refl)
    as (H1 & _ & _ & H4 & _).
  destruct (H4 "connect ECONNREFUSED" eq_refl) as [A _].
  exact (proj1 (H1 _ _ A)).
Defined.

(** C9, counterexample.  With elevation, the call of
    proxmox_execute_vm_command with the command [uptime] on a hypervisor
    that cannot be reached is answered with the failure report, and the
    report does not contain the command. *)
Lemma failure_report_omits_the_command :
  Stdio.callTool (RT := plainRuntime) elevated "proxmox_execute_vm_command"
    (JObj [ ("node", JStr "n1"); ("vmid", JStr "100"); ("command", JStr "uptime") ])
    unreachable
  = (Normal (textResult
               (Stdio.executionFailure (JStr "100")
                  "Failed to connect to Proxmox: connect ECONNREFUSED")),
     [agentExec (JStr "n1") (JStr "100") (JStr "uptime")])
  /\ ~ Infix "uptime"
         (Stdio.executionFailure (JStr "100")
            "Failed to connect to Proxmox: connect ECONNREFUSED").
Proof.
  split; [reflexivity | now apply not_Infix].
Qed.

(** ** The order of the listings *)

Section ListingOrder.
Context {RT : Runtime}.







End ListingOrder.



(** * Further properties *)

(** ** The .env loader *)

Lemma isInfix_char (c a : ascii) (s : string) :
  isInfix (String c "") (String a s) = (Ascii.eqb c a || isInfix (String c "") s)%bool.
Proof.
  change (isInfix (String c "") (String a s))
    with (prefix (String c "") (String a s) || isInfix (String c "") s)%bool.
  f_equal. simpl. destruct (ascii_dec c a) as [-> | N].
  - rewrite Ascii.eqb_refl. now destruct s.
  - apply Ascii.eqb_neq in N. now rewrite N.
Qed.

Lemma isInfix_char_app (c : ascii) (a b : string) :
  isInfix (String c "") (a ++ b)
  = (isInfix (String c "") a || isInfix (String c "") b)%bool.
Proof.
  induction a as [| x a IH].
  - now destruct b.
  - change (String x a ++ b) with (String x (a ++ b)).
    now rewrite !isInfix_char, IH, orb_assoc.
Qed.

Section SplitJoin.
Variable sep : ascii.

(** Joining the pieces of a split with the separator gives the text
    back. *)
Lemma join_split (s : string) :
  String.concat (String sep "") (Startup.split sep s) = s.
Proof.
  unfold Startup.split. induction s as [| c s IH]; [reflexivity |].
  simpl Startup.splitAt. destruct (Startup.splitAt sep s) as [p ps].
  destruct (Ascii.eqb c sep) eqn:E.
  - apply Ascii.eqb_eq in E. subst c.
    change (String.concat (String sep "") ("" :: p :: ps))
      with (String sep (String.concat (String sep "") (p :: ps))).
    now rewrite IH.
  - destruct ps; simpl in *; now rewrite IH.
Qed.

Lemma splitAt_absent (s : string) :
  isInfix (String sep "") s = false -> Startup.splitAt sep s = (s, []).
Proof.
  induction s as [| c s IH]; [reflexivity |].
  rewrite isInfix_char. intros H. apply orb_false_iff in H as [N H].
  simpl. rewrite (IH H). rewrite Ascii.eqb_sym in N. now rewrite N.
Qed.

Lemma splitAt_app (a b : string) :
  Startup.splitAt sep (a ++ String sep b)
  = (fst (Startup.splitAt sep a),
     (snd (Startup.splitAt sep a) ++ Startup.split sep b)%list).
Proof.
  unfold Startup.split. induction a as [| c a IH]; simpl.
  - rewrite Ascii.eqb_refl. now destruct (Startup.splitAt sep b).
  - rewrite IH. destruct (Startup.splitAt sep a) as [p ps].
    destruct (Startup.splitAt sep b) as [q qs]. simpl.
    now destruct (Ascii.eqb c sep).
Qed.

Lemma split_app (a b : string) :
  Startup.split sep (a ++ String sep b)
  = (Startup.split sep a ++ Startup.split sep b)%list.
Proof.
  unfold Startup.split at 1 2. rewrite splitAt_app.
  now destruct (Startup.splitAt sep a).
Qed.

Lemma split_nonempty (s : string) : (0 <? length (Startup.split sep s))%nat = true.
Proof. unfold Startup.split. now destruct (Startup.splitAt sep s). Qed.

End SplitJoin.

(** The effect of a line [key=value]: [value] is all of the text after
    the first = sign. *)
Lemma assign_key_value (env : Startup.Env) (key value : string) :
  key <> "" -> isInfix "=" key = false ->
  Startup.assign env (key ++ "=" ++ value)
  = Startup.setEnv (Startup.trim key) (Startup.trim value) env.
Proof.
  intros K N. unfold Startup.assign.
  change (key ++ "=" ++ value) with (key ++ String "=" value).
  rewrite splitAt_app, (splitAt_absent _ _ N). cbn [fst snd app].
  rewrite split_nonempty, (join_split "=" value).
  destruct key; [contradiction | reflexivity].
Qed.

Lemma loadEnv_line (env : Startup.Env) (line : string) :
  isInfix nl line = false ->
  Startup.loadEnv (Some line) env
  = if isInfix "=" line then Startup.assign env line else env.
Proof.
  intros N. unfold Startup.loadEnv, Startup.split.
  rewrite (splitAt_absent _ _ N). cbn [filter].
  now destruct (isInfix "=" line).
Qed.

Lemma loadEnv_app (env : Startup.Env) (a b : string) :
  Startup.loadEnv (Some (a ++ nl ++ b)) env
  = Startup.loadEnv (Some b) (Startup.loadEnv (Some a) env).
Proof.
  unfold Startup.loadEnv.
  change (a ++ nl ++ b) with (a ++ String (ascii_of_nat 10) b).
  now rewrite split_app, filter_app, fold_left_app.
Qed.

Lemma getEnv_setEnv (k v : string) (env : Startup.Env) :
  k <> "" -> Startup.getEnv k (Startup.setEnv k v env) = Some v.
Proof.
  intros K. unfold Startup.setEnv. apply String.eqb_neq in K. rewrite K.
  simpl. now rewrite String.eqb_refl.
Qed.

(** The last line of the file, when it is an assignment. *)
Lemma loadEnv_last_line (env : Startup.Env) (text key value : string) :
  key <> "" -> isInfix "=" key = false ->
  isInfix nl (key ++ "=" ++ value) = false ->
  Startup.loadEnv (Some (text ++ nl ++ key ++ "=" ++ value)) env
  = Startup.setEnv (Startup.trim key) (Startup.trim value)
      (Startup.loadEnv (Some text) env).
Proof.
  intros K N L. rewrite loadEnv_app, (loadEnv_line _ _ L).
  assert (E : isInfix "=" (key ++ "=" ++ value) = true).
  { apply isInfix_iff. now exists key, value. }
  rewrite E. now apply assign_key_value.
Qed.

(** X1.  A file of the one line [key=value] assigns to the variable
    [key.trim()] the text [value.trim()], where [value] is everything
    after the first = sign of the line: the = signs of the value are
    kept.  The key is not empty and the line holds no line feed; the
    trimmed key is not empty. *)
Theorem env_line_assigns (env : Startup.Env) (key value : string) :
  Startup.trim key <> "" -> isInfix "=" key = false ->
  isInfix nl (key ++ "=" ++ value) = false ->
  Startup.loadEnv (Some (key ++ "=" ++ value)) env
  = (Startup.trim key, Startup.trim value) :: env
  /\ Startup.getEnv (Startup.trim key)
       (Startup.loadEnv (Some (key ++ "=" ++ value)) env)
     = Some (Startup.trim value).
Proof.
  intros T N L.
  assert (K : key <> "") by (intros ->; now apply T).
  assert (E : isInfix "=" (key ++ "=" ++ value) = true).
  { apply isInfix_iff. now exists key, value. }
  rewrite (loadEnv_line _ _ L), E, (assign_key_value _ _ _ K N).
  split; [| now apply getEnv_setEnv].
  unfold Startup.setEnv. apply String.eqb_neq in T. now rewrite T.
Qed.

Lemma env_line_assigns_witness :
  Startup.getEnv "PROXMOX_TOKEN_VALUE"
    (Startup.loadEnv
       (Some (" PROXMOX_TOKEN_VALUE " ++ "=" ++ " c2VjcmV0== " ++ String (ascii_of_nat 13) ""))
       [("PROXMOX_TOKEN_VALUE", "inherited")])
  = Some "c2VjcmV0==".
Proof.
  apply (proj2 (env_line_assigns [("PROXMOX_TOKEN_VALUE", "inherited")]
                  " PROXMOX_TOKEN_VALUE "
                  (" c2VjcmV0== " ++ String (ascii_of_nat 13) "")
                  ltac:(vm_compute; discriminate) eq_refl eq_refl)).
Defined.

(** X2.  The loader reads the file line by line, in order: loading a
    text followed by a line feed and a second text is loading the first
    and then the second.  Nothing of a line survives into the next. *)
Theorem env_file_is_read_in_order (env : Startup.Env) (a b : string) :
  Startup.loadEnv (Some (a ++ nl ++ b)) env
  = Startup.loadEnv (Some b) (Startup.loadEnv (Some a) env).
Proof. apply loadEnv_app. Qed.

(** X3.  A line without an = sign (a comment, a blank line) and a line
    that starts with an = sign assign nothing. *)
Theorem env_line_without_key_is_ignored (env : Startup.Env) (line : string) :
  isInfix nl line = false ->
  isInfix "=" line = false \/ prefix "=" line = true ->
  Startup.loadEnv (Some line) env = env.
Proof.
  intros L H. rewrite (loadEnv_line _ _ L).
  destruct (isInfix "=" line) eqn:E; [| reflexivity].
  destruct H as [H | H]; [discriminate |].
  apply prefix_iff in H as [rest ->]. unfold Startup.assign.
  change ("=" ++ rest) with (String "=" rest). simpl.
  now destruct (Startup.splitAt "=" rest).
Qed.

Lemma env_line_without_key_is_ignored_witness :
  Startup.loadEnv (Some "# Proxmox connection") [] = []
  /\ Startup.loadEnv (Some "=true") [] = [].
Proof.
  split.
  - apply (env_line_without_key_is_ignored [] "# Proxmox connection" eq_refl).
    left. reflexivity.
  - apply (env_line_without_key_is_ignored [] "=true" eq_refl).
    right. reflexivity.
Defined.

Lemma elevation_of_last_assignment (env : Startup.Env) (text value : string) :
  isInfix nl value = false ->
  Startup.allowsElevated
    (Startup.loadEnv (Some (text ++ nl ++ "PROXMOX_ALLOW_ELEVATED" ++ "=" ++ value)) env)
  = (Startup.trim value =? "true").
Proof.
  intros L. rewrite loadEnv_last_line; [| discriminate | reflexivity |].
  - unfold Startup.allowsElevated.
    change (Startup.trim "PROXMOX_ALLOW_ELEVATED") with "PROXMOX_ALLOW_ELEVATED".
    now rewrite getEnv_setEnv.
  - unfold nl in *. now rewrite !isInfix_char_app, L.
Qed.

(** X4.  The elevation flag of the stdio server and of the REST server
    is decided by the last line of the file when that line assigns
    PROXMOX_ALLOW_ELEVATED: the flag is set exactly when the text after
    the = sign, trimmed, is [true], whatever the lines before it and the
    inherited environment hold. *)
Theorem last_assignment_decides_elevation
    (env : Startup.Env) (text value : string) :
  isInfix nl value = false ->
  let file := Some (text ++ nl ++ "PROXMOX_ALLOW_ELEVATED" ++ "=" ++ value) in
  Stdio.allowElevated (Startup.stdioServer file env) = (Startup.trim value =? "true")
  /\ Rest.allowElevated (Startup.restServer file env) = (Startup.trim value =? "true").
Proof.
  intros L file. split; exact (elevation_of_last_assignment env text value L).
Qed.

Lemma last_assignment_decides_elevation_witness :
  Stdio.allowElevated
    (Startup.stdioServer
       (Some ("PROXMOX_ALLOW_ELEVATED=true" ++ nl ++ "PROXMOX_ALLOW_ELEVATED" ++ "=" ++ "TRUE"))
       [("PROXMOX_ALLOW_ELEVATED", "true")])
  = false.
Proof.
  apply (proj1 (last_assignment_decides_elevation
                  [("PROXMOX_ALLOW_ELEVATED", "true")]
                  "PROXMOX_ALLOW_ELEVATED=true" "TRUE" eq_refl)).
Defined.

(** ** formatUptime on whole seconds *)

(** X5.  formatUptime of index.js and of the REST server, on a whole
    number of seconds from 0 up to 2^53, prints days, hours below 24
    and minutes below 60 that add up to the uptime truncated to the
    minute.  The days are printed from one day on and the hours from one
    hour on: an uptime below one minute prints as [0m]. *)
Theorem uptime_is_truncated_to_minutes (seconds : Z) :
  (0 <= seconds < 2 ^ 53)%Z ->
  exists d h m : Z,
    (0 <= d /\ 0 <= h < 24 /\ 0 <= m < 60
     /\ 0 <= seconds - (86400 * d + 3600 * h + 60 * m) < 60)%Z
    /\ Uptime.formatUptime seconds
       = if (86400 <=? seconds)%Z then Uptime.dhm d h m
         else if (3600 <=? seconds)%Z then Uptime.hm h m
         else string_of_Z m ++ "m".
Proof.
  intros H.
  exists (seconds / 86400)%Z, (seconds mod 86400 / 3600)%Z, (seconds mod 3600 / 60)%Z.
  split.
  - Z.div_mod_to_equations. lia.
  - unfold Uptime.formatUptime. rewrite !Z.rem_mod_nonneg by lia. cbv zeta.
    destruct (Z.ltb_spec 0 (seconds / 86400)) as [D | D];
      destruct (Z.leb_spec 86400 seconds) as [D' | D']; try reflexivity;
      try (exfalso; Z.div_mod_to_equations; lia).
    destruct (Z.ltb_spec 0 (seconds mod 86400 / 3600)) as [G | G];
      destruct (Z.leb_spec 3600 seconds) as [G' | G']; try reflexivity;
      exfalso; Z.div_mod_to_equations; lia.
Qed.

Lemma uptime_is_truncated_to_minutes_witness :
  exists d h m : Z,
    (0 <= d /\ 0 <= h < 24 /\ 0 <= m < 60
     /\ 0 <= 93784 - (86400 * d + 3600 * h + 60 * m) < 60)%Z
    /\ Uptime.formatUptime 93784
       = if (86400 <=? 93784)%Z then Uptime.dhm d h m
         else if (3600 <=? 93784)%Z then Uptime.hm h m
         else string_of_Z m ++ "m".
Proof. apply (uptime_is_truncated_to_minutes 93784). lia. Defined.

(** X6.  formatUptime of the JSON-RPC endpoint over HTTP prints [N/A]
    for an uptime of zero, and for a whole number of seconds above 0 and
    below 2^53 the hours, never split into days, and the minutes below 60 that add
    up to the uptime truncated to the minute.  From one hour up to one
    day it prints what formatUptime of the two other servers prints. *)
Theorem http_uptime_counts_hours (seconds : Z) :
  (0 < seconds < 2 ^ 53)%Z ->
  Uptime.formatUptimeHttp 0 = "N/A"
  /\ (exists h m : Z,
        (0 <= h /\ 0 <= m < 60 /\ 0 <= seconds - (3600 * h + 60 * m) < 60)%Z
        /\ Uptime.formatUptimeHttp seconds = Uptime.hm h m)
  /\ ((3600 <= seconds < 86400)%Z ->
      Uptime.formatUptimeHttp seconds = Uptime.formatUptime seconds).
Proof.
  intros H. split; [reflexivity | split].
  - exists (seconds / 3600)%Z, (seconds mod 3600 / 60)%Z. split.
    + Z.div_mod_to_equations. lia.
    + unfold Uptime.formatUptimeHttp. rewrite Z.rem_mod_nonneg by lia.
      destruct (Z.eqb_spec seconds 0); [lia | reflexivity].
  - intros B. unfold Uptime.formatUptimeHttp, Uptime.formatUptime.
    rewrite !Z.rem_mod_nonneg by lia. cbv zeta.
    destruct (Z.eqb_spec seconds 0); [lia |].
    rewrite (Z.mod_small seconds 86400) by lia.
    destruct (Z.ltb_spec 0 (seconds / 86400)) as [D | D];
      [exfalso; Z.div_mod_to_equations; lia |].
    destruct (Z.ltb_spec 0 (seconds / 3600)) as [G | G];
      [reflexivity | exfalso; Z.div_mod_to_equations; lia].
Qed.

Lemma http_uptime_counts_hours_witness :
  Uptime.formatUptimeHttp 0 = "N/A"
  /\ (exists h m : Z,
        (0 <= h /\ 0 <= m < 60 /\ 0 <= 7384 - (3600 * h + 60 * m) < 60)%Z
        /\ Uptime.formatUptimeHttp 7384 = Uptime.hm h m)
  /\ ((3600 <= 7384 < 86400)%Z ->
      Uptime.formatUptimeHttp 7384 = Uptime.formatUptime 7384).
Proof. apply (http_uptime_counts_hours 7384). lia. Defined.

(** ** Loops over the nodes *)

Section Scans.
Context {B A T : Type}.
Variable step : list T -> A -> M B (list T).
Variable f : A -> list T.
Variable g : A -> list Request.
Variable ok : Request -> bool.
Variable be : B.

Lemma upToFailure_app (a b : list Request) :
  upToFailure ok (a ++ b)
  = if forallb ok a then (a ++ upToFailure ok b)%list else upToFailure ok a.
Proof.
  induction a as [| x a IH]; [reflexivity |]. simpl.
  destruct (ok x); [| reflexivity]. simpl. rewrite IH.
  now destruct (forallb ok a).
Qed.

Lemma upToFailure_all (a : list Request) :
  forallb ok a = true -> upToFailure ok a = a.
Proof.
  intros H. rewrite <- (app_nil_r a) at 1. rewrite upToFailure_app, H.
  simpl. apply app_nil_r.
Qed.

Hypothesis step_ok :
  forall acc x, forallb ok (g x) = true ->
    step acc x be = (Normal (acc ++ f x)%list, g x).
Hypothesis step_fails :
  forall acc x, forallb ok (g x) = false ->
    exists e, step acc x be = (Thrown e, upToFailure ok (g x)).

(** A loop without a guard, whose body sends the requests [g x] until
    one fails: the loop sends the requests of the elements in order up to
    the first failure, returns every [f x] when there is none, and throws
    otherwise. *)
Lemma forEach_scan (xs : list A) :
  forall acc,
    snd (forEach step xs acc be) = upToFailure ok (flat_map g xs)
    /\ (forallb ok (flat_map g xs) = true ->
        fst (forEach step xs acc be) = Normal (acc ++ flat_map f xs)%list)
    /\ (forallb ok (flat_map g xs) = false ->
        exists e, fst (forEach step xs acc be) = Thrown e).
Proof.
  induction xs as [| x xs IH]; intros acc.
  - simpl. rewrite app_nil_r. split; [| split]; [reflexivity | reflexivity | discriminate].
  - cbn [forEach flat_map]. rewrite upToFailure_app, forallb_app. unfold bind.
    destruct (forallb ok (g x)) eqn:G.
    + rewrite (step_ok acc x G).
      destruct (IH (acc ++ f x)%list) as (S1 & S2 & S3).
      destruct (forEach step xs (acc ++ f x)%list be) as [c sent]. simpl in *.
      rewrite S1. split; [| split]; [reflexivity | | exact S3].
      intros H. rewrite (S2 H). now rewrite app_assoc.
    + destruct (step_fails acc x G) as [e E]. rewrite E. simpl.
      split; [| split]; [reflexivity | discriminate | eauto].
Qed.

End Scans.

Lemma flat_map_filter {A T : Type} (p : A -> bool) (f : A -> list T) (l : list A) :
  flat_map (fun x => if p x then f x else []) l = flat_map f (filter p l).
Proof.
  induction l as [| x l IH]; [reflexivity |]. simpl.
  destruct (p x); simpl; now rewrite IH.
Qed.

Section StdioListing.
Context {RT : Runtime}.

Lemma stdio_get {T : Type} (view : Backend num -> Request -> Reply T)
    (endpoint : string) (be : Backend num) :
  Stdio.proxmoxRequest view endpoint "GET" None be
  = (match view be (get endpoint) with
     | Unreachable m => Thrown ("Failed to connect to Proxmox: " ++ m)
     | Refused status _ errorText =>
         Thrown ("Failed to connect to Proxmox: "
                 ++ ("Proxmox API error: " ++ string_of_Z status ++ " - " ++ errorText))
     | Answered Blank =>
         Thrown ("Failed to connect to Proxmox: " ++ "Empty response from Proxmox API")
     | Answered (NotJson reason) =>
         Thrown ("Failed to parse Proxmox API response: " ++ reason)
     | Answered (Json d) => Normal d
     end, [get endpoint]).
Proof. reflexivity. Qed.

Lemma stdio_get_answered {T : Type} (view : Backend num -> Request -> Reply T)
    (endpoint : string) (be : Backend num) (d : T) :
  view be (get endpoint) = Answered (Json d) ->
  Stdio.proxmoxRequest view endpoint "GET" None be = (Normal d, [get endpoint]).
Proof. intros E. now rewrite stdio_get, E. Qed.

Lemma stdio_get_failed {T : Type} (view : Backend num -> Request -> Reply T)
    (endpoint : string) (be : Backend num) :
  isAnswered (view be (get endpoint)) = false ->
  exists e, Stdio.proxmoxRequest view endpoint "GET" None be = (Thrown e, [get endpoint]).
Proof.
  intros E. rewrite stdio_get.
  destruct (view be (get endpoint)) as [m | st stt tx | [| reason | d]];
    try discriminate; eauto.
Qed.

Lemma isAnswered_answered {T : Type} (r : Reply (list T)) :
  isAnswered r = true -> r = Answered (Json (answered r)).
Proof. now destruct r as [m | st stt tx | [| reason | d]]. Qed.

(** The loop of getVMs of index.js. *)
Lemma stdio_collectVMs_all_nodes (nodeFilter typeFilter : JsVal) (be : Backend num)
    (nodes : list (NodeInfo num)) :
  truthy nodeFilter = false ->
  nodeList be (get "/nodes") = Answered (Json nodes) ->
  let ok := fun rq => isAnswered (guestList be rq) in
  let sent := flat_map (stdioTargets typeFilter) nodes in
  snd (Stdio.collectVMs nodeFilter typeFilter be) = get "/nodes" :: upToFailure ok sent
  /\ (forallb ok sent = true ->
      fst (Stdio.collectVMs nodeFilter typeFilter be)
      = Normal (flat_map (stdioContribution be typeFilter) nodes))
  /\ (forallb ok sent = false ->
      exists e, fst (Stdio.collectVMs nodeFilter typeFilter be) = Thrown e).
Proof.
  intros F N ok sent. unfold Stdio.collectVMs. rewrite F.
  match goal with
  | |- context [bind ?m (fun nodes => forEach ?step nodes [])] =>
      set (loop := step);
      assert (E : bind m (fun nodes => forEach loop nodes []) be
                  = (fst (forEach loop nodes [] be),
                     get "/nodes" :: snd (forEach loop nodes [] be)))
        by (unfold bind at 1; rewrite (stdio_get_answered _ _ _ _ N);
            now destruct (forEach loop nodes [] be));
      rewrite E; clear E; cbn [fst snd];
      destruct (forEach_scan loop (stdioContribution be typeFilter)
                  (stdioTargets typeFilter) ok be) with (xs := nodes) (acc := @nil (VM num))
        as (S1 & S2 & S3); subst loop
  end.
  - intros acc node. unfold stdioContribution, stdioTargets, ok.
    destruct (Stdio.wants typeFilter "qemu"), (Stdio.wants typeFilter "lxc");
      cbn [app forallb andb]; rewrite ?andb_true_r; intros H;
      repeat match type of H with
             | (_ && _)%bool = true => apply andb_prop in H as [? H]
             end;
      repeat match goal with
             | G : isAnswered _ = true |- _ => apply isAnswered_answered in G
             end;
      unfold bind;
      repeat match goal with
             | G : guestList be (get _) = Answered (Json _) |- _ =>
                 rewrite (stdio_get_answered _ _ _ _ G); clear G
             end;
      cbn [ret app]; rewrite ?app_nil_r, ?app_assoc; try reflexivity;
      discriminate.
  - intros acc node. unfold stdioTargets, ok.
    destruct (Stdio.wants typeFilter "qemu"), (Stdio.wants typeFilter "lxc");
      cbn [app forallb andb upToFailure]; rewrite ?andb_true_r; intros H;
      try discriminate; unfold bind.
    + destruct (isAnswered (guestList be (get ("/nodes/" ++ node_node node ++ "/qemu"))))
        eqn:Q.
      * apply isAnswered_answered in Q. rewrite (stdio_get_answered _ _ _ _ Q).
        cbn [ret app andb] in *.
        destruct (stdio_get_failed _ _ _ H) as [e E]. rewrite E, H. now exists e.
      * destruct (stdio_get_failed _ _ _ Q) as [e E]. rewrite E. now exists e.
    + destruct (stdio_get_failed _ _ _ H) as [e E]. rewrite E, H. now exists e.
    + destruct (stdio_get_failed _ _ _ H) as [e E]. cbn [ret].
      rewrite E, H. now exists e.
  - rewrite S1. split; [| split]; [reflexivity | exact S2 | exact S3].
Qed.

(** X7.  getVMs of index.js without a node filter, once GET /nodes has
    answered, sends the requests of the nodes in order up to the first
    one that fails, that one included, and no request after it.  When
    every request is answered it returns the listing of the guests of
    all the nodes; when one fails it throws, and the guests fetched
    before the failure are lost. *)
Theorem stdio_listing_stops_at_first_failure
    (nodeFilter typeFilter : JsVal) (be : Backend num) (nodes : list (NodeInfo num)) :
  truthy nodeFilter = false ->
  nodeList be (get "/nodes") = Answered (Json nodes) ->
  let typeFilter' := orDefault typeFilter (JStr "all") in
  let ok := fun rq => isAnswered (guestList be rq) in
  let sent := flat_map (stdioTargets typeFilter') nodes in
  snd (Stdio.getVMs nodeFilter typeFilter be) = get "/nodes" :: upToFailure ok sent
  /\ (forallb ok sent = true ->
      fst (Stdio.getVMs nodeFilter typeFilter be)
      = Normal (textResult
                  (Stdio.renderVMs (flat_map (stdioContribution be typeFilter') nodes))))
  /\ (forallb ok sent = false ->
      exists e, fst (Stdio.getVMs nodeFilter typeFilter be) = Thrown e).
Proof.
  intros F N typeFilter' ok sent.
  assert (F' : truthy (orDefault nodeFilter JNull) = false) by now destruct nodeFilter.
  destruct (stdio_collectVMs_all_nodes _ typeFilter' be nodes F' N) as (S1 & S2 & S3).
  unfold Stdio.getVMs, bind. fold typeFilter'.
  destruct (Stdio.collectVMs (orDefault nodeFilter JNull) typeFilter' be) as [[vms | e] sent'];
    simpl in *; rewrite ?app_nil_r.
  - split; [| split]; [exact S1 | |].
    + intros H. specialize (S2 H). now inversion S2.
    + intros H. destruct (S3 H) as [e E]. discriminate.
  - split; [| split]; [exact S1 | | eauto].
    intros H. specialize (S2 H). discriminate.
Qed.

End StdioListing.

Lemma stdio_listing_stops_at_first_failure_witness :
  snd (Stdio.getVMs (RT := plainRuntime) JUndefined JUndefined
         (twoNodes (Unreachable "connect EHOSTUNREACH")))
  = [ get "/nodes"; get "/nodes/pveA/qemu"; get "/nodes/pveA/lxc"; get "/nodes/pveB/qemu" ]
  /\ exists e,
       fst (Stdio.getVMs (RT := plainRuntime) JUndefined JUndefined
              (twoNodes (Unreachable "connect EHOSTUNREACH")))
       = Thrown e.
Proof.
  destruct (stdio_listing_stops_at_first_failure (RT := plainRuntime)
              JUndefined JUndefined (twoNodes (Unreachable "connect EHOSTUNREACH"))
              [bareNode "pveA"; bareNode "pveB"] eq_refl eq_refl) as (S1 & _ & S3).
  split; [exact S1 | exact (S3 eq_refl)].
Defined.

(** ** The listing of the JSON-RPC endpoint *)

Section HttpListing.
Context {RT : Runtime}.

Lemma http_get {T : Type} (view : Backend num -> Request -> Reply T)
    (endpoint : string) (be : Backend num) :
  HttpMcp.proxmoxRequest view endpoint be
  = (match view be (get endpoint) with
     | Unreachable m => Thrown m
     | Refused status statusText _ =>
         Thrown ("Proxmox API error: " ++ string_of_Z status ++ " " ++ statusText)
     | Answered Blank => Thrown "Unexpected end of JSON input"
     | Answered (NotJson reason) => Thrown reason
     | Answered (Json d) => Normal d
     end, [get endpoint]).
Proof. reflexivity. Qed.

Lemma http_get_answered {T : Type} (view : Backend num -> Request -> Reply T)
    (endpoint : string) (be : Backend num) (d : T) :
  view be (get endpoint) = Answered (Json d) ->
  HttpMcp.proxmoxRequest view endpoint be = (Normal d, [get endpoint]).
Proof. intros E. now rewrite http_get, E. Qed.

(** The loop of getVMs of the JSON-RPC endpoint. *)
Lemma http_collectVMs (nodeFilter typeFilter : JsVal) (be : Backend num)
    (nodes : list (NodeInfo num)) :
  nodeList be (get "/nodes") = Answered (Json nodes) ->
  HttpMcp.collectVMs nodeFilter typeFilter be
  = (Normal (flat_map (httpContribution be typeFilter) (filter (listed nodeFilter) nodes)),
     get "/nodes" :: flat_map (httpTargets be typeFilter) (filter (listed nodeFilter) nodes)).
Proof.
  intros N. unfold HttpMcp.collectVMs.
  eapply eq_trans;
    [eapply bind_Normal;
     [exact (http_get_answered _ _ _ _ N)
     | apply (forEach_appends _
                (fun node => if listed nodeFilter node
                             then httpContribution be typeFilter node else [])
                (fun node => if listed nodeFilter node
                             then httpTargets be typeFilter node else []))]
    | now rewrite !flat_map_filter].
  intros acc node. unfold listed.
  destruct (truthy nodeFilter && negb (isStr nodeFilter (node_node node)))%bool;
    cbn [negb].
  - unfold ret. now rewrite app_nil_r.
  - unfold httpContribution, httpTargets, tryCatch, bind. cbv zeta.
    destruct (HttpMcp.wants typeFilter "qemu"), (HttpMcp.wants typeFilter "lxc");
      rewrite ?http_get;
      destruct (guestList be (get ("/nodes/" ++ node_node node ++ "/qemu")))
        as [m | st stt tx | [| reason | qs]];
      destruct (guestList be (get ("/nodes/" ++ node_node node ++ "/lxc")))
        as [m' | st' stt' tx' | [| reason' | ls]];
      cbn [ret answered isAnswered andb app map fst snd];
      rewrite ?app_nil_r, ?app_assoc; reflexivity.
Qed.


(** X9.  A node filter that names none of the nodes of the cluster is not
    an error on the JSON-RPC endpoint: the listing is the heading alone,
    and GET /nodes is the only request. *)
Theorem http_unknown_node_lists_nothing
    (nodeFilter typeFilter : JsVal) (be : Backend num) (nodes : list (NodeInfo num)) :
  nodeList be (get "/nodes") = Answered (Json nodes) ->
  truthy nodeFilter = true ->
  forallb (fun node => negb (isStr nodeFilter (node_node node))) nodes = true ->
  HttpMcp.getVMs nodeFilter typeFilter be
  = (Normal (Glyph.laptop ++ " **Virtual Machines**" ++ nl ++ nl), [get "/nodes"]).
Proof.
  intros N F U. unfold HttpMcp.getVMs.
  assert (E : filter (listed (orDefault nodeFilter JNull)) nodes = []).
  { replace (orDefault nodeFilter JNull) with nodeFilter by now destruct nodeFilter.
    clear N. induction nodes as [| node nodes IH]; [reflexivity |].
    simpl in U. apply andb_prop in U as [U1 U2]. simpl. unfold listed at 1.
    rewrite F, U1. simpl. now apply IH. }
  eapply eq_trans;
    [eapply bind_Normal; [exact (http_collectVMs _ _ _ _ N) | reflexivity] |].
  now rewrite E.
Qed.

End HttpListing.


Lemma http_unknown_node_lists_nothing_witness :
  HttpMcp.getVMs (RT := plainRuntime) (JStr "pveC") (JStr "lxc")
    (twoNodes (Answered (Json [])))
  = (Normal (Glyph.laptop ++ " **Virtual Machines**" ++ nl ++ nl), [get "/nodes"]).
Proof.
  apply (http_unknown_node_lists_nothing (RT := plainRuntime) (JStr "pveC") (JStr "lxc")
           (twoNodes (Answered (Json []))) [bareNode "pveA"; bareNode "pveB"]
           eq_refl eq_refl eq_refl).
Defined.

(** ** The listing of one node on the stdio server *)

Section StdioNodeListing.
Context {RT : Runtime}.

(** X10.  getVMs of index.js with a node filter (one that is written
    into the path as it is) requests the virtual machines and then the
    containers of that node whatever the type filter is, and needs both
    answers: when the first request fails it
    throws without sending the second, when the second fails it throws
    too, also when the failing kind is not the one asked for.  When both
    are answered the listing holds the guests of the selected kinds. *)
Theorem stdio_node_listing_needs_both_answers
    (nodeFilter typeFilter : JsVal) (be : Backend num) :
  truthy nodeFilter = true -> segment nodeFilter = true ->
  let typeFilter' := orDefault typeFilter (JStr "all") in
  let qemu := get ("/nodes/" ++ toStr nodeFilter ++ "/qemu") in
  let lxc := get ("/nodes/" ++ toStr nodeFilter ++ "/lxc") in
  (isAnswered (guestList be qemu) = false ->
   exists e, Stdio.getVMs nodeFilter typeFilter be = (Thrown e, [qemu]))
  /\ (isAnswered (guestList be qemu) = true -> isAnswered (guestList be lxc) = false ->
      exists e, Stdio.getVMs nodeFilter typeFilter be = (Thrown e, [qemu; lxc]))
  /\ (isAnswered (guestList be qemu) = true -> isAnswered (guestList be lxc) = true ->
      Stdio.getVMs nodeFilter typeFilter be
      = (Normal
           (textResult
              (Stdio.renderVMs
                 ((if Stdio.wants typeFilter' "qemu" then
                     map (fun vm => mkVM vm "qemu" (toStr nodeFilter))
                       (answered (guestList be qemu))
                   else [])
                  ++ (if Stdio.wants typeFilter' "lxc" then
                        map (fun vm => mkVM vm "lxc" (toStr nodeFilter))
                          (answered (guestList be lxc))
                      else []))%list)),
         [qemu; lxc])).
Proof.
  intros F _ typeFilter' qemu lxc.
  assert (D : orDefault nodeFilter JNull = nodeFilter) by now destruct nodeFilter.
  unfold Stdio.getVMs, Stdio.collectVMs. rewrite D, F. fold typeFilter'.
  unfold bind. rewrite !stdio_get. fold qemu lxc.
  destruct (guestList be qemu) as [m | st stt tx | [| reason | qs]];
    destruct (guestList be lxc) as [m' | st' stt' tx' | [| reason' | ls]];
    cbn [isAnswered answered];
    (split; [| split]); intros; try discriminate;
    try (eexists; reflexivity).
  destruct (Stdio.wants typeFilter' "qemu"), (Stdio.wants typeFilter' "lxc");
    cbn [ret app]; now rewrite ?app_nil_r.
Qed.

End StdioNodeListing.

Lemma stdio_node_listing_needs_both_answers_witness :
  exists e,
    Stdio.getVMs (RT := plainRuntime) (JStr "pveB") (JStr "lxc")
      (twoNodes (Unreachable "connect EHOSTUNREACH"))
    = (Thrown e, [get "/nodes/pveB/qemu"]).
Proof.
  apply (proj1 (stdio_node_listing_needs_both_answers (RT := plainRuntime)
                  (JStr "pveB") (JStr "lxc")
                  (twoNodes (Unreachable "connect EHOSTUNREACH")) eq_refl eq_refl)).
  reflexivity.
Defined.

(** ** Storage listings *)

Lemma flat_map_singleton {A T : Type} (f : A -> T) (l : list A) :
  flat_map (fun x => [f x]) l = map f l.
Proof. induction l as [| x l IH]; [reflexivity |]. simpl. now rewrite IH. Qed.

Section StorageListings.
Context {RT : Runtime}.

(** X11.  getStorage of the REST server without a node filter, once GET
    /nodes has answered, requests the storage of every node, in node
    order, whether or not an earlier request failed, and returns the
    pools of the requests that were answered, each with its node, in the
    order of arrival: the array is neither sorted nor deduplicated, and a
    node whose request failed contributes nothing. *)
Theorem rest_storage_listing_isolates_failures
    (nodeName : JsVal) (be : Backend num) (nodes : list (NodeInfo num)) :
  truthy nodeName = false ->
  nodeList be (get "/nodes") = Answered (Json nodes) ->
  let storages := flat_map (pools be) nodes in
  Rest.getStorage nodeName be
  = (Normal
       {| Rest.storages_content :=
            Rest.textItem
              (fold_left (fun output storage => output ++ Rest.renderStorage storage)
                 storages (Glyph.disk ++ " **Storage Pools**" ++ nl ++ nl));
          Rest.storages_storages := storages |},
     get "/nodes" :: map poolsRequest nodes).
Proof.
  intros F N storages. unfold Rest.getStorage.
  replace (truthy (orDefault nodeName JNull)) with false by now destruct nodeName.
  eapply eq_trans;
    [eapply bind_Normal;
     [eapply bind_Normal;
      [exact (rest_get _ _ _ _ N)
      | apply (forEach_appends _ (pools be) (fun node => [poolsRequest node]))]
     | reflexivity] |].
  - intros acc node. unfold pools, poolsRequest, tryCatch, bind, Rest.proxmoxRequest.
    cbn [String.eqb Ascii.eqb Bool.eqb]. fold (get ("/nodes/" ++ node_node node ++ "/storage")).
    destruct (storageList be (get ("/nodes/" ++ node_node node ++ "/storage")))
      as [m | st stt tx | [| reason | l]];
      cbn [ret answered map app fst snd]; now rewrite ?app_nil_r.
  - now rewrite flat_map_singleton, app_nil_r.
Qed.

(** X12.  getStorage of index.js without a node filter, once GET /nodes
    has answered, requests the storage of the nodes in order up to the
    first request that fails, that one included.  When every request is
    answered it returns the listing of the pools of all the nodes; when
    one fails it throws. *)
Theorem stdio_storage_listing_stops_at_first_failure
    (nodeFilter : JsVal) (be : Backend num) (nodes : list (NodeInfo num)) :
  truthy nodeFilter = false ->
  nodeList be (get "/nodes") = Answered (Json nodes) ->
  let ok := fun rq => isAnswered (storageList be rq) in
  let sent := map poolsRequest nodes in
  snd (Stdio.getStorage nodeFilter be) = get "/nodes" :: upToFailure ok sent
  /\ (forallb ok sent = true ->
      fst (Stdio.getStorage nodeFilter be)
      = Normal (textResult (Stdio.renderStorages (flat_map (pools be) nodes))))
  /\ (forallb ok sent = false ->
      exists e, fst (Stdio.getStorage nodeFilter be) = Thrown e).
Proof.
  intros F N ok sent. unfold Stdio.getStorage, Stdio.collectStorages.
  replace (truthy (orDefault nodeFilter JNull)) with false by now destruct nodeFilter.
  match goal with
  | |- context [bind ?m (fun nodes => forEach ?step nodes [])] =>
      set (loop := step);
      assert (E : forall A (k : list (Storage num) -> M (Backend num) A),
                 bind (bind m (fun nodes => forEach loop nodes [])) k be
                 = match forEach loop nodes [] be with
                   | (Normal a, s) =>
                       (fst (k a be), get "/nodes" :: (s ++ snd (k a be))%list)
                   | (Thrown e, s) => (Thrown e, get "/nodes" :: s)
                   end)
        by (intros A k; unfold bind at 1 2; rewrite (stdio_get_answered _ _ _ _ N);
            destruct (forEach loop nodes [] be) as [[a | e] s];
            [now destruct (k a be) | reflexivity]);
      rewrite E; clear E;
      destruct (forEach_scan loop (pools be) (fun node => [poolsRequest node]) ok be)
        with (xs := nodes) (acc := @nil (Storage num)) as (S1 & S2 & S3); subst loop
  end.
  - intros acc node. cbn [forallb]. rewrite andb_true_r. intros H.
    unfold ok, poolsRequest in H. apply isAnswered_answered in H.
    unfold bind. now rewrite (stdio_get_answered _ _ _ _ H).
  - intros acc node. cbn [forallb upToFailure]. rewrite andb_true_r. intros H.
    rewrite H. unfold ok, poolsRequest in H.
    destruct (stdio_get_failed _ _ _ H) as [e E]. unfold bind. rewrite E.
    now exists e.
  - rewrite flat_map_singleton in S1, S2, S3. fold sent in S1, S2, S3.
    destruct (forEach _ nodes [] be) as [[a | e] s]; cbn [fst snd ret app] in *.
    + rewrite app_nil_r, S1. split; [| split]; [reflexivity | |].
      * intros H. specialize (S2 H). now inversion S2.
      * intros H. destruct (S3 H) as [e E]. discriminate.
    + rewrite S1. split; [| split]; [reflexivity | | intros; now exists e].
      intros H. specialize (S2 H). discriminate.
Qed.

End StorageListings.

Lemma rest_storage_listing_isolates_failures_witness :
  Rest.getStorage (RT := plainRuntime) JUndefined pve2pve1
  = (Normal
       {| Rest.storages_content :=
            Rest.textItem (Glyph.disk ++ " **Storage Pools**" ++ nl ++ nl);
          Rest.storages_storages := [] |},
     [ get "/nodes"; get "/nodes/pve2/storage"; get "/nodes/pve1/storage" ]).
Proof.
  apply (rest_storage_listing_isolates_failures (RT := plainRuntime) JUndefined pve2pve1
           [bareNode "pve2"; bareNode "pve1"] eq_refl eq_refl).
Defined.

Lemma stdio_storage_listing_stops_at_first_failure_witness :
  snd (Stdio.getStorage (RT := plainRuntime) JUndefined pve2pve1)
  = [ get "/nodes"; get "/nodes/pve2/storage" ].
Proof.
  apply (proj1 (stdio_storage_listing_stops_at_first_failure (RT := plainRuntime)
                  JUndefined pve2pve1 [bareNode "pve2"; bareNode "pve1"]
                  eq_refl eq_refl)).
Defined.

(** ** The pools the stdio listing keeps *)

Section FirstByKey.
Context {A : Type} (key : A -> string).

Lemma existsb_eqb (k : string) (seen : list string) :
  existsb (String.eqb k) seen = true <-> In k seen.
Proof.
  rewrite existsb_exists. split.
  - intros [x [I E]]. apply String.eqb_eq in E. now subst.
  - intros I. exists k. split; [exact I | apply String.eqb_refl].
Qed.

Lemma firstByKey_In (l : list A) :
  forall seen x,
    In x (firstByKey key seen l)
    <-> exists l1 l2, l = (l1 ++ x :: l2)%list
                      /\ ~ In (key x) (seen ++ map key l1)%list.
Proof.
  induction l as [| y l IH]; intros seen x; simpl.
  - split; [contradiction | intros (l1 & l2 & E & _); now destruct l1].
  - destruct (existsb (String.eqb (key y)) seen) eqn:S.
    + apply existsb_eqb in S. rewrite IH. split.
      * intros (l1 & l2 & -> & N). exists (y :: l1), l2. split; [reflexivity |].
        simpl. rewrite in_app_iff in *. simpl. intros [I | [I | I]]; [tauto | | tauto].
        apply N. left. now rewrite <- I.
      * intros (l1 & l2 & E & N). destruct l1 as [| z l1]; simpl in E; inversion E; subst.
        -- exfalso. apply N. apply in_app_iff. now left.
        -- exists l1, l2. split; [reflexivity |].
           simpl in N. rewrite in_app_iff in *. simpl in N. tauto.
    + assert (S' : ~ In (key y) seen).
      { intros I. apply existsb_eqb in I. congruence. }
      simpl. rewrite IH. split.
      * intros [<- | (l1 & l2 & -> & N)].
        -- exists [], l. split; [reflexivity |]. simpl. now rewrite app_nil_r.
        -- exists (y :: l1), l2. split; [reflexivity |].
           simpl in *. rewrite in_app_iff in *. simpl. tauto.
      * intros (l1 & l2 & E & N). destruct l1 as [| z l1]; simpl in E; inversion E; subst.
        -- now left.
        -- right. exists l1, l2. split; [reflexivity |].
           simpl in *. rewrite in_app_iff in *. simpl in N. tauto.
Qed.

Lemma firstByKey_NoDup (l : list A) :
  forall seen,
    NoDup (map key (firstByKey key seen l))
    /\ forall k, In k (map key (firstByKey key seen l)) -> ~ In k seen.
Proof.
  induction l as [| y l IH]; intros seen; simpl.
  - split; [constructor | contradiction].
  - destruct (existsb (String.eqb (key y)) seen) eqn:S; [apply IH |].
    assert (S' : ~ In (key y) seen).
    { intros I. apply existsb_eqb in I. congruence. }
    destruct (IH (key y :: seen)) as [D N]. simpl. split.
    + constructor; [| exact D]. intros I. apply (N _ I). now left.
    + intros k [<- | I]; [exact S' |]. intros I'. apply (N _ I). now right.
Qed.

End FirstByKey.

Section UniqueStorages.
Context {RT : Runtime}.

Lemma uniqueStorages_firstByKey (storages : list (Storage num)) :
  Stdio.uniqueStorages storages = firstByKey storageKey [] storages.
Proof.
  unfold Stdio.uniqueStorages.
  match goal with
  | |- snd (fold_left ?step _ _) = _ =>
      assert (G : forall l seen unique,
                 snd (fold_left step l (seen, unique))
                 = (unique ++ firstByKey storageKey seen l)%list)
  end.
  { induction l as [| s l IH]; intros seen unique; cbn [fold_left firstByKey].
    - cbn [snd]. now rewrite app_nil_r.
    - fold (storageKey s).
      destruct (existsb (String.eqb (storageKey s)) seen); rewrite IH;
        [reflexivity | now rewrite <- app_assoc]. }
  apply G.
Qed.

(** X13.  Of the pools it fetched, the storage listing of index.js keeps
    exactly those that no earlier pool shares the key
    [storage + '-' + node] with: the first pool of each key, and no key
    twice. *)
Theorem unique_storages_are_the_first_of_each_key (storages : list (Storage num)) :
  NoDup (map storageKey (Stdio.uniqueStorages storages))
  /\ forall storage,
       In storage (Stdio.uniqueStorages storages)
       <-> exists before after,
             storages = (before ++ storage :: after)%list
             /\ ~ In (storageKey storage) (map storageKey before).
Proof.
  rewrite uniqueStorages_firstByKey. split.
  - apply (firstByKey_NoDup storageKey storages []).
  - intros storage. apply (firstByKey_In storageKey storages [] storage).
Qed.

(** X14.  The key joins the two names with a hyphen, so pools that differ
    in both names can share it (storage [local] of node [lvm-pve1] and
    storage [local-lvm] of node [pve1]).  Of all the pools that have the
    key of the first pool fetched, that first pool is the only one
    listed. *)
Theorem pools_with_the_key_of_the_first_pool_are_dropped
    (first : Storage num) (rest : list (Storage num)) :
  filter (fun storage => storageKey storage =? storageKey first)
    (Stdio.uniqueStorages (first :: rest))
  = [first].
Proof.
  rewrite uniqueStorages_firstByKey. cbn [firstByKey existsb filter].
  rewrite String.eqb_refl. f_equal.
  destruct (firstByKey_NoDup storageKey rest [storageKey first]) as [_ N].
  assert (G : forall l : list (Storage num),
             (forall x, In x l -> storageKey x <> storageKey first) ->
             filter (fun storage => storageKey storage =? storageKey first) l = []).
  { induction l as [| x l IH]; intros H; [reflexivity |]. simpl.
    destruct (String.eqb_spec (storageKey x) (storageKey first)) as [E | E].
    - exfalso. apply (H x); [now left | exact E].
    - apply IH. intros y I. apply H. now right. }
  apply G. intros x I E. apply (N (storageKey x)).
  - now apply in_map.
  - left. now symmetry.
Qed.

End UniqueStorages.

(** Two pools that differ in both names and share their key: the second
    is not listed. *)
Lemma colliding_pools :
  Stdio.uniqueStorages (RT := plainRuntime)
    [ mkStorage (mkStorageInfo "local" None None true true None None) "lvm-pve1";
      mkStorage (mkStorageInfo "local-lvm" None None true true None None) "pve1" ]
  = [ mkStorage (mkStorageInfo "local" None None true true None None) "lvm-pve1" ].
Proof. reflexivity. Qed.

(** ** The cluster status *)

Section ClusterStatus.
Context {RT : Runtime}.

(** X15.  proxmox_get_cluster_status of index.js returns for every
    backend: a failure of GET /nodes becomes a text.  It requests
    /cluster/status only with elevation and after /nodes has answered,
    and the reply to that request, answer or failure, has no influence on
    the result. *)
Theorem stdio_cluster_status_ignores_cluster_reply
    (self : Stdio.ProxmoxServer) (be : Backend num) :
  (exists t,
     Stdio.getClusterStatus self be
     = (Normal (textResult t),
        get "/nodes"
        :: (if isAnswered (nodeList be (get "/nodes")) && Stdio.allowElevated self
            then [get "/cluster/status"] else [])))
  /\ forall be',
       nodeList be' (get "/nodes") = nodeList be (get "/nodes") ->
       fst (Stdio.getClusterStatus self be') = fst (Stdio.getClusterStatus self be).
Proof.
  split.
  - unfold Stdio.getClusterStatus, tryCatch, bind. rewrite !stdio_get.
    destruct (nodeList be (get "/nodes")) as [m | st stt tx | [| reason | nodes]];
      cbn [isAnswered andb ret fst snd app]; try (eexists; reflexivity).
    destruct (Stdio.allowElevated self); cbn [ret fst snd app];
      [| eexists; reflexivity].
    rewrite !stdio_get.
    destruct (clusterStatus be (get "/cluster/status")) as [m | st stt tx | [| reason | []]];
      cbn [ret fst snd app]; eexists; reflexivity.
  - intros be' N. unfold Stdio.getClusterStatus, tryCatch, bind. rewrite !stdio_get, N.
    destruct (nodeList be (get "/nodes")) as [m | st stt tx | [| reason | nodes]];
      cbn [ret fst snd app]; try reflexivity.
    destruct (Stdio.allowElevated self); cbn [ret fst snd app]; [| reflexivity].
    rewrite !stdio_get.
    destruct (clusterStatus be (get "/cluster/status")) as [m | st stt tx | [| reason | []]];
      destruct (clusterStatus be' (get "/cluster/status"))
        as [m' | st' stt' tx' | [| reason' | []]];
      reflexivity.
Qed.

Variable http : HttpMcp.ProxmoxMCPServer.

(** X16.  proxmox_get_cluster_status of the JSON-RPC endpoint requests
    /cluster/status whatever the flag, and although it reads nothing of
    the reply it needs one: when that request fails after /nodes has
    answered, the tool call is answered by a Failure with code -32603
    that carries the id of the request. *)
Theorem http_cluster_status_needs_cluster_reply
    (id args : JsVal) (be : Backend num) (nodes : list (NodeInfo num)) :
  nodeList be (get "/nodes") = Answered (Json nodes) ->
  isAnswered (clusterStatus be (get "/cluster/status")) = false ->
  exists e,
    HttpMcp.handleMCPRequest http
      (rpc id "tools/call" (toolCall "proxmox_get_cluster_status" args)) be
    = (Normal (Failure (toolFailure e) id), [get "/nodes"; get "/cluster/status"]).
Proof.
  intros N C.
  assert (E : exists e, HttpMcp.getClusterStatus be
                        = (Thrown e, [get "/nodes"; get "/cluster/status"])).
  { unfold HttpMcp.getClusterStatus, bind. rewrite !http_get, N.
    destruct (clusterStatus be (get "/cluster/status")) as [m | st stt tx | [| reason | []]];
      try discriminate; eexists; reflexivity. }
  destruct E as [e E]. exists e.
  rewrite handleMCPRequest_toolCall.
  rewrite (handleToolCall_outcome http
             (rpc id "tools/call" (toolCall "proxmox_get_cluster_status" args))
             (JStr "proxmox_get_cluster_status") args be eq_refl).
  change (HttpMcp.dispatch (JStr "proxmox_get_cluster_status") args be)
    with (HttpMcp.getClusterStatus be).
  now rewrite E.
Qed.

End ClusterStatus.

Lemma http_cluster_status_needs_cluster_reply_witness :
  exists e,
    HttpMcp.handleMCPRequest (RT := plainRuntime) (HttpMcp.mkProxmoxMCPServer true)
      (rpc (JNum 7) "tools/call" (toolCall "proxmox_get_cluster_status" (JObj []))) pve2pve1
    = (Normal (Failure (toolFailure e) (JNum 7)), [get "/nodes"; get "/cluster/status"]).
Proof.
  apply (http_cluster_status_needs_cluster_reply (RT := plainRuntime)
           (HttpMcp.mkProxmoxMCPServer true) (JNum 7) (JObj []) pve2pve1
           [bareNode "pve2"; bareNode "pve1"] eq_refl eq_refl).
Defined.

(** ** What is sent without elevation *)

Section OnlyGetsRules.
Context {B : Type}.

Lemma OnlyGets_ret {A : Type} (a : A) : OnlyGets (@ret B A a).
Proof. intros be. constructor. Qed.

Lemma OnlyGets_throw {A : Type} (e : string) : OnlyGets (@throw B A e).
Proof. intros be. constructor. Qed.

Lemma OnlyGets_liftC {A : Type} (c : Completion A) : OnlyGets (@liftC B A c).
Proof. intros be. constructor. Qed.

Lemma OnlyGets_bind {A C : Type} (m : M B A) (k : A -> M B C) :
  OnlyGets m -> (forall a, OnlyGets (k a)) -> OnlyGets (bind m k).
Proof.
  intros Hm Hk be. unfold bind. specialize (Hm be).
  destruct (m be) as [[a | e] sent]; [| exact Hm].
  specialize (Hk a be). destruct (k a be) as [c sent']. simpl in *.
  apply Forall_app. now split.
Qed.

Lemma OnlyGets_tryCatch {A : Type} (m : M B A) (h : string -> M B A) :
  OnlyGets m -> (forall e, OnlyGets (h e)) -> OnlyGets (tryCatch m h).
Proof.
  intros Hm Hh be. unfold tryCatch. specialize (Hm be).
  destruct (m be) as [[a | e] sent]; [exact Hm |].
  specialize (Hh e be). destruct (h e be) as [c sent']. simpl in *.
  apply Forall_app. now split.
Qed.

Lemma OnlyGets_forEach {A S : Type} (step : S -> A -> M B S) (xs : list A) :
  (forall acc x, OnlyGets (step acc x)) -> forall acc, OnlyGets (forEach step xs acc).
Proof.
  intros H. induction xs as [| x xs IH]; intros acc; simpl.
  - apply OnlyGets_ret.
  - apply OnlyGets_bind; [apply H | exact IH].
Qed.

End OnlyGetsRules.

Section StdioReads.
Context {RT : Runtime}.
Variable self : Stdio.ProxmoxServer.

Lemma stdio_get_OnlyGets {T : Type} (view : Backend num -> Request -> Reply T)
    (endpoint : string) :
  OnlyGets (Stdio.proxmoxRequest view endpoint "GET" None).
Proof. intros be. rewrite stdio_get. now repeat constructor. Qed.

Ltac only_gets :=
  cbv zeta;
  repeat lazymatch goal with
    | |- OnlyGets (bind _ _) => apply OnlyGets_bind; [| intros]
    | |- OnlyGets (tryCatch _ _) => apply OnlyGets_tryCatch; [| intros]
    | |- OnlyGets (forEach _ _ _) => apply OnlyGets_forEach; intros
    | |- OnlyGets (ret _) => apply OnlyGets_ret
    | |- OnlyGets (throw _) => apply OnlyGets_throw
    | |- OnlyGets (liftC _) => apply OnlyGets_liftC
    | |- OnlyGets (Stdio.proxmoxRequest _ _ "GET" None) => apply stdio_get_OnlyGets
    | |- OnlyGets (if ?b then _ else _) => destruct b
    end.

Lemma stdio_reading_tools_only_get (node vmid type : JsVal) :
  OnlyGets Stdio.getNodes
  /\ OnlyGets (Stdio.getNodeStatus self node)
  /\ OnlyGets (Stdio.getVMs node type)
  /\ OnlyGets (Stdio.getVMStatus node vmid type)
  /\ OnlyGets (Stdio.getStorage node)
  /\ OnlyGets (Stdio.getClusterStatus self).
Proof.
  repeat apply conj.
  - unfold Stdio.getNodes. only_gets.
  - unfold Stdio.getNodeStatus. only_gets.
  - unfold Stdio.getVMs, Stdio.collectVMs. only_gets.
  - unfold Stdio.getVMStatus. only_gets.
  - unfold Stdio.getStorage, Stdio.collectStorages. only_gets.
  - unfold Stdio.getClusterStatus. only_gets.
Qed.

Lemma callTool_only_gets (name : string) (args : JsVal) :
  Stdio.allowElevated self = false \/ name <> "proxmox_execute_vm_command" ->
  OnlyGets (Stdio.callTool self name args).
Proof.
  intros H. unfold Stdio.callTool. apply OnlyGets_tryCatch; [| intros; apply OnlyGets_ret].
  unfold Stdio.dispatch.
  destruct (stdio_reading_tools_only_get JUndefined JUndefined JUndefined) as (G1 & _).
  destruct (name =? "proxmox_get_nodes"); [exact G1 |].
  destruct (name =? "proxmox_get_node_status").
  { only_gets. apply (stdio_reading_tools_only_get a JUndefined JUndefined). }
  destruct (name =? "proxmox_get_vms").
  { only_gets. apply (stdio_reading_tools_only_get a JUndefined a0). }
  destruct (name =? "proxmox_get_vm_status").
  { only_gets. apply (stdio_reading_tools_only_get a a0 a1). }
  destruct (String.eqb_spec name "proxmox_execute_vm_command") as [E | E].
  { destruct H as [H | H]; [| contradiction].
    only_gets. unfold Stdio.executeVMCommand. rewrite H. cbn [negb]. only_gets. }
  destruct (name =? "proxmox_get_storage").
  { only_gets. apply (stdio_reading_tools_only_get a JUndefined JUndefined). }
  destruct (name =? "proxmox_get_cluster_status");
    [apply (stdio_reading_tools_only_get JUndefined JUndefined JUndefined)
    | apply OnlyGets_throw].
Qed.

(** X17.  Without elevation the stdio server never writes to the
    hypervisor: whatever tool is called, with whatever arguments and
    whatever the backend answers, every request it sends is a GET.  With
    elevation the same holds of every tool but
    proxmox_execute_vm_command. *)
Theorem stdio_posts_only_with_elevation (name : string) (args : JsVal) :
  Stdio.allowElevated self = false \/ name <> "proxmox_execute_vm_command" ->
  OnlyGets (Stdio.callTool self name args).
Proof. apply callTool_only_gets. Qed.

End StdioReads.

(** X18.  From the file to the wire: when the last line of the .env
    file assigns to PROXMOX_ALLOW_ELEVATED a text other than [true], the
    stdio server started from it never sends anything but GETs, whatever
    tool is called with whatever arguments. *)
Theorem env_file_without_elevation_makes_stdio_read_only
    {RT : Runtime} (env : Startup.Env) (text value name : string) (args : JsVal) :
  isInfix nl value = false -> Startup.trim value <> "true" ->
  OnlyGets
    (Stdio.callTool
       (Startup.stdioServer
          (Some (text ++ nl ++ "PROXMOX_ALLOW_ELEVATED" ++ "=" ++ value)) env)
       name args).
Proof.
  intros L T. apply callTool_only_gets. left.
  unfold Startup.stdioServer. cbn [Stdio.allowElevated].
  rewrite (elevation_of_last_assignment env text value L).
  now apply String.eqb_neq.
Qed.

Lemma stdio_posts_only_with_elevation_witness :
  Forall (fun rq => method rq = "GET")
    (snd (Stdio.callTool (RT := plainRuntime) basic "proxmox_execute_vm_command"
            (JObj [ ("node", JStr "n1"); ("vmid", JNum 100); ("command", JStr "uptime") ])
            accepting)).
Proof.
  apply (stdio_posts_only_with_elevation (RT := plainRuntime) basic
           "proxmox_execute_vm_command"
           (JObj [ ("node", JStr "n1"); ("vmid", JNum 100); ("command", JStr "uptime") ])
           (or_introl eq_refl) accepting).
Defined.

Lemma env_file_without_elevation_makes_stdio_read_only_witness :
  Forall (fun rq => method rq = "GET")
    (snd (Stdio.callTool (RT := plainRuntime)
            (Startup.stdioServer
               (Some ("PROXMOX_HOST=10.0.0.2" ++ nl
                      ++ "PROXMOX_ALLOW_ELEVATED" ++ "=" ++ "false"))
               [("PROXMOX_ALLOW_ELEVATED", "true")])
            "proxmox_execute_vm_command"
            (JObj [ ("node", JStr "n1"); ("vmid", JNum 100); ("command", JStr "reboot") ])
            accepting)).
Proof.
  apply (env_file_without_elevation_makes_stdio_read_only (RT := plainRuntime)
           [("PROXMOX_ALLOW_ELEVATED", "true")] "PROXMOX_HOST=10.0.0.2" "false"
           "proxmox_execute_vm_command"
           (JObj [ ("node", JStr "n1"); ("vmid", JNum 100); ("command", JStr "reboot") ])
           eq_refl ltac:(discriminate) accepting).
Defined.

(** ** The request of a command and of a guest status *)

Section OneRequest.
Context {RT : Runtime}.

(** X19.  With elevation, executeVMCommand of index.js and of the REST
    server, for a node and a guest id that are written into the path as
    they are, returns for every backend and sends exactly one request:
    the POST to the guest agent when the type is [qemu] or absent, and
    the POST to the container endpoint for every other type, whether it
    is [lxc] or not. *)
Theorem elevated_command_sends_one_post
    (self : Stdio.ProxmoxServer) (rest : Rest.ProxmoxClaudeServer)
    (node vmid command type : JsVal) (be : Backend num) :
  Stdio.allowElevated self = true -> Rest.allowElevated rest = true ->
  segment node = true -> segment vmid = true ->
  let sent := [execRequest node vmid command (orDefault type (JStr "qemu"))] in
  (exists r, Stdio.executeVMCommand self node vmid command type be = (Normal r, sent))
  /\ (exists r, Rest.executeVMCommand rest node vmid command type be = (Normal r, sent)).
Proof.
  intros S R _ _ sent. subst sent. unfold execRequest, agentExec, lxcExec.
  unfold Stdio.executeVMCommand, Rest.executeVMCommand.
  unfold Stdio.attemptCommand, Rest.attemptCommand. rewrite S, R. cbn [negb]. cbv zeta.
  unfold tryCatch, bind.
  destruct (isStr (orDefault type (JStr "qemu")) "qemu");
    rewrite stdio_request, rest_post;
    match goal with
    | |- context [guestExec be ?rq] =>
        destruct (guestExec be rq) as [m | st stt tx | [| reason | [| s | [pid |] out]]]
    end;
    cbn [liftC Stdio.pidText Rest.pidText Rest.outputText ret fst snd app];
    (split; eexists; reflexivity).
Qed.

(** X20.  getVMStatus of index.js, for a node, a guest id and a type
    ([qemu] when absent) that are written into the path as they are,
    sends exactly one request, whether the type is a kind of guest or
    not.  It returns only if that request is answered and the type is a
    string: a type that is a number or a boolean is requested first and
    fails afterwards. *)
Theorem vm_status_sends_one_request (node vmid type : JsVal) (be : Backend num) :
  let type' := orDefault type (JStr "qemu") in
  segment node = true -> segment vmid = true -> segment type' = true ->
  let rq := get ("/nodes/" ++ toStr node ++ "/" ++ toStr type' ++ "/" ++ toStr vmid
                 ++ "/status/current") in
  snd (Stdio.getVMStatus node vmid type be) = [rq]
  /\ ((exists r, fst (Stdio.getVMStatus node vmid type be) = Normal r)
      -> isAnswered (guestStatus be rq) = true /\ exists s, type' = JStr s).
Proof.
  intros type' _ _ _ rq. unfold Stdio.getVMStatus. fold type'. unfold bind.
  rewrite stdio_get. fold rq.
  destruct (guestStatus be rq) as [m | st stt tx | [| reason | status]];
    cbn [isAnswered fst snd];
    try (split; [reflexivity | intros [r E]; discriminate]).
  destruct type' as [| | b | z | s | items | members];
    cbn [liftC Stdio.upperOf ret fst snd app];
    (split; [reflexivity |]);
    intros [r E]; first [discriminate | split; [reflexivity | now eexists]].
Qed.

End OneRequest.

Lemma vm_status_sends_one_request_witness :
  snd (Stdio.getVMStatus (RT := plainRuntime) (JStr "n1") (JNum 100) (JNum 5) unreachable)
  = [get "/nodes/n1/5/100/status/current"].
Proof.
  apply (proj1 (vm_status_sends_one_request (RT := plainRuntime) (JStr "n1") (JNum 100)
                  (JNum 5) unreachable eq_refl eq_refl eq_refl)).
Defined.

Lemma elevated_command_sends_one_post_witness :
  (exists r,
     Stdio.executeVMCommand (RT := plainRuntime) elevated (JStr "n1") (JNum 100)
       (JStr "uptime") (JStr "QEMU") unreachable
     = (Normal r, [lxcExec (JStr "n1") (JNum 100) (JStr "uptime")]))
  /\ (exists r,
        Rest.executeVMCommand (RT := plainRuntime) (Rest.mkProxmoxClaudeServer true)
          (JStr "n1") (JNum 100) (JStr "uptime") (JStr "QEMU") unreachable
        = (Normal r, [lxcExec (JStr "n1") (JNum 100) (JStr "uptime")])).
Proof.
  apply (elevated_command_sends_one_post (RT := plainRuntime) elevated
           (Rest.mkProxmoxClaudeServer true) (JStr "n1") (JNum 100) (JStr "uptime")
           (JStr "QEMU") unreachable eq_refl eq_refl eq_refl eq_refl).
Defined.

(** ** The POST route of the JSON-RPC endpoint *)

Section PostRoute.
Context {RT : Runtime}.
Variable http : HttpMcp.ProxmoxMCPServer.

(** X21.  The POST route of the JSON-RPC endpoint, on a [req.body] whose
    method is printable, answers with status 500, an Internal error of
    code -32603 and without having sent a request, exactly when
    [req.body] is null or undefined or is a tools/call without params.
    Every other such body is answered with status 200 and an envelope
    that carries the id of the body as it is: also an unknown method, an
    unknown tool and a tool that failed. *)
Theorem post_status (body : JsVal) (be : Backend num) :
  printable (getPropOpt body "method") = true ->
  let response := fst (HttpMcp.post http body be) in
  if unhandled body then
    HttpMcp.http_status response = 500%Z
    /\ snd (HttpMcp.post http body be) = []
    /\ exists e id,
         HttpMcp.http_json response
         = Failure {| code := -32603; message := "Internal error"; data := e |} id
  else
    HttpMcp.http_status response = 200%Z
    /\ idOf (HttpMcp.http_json response) = getPropOpt body "id".
Proof.
  intros _ response. subst response. unfold HttpMcp.post.
  pose proof (handleMCPRequest_echoes_id http body be) as I.
  destruct body as [| | b | z | s | items | members];
    try (split; [reflexivity | split; [reflexivity | do 2 eexists; reflexivity]]);
    try (split; reflexivity).
  unfold unhandled. cbn [isNullish orb getPropOpt].
  unfold HttpMcp.handleMCPRequest in *. cbn [getProp] in *.
  rewrite bind_liftC_Normal in *. cbv beta in *.
  destruct (isStr (lookup "method" members) "tools/call") eqn:C.
  - assert (M : lookup "method" members = JStr "tools/call").
    { destruct (lookup "method" members); try discriminate.
      simpl in C. apply String.eqb_eq in C. now subst. }
    rewrite M in *. cbn [isStr String.eqb Ascii.eqb Bool.eqb] in *.
    unfold HttpMcp.handleToolCall in *. cbn [getPropOpt andb] in *.
    destruct (lookup "params" members) as [| | b | z | s | items | params];
      cbn [isNullish HttpMcp.destructureParams] in *;
      try (rewrite bind_liftC_Thrown;
           split; [reflexivity | split; [reflexivity | do 2 eexists; reflexivity]]);
      rewrite bind_liftC_Normal in *; unfold tryCatch, bind in *;
      match goal with
      | |- context [HttpMcp.dispatch ?n ?a be] =>
          destruct (HttpMcp.dispatch n a be) as [[t | e] sent]
      end;
      cbn in *; (split; [reflexivity | first [reflexivity | now apply I]]).
  - cbn [andb].
    destruct (isStr (lookup "method" members) "initialize"); [split; reflexivity |].
    destruct (isStr (lookup "method" members) "tools/list"); split; reflexivity.
Qed.

End PostRoute.

Lemma post_status_witness :
  HttpMcp.http_status
    (fst (HttpMcp.post (RT := plainRuntime) (HttpMcp.mkProxmoxMCPServer false)
            (rpc (JNum 7) "resources/list" JUndefined) unreachable))
  = 200%Z
  /\ idOf (HttpMcp.http_json
             (fst (HttpMcp.post (RT := plainRuntime) (HttpMcp.mkProxmoxMCPServer false)
                     (rpc (JNum 7) "resources/list" JUndefined) unreachable)))
     = JNum 7.
Proof.
  apply (post_status (RT := plainRuntime) (HttpMcp.mkProxmoxMCPServer false)
           (rpc (JNum 7) "resources/list" JUndefined) unreachable eq_refl).
Defined.

(** ** The /api routes of the REST server *)

Section RestRoutes.
Context {RT : Runtime}.
Variable self : Rest.ProxmoxClaudeServer.

Lemma rest_get_reply {T : Type} (view : Backend num -> Request -> Reply T)
    (endpoint : string) (be : Backend num) :
  Rest.proxmoxRequest view endpoint "GET" None be
  = (match view be (get endpoint) with
     | Unreachable m => Thrown m
     | Refused status statusText _ =>
         Thrown ("Proxmox API error: " ++ string_of_Z status ++ " " ++ statusText)
     | Answered Blank => Thrown "Unexpected end of JSON input"
     | Answered (NotJson reason) => Thrown reason
     | Answered (Json d) => Normal d
     end, [get endpoint]).
Proof. reflexivity. Qed.

(** X22.  POST /api/vms/:node/:vmid/exec, for a node and a guest id that
    are written into the path as they are and a printable command,
    answers with status 200 and [success: true] whenever [req.body] is
    neither null nor undefined: also when elevation is off, where no
    request is sent to the hypervisor, and when the command failed, where
    exactly one POST was sent.  When [req.body] is null or undefined it
    answers with status 500. *)
Theorem exec_route_reports_success (node vmid : string) (body : JsVal) (be : Backend num) :
  isSegment node = true -> isSegment vmid = true ->
  printable (getPropOpt body "command") = true ->
  let response := fst (RestApi.apiExec self node vmid body be) in
  let sent := snd (RestApi.apiExec self node vmid body be) in
  if isNullish body then
    RestApi.api_status response = 500%Z /\ RestApi.api_success response = false
    /\ sent = []
  else
    RestApi.api_status response = 200%Z /\ RestApi.api_success response = true
    /\ sent = if Rest.allowElevated self
              then [execRequest (JStr node) (JStr vmid) (getPropOpt body "command")
                      (orDefault (getPropOpt body "type") (JStr "qemu"))]
              else [].
Proof.
  intros _ _ _ response sent. subst response sent. unfold RestApi.apiExec, RestApi.api.
  assert (G : forall command type,
             let type' := orDefault type (JStr "qemu") in
             exists r,
               Rest.executeVMCommand self (JStr node) (JStr vmid) command type' be
               = (Normal r,
                  if Rest.allowElevated self
                  then [execRequest (JStr node) (JStr vmid) command type'] else [])).
  { intros command type type'.
    assert (D : orDefault type' (JStr "qemu") = type') by now destruct type.
    unfold Rest.executeVMCommand. rewrite D.
    destruct (Rest.allowElevated self); cbn [negb]; [| eexists; reflexivity].
    unfold execRequest, agentExec, lxcExec, Rest.attemptCommand, tryCatch, bind.
    destruct (isStr type' "qemu"); rewrite rest_post;
      match goal with
      | |- context [guestExec be ?rq] =>
          destruct (guestExec be rq) as [m | st stt tx | [| reason | [| s | [pid |] out]]]
      end;
      cbn [liftC Rest.pidText Rest.outputText ret fst snd app];
      eexists; reflexivity. }
  destruct body as [| | b | z | s | items | members];
    cbn [isNullish RestApi.destructureBody];
    try (rewrite bind_liftC_Thrown; now repeat split);
    rewrite bind_liftC_Normal;
    match goal with
    | |- context [Rest.executeVMCommand self _ _ ?c (orDefault ?t _) be] =>
        destruct (G c t) as [r E]; cbv zeta in E; rewrite E
    end;
    now repeat split.
Qed.

(** X23.  GET /api/vms answers with status 200 and [success: true]
    exactly when the requests it depends on are answered: with a node in
    the query (one that is written into the path as it is) these are the
    requests for the selected kinds of that node; without one it is GET
    /nodes alone, whatever becomes of the requests for the guests of the
    nodes. *)
Theorem vms_route_status (query : JsVal) (be : Backend num) :
  let node := getPropOpt query "node" in
  (truthy node = true -> segment node = true) ->
  let type := orDefault (getPropOpt query "type") (JStr "all") in
  let response := fst (RestApi.apiVms query be) in
  RestApi.api_success response = vmsAnswered be node type
  /\ RestApi.api_status response = if vmsAnswered be node type then 200%Z else 500%Z.
Proof.
  intros node _ type response. subst response. unfold RestApi.apiVms, RestApi.api.
  fold node type. cbv zeta. unfold vmsAnswered.
  assert (D : orDefault type (JStr "all") = type)
    by (unfold type; now destruct (getPropOpt query "type")).
  destruct (truthy node) eqn:F.
  - assert (D' : orDefault node JNull = node) by now destruct node.
    unfold Rest.getVMs, Rest.collectVMs. rewrite D, D', F. unfold bind.
    destruct (Rest.wants type "qemu"), (Rest.wants type "lxc");
      rewrite ?rest_get_reply;
      destruct (guestList be (get ("/nodes/" ++ toStr node ++ "/qemu")))
        as [m | st stt tx | [| reason | qs]];
      destruct (guestList be (get ("/nodes/" ++ toStr node ++ "/lxc")))
        as [m' | st' stt' tx' | [| reason' | ls]];
      split; reflexivity.
  - destruct (nodeList be (get "/nodes")) as [m | st stt tx | [| reason | nodes]] eqn:N;
      try (unfold Rest.getVMs, Rest.collectVMs, bind;
           replace (truthy (orDefault node JNull)) with false by (now destruct node);
           rewrite rest_get_reply, N; split; reflexivity).
    unfold Rest.getVMs, bind.
    rewrite (collectVMs_all_nodes (orDefault node JNull) (orDefault type (JStr "all"))
               be nodes); [| now destruct node | exact N].
    split; reflexivity.
Qed.

End RestRoutes.

Lemma exec_route_reports_success_witness :
  RestApi.api_status
    (fst (RestApi.apiExec (RT := plainRuntime) (Rest.mkProxmoxClaudeServer false)
            "n1" "100" (JObj [ ("command", JStr "uptime") ]) unreachable))
  = 200%Z
  /\ RestApi.api_success
       (fst (RestApi.apiExec (RT := plainRuntime) (Rest.mkProxmoxClaudeServer false)
               "n1" "100" (JObj [ ("command", JStr "uptime") ]) unreachable))
     = true
  /\ snd (RestApi.apiExec (RT := plainRuntime) (Rest.mkProxmoxClaudeServer false)
            "n1" "100" (JObj [ ("command", JStr "uptime") ]) unreachable)
     = [].
Proof.
  apply (exec_route_reports_success (RT := plainRuntime) (Rest.mkProxmoxClaudeServer false)
           "n1" "100" (JObj [ ("command", JStr "uptime") ]) unreachable
           eq_refl eq_refl eq_refl).
Defined.

Lemma vms_route_status_witness :
  RestApi.api_success
    (fst (RestApi.apiVms (RT := plainRuntime)
            (JObj [ ("node", JStr "pveB"); ("type", JStr "lxc") ])
            (twoNodes (Unreachable "connect EHOSTUNREACH"))))
  = false
  /\ RestApi.api_status
       (fst (RestApi.apiVms (RT := plainRuntime)
               (JObj [ ("node", JStr "pveB"); ("type", JStr "lxc") ])
               (twoNodes (Unreachable "connect EHOSTUNREACH"))))
     = 500%Z.
Proof.
  apply (vms_route_status (RT := plainRuntime)
           (JObj [ ("node", JStr "pveB"); ("type", JStr "lxc") ])
           (twoNodes (Unreachable "connect EHOSTUNREACH")) (fun _ => eq_refl)).
Defined.

(** ** Calls without an arguments object *)

Section NoArguments.
Context {RT : Runtime}.

(** X24.  On the stdio server a call without an arguments object fails
    for each of the five tools that read an argument, before any request
    is sent, with the text of the TypeError of reading [node]: also for
    proxmox_get_vms and proxmox_get_storage, whose arguments are all
    optional.  On the JSON-RPC endpoint proxmox_get_vms without an
    arguments object is the listing without filters. *)
Theorem stdio_tools_need_an_arguments_object
    (self : Stdio.ProxmoxServer) (http : HttpMcp.ProxmoxMCPServer)
    (name : string) (id : JsVal) (be : Backend num) :
  In name [ "proxmox_get_node_status"; "proxmox_get_vms"; "proxmox_get_vm_status";
            "proxmox_execute_vm_command"; "proxmox_get_storage" ] ->
  Stdio.callTool self name JUndefined be
  = (Normal (textResult "Error: Cannot read properties of undefined (reading 'node')"), [])
  /\ HttpMcp.handleMCPRequest http
       (rpc id "tools/call" (toolCall "proxmox_get_vms" JUndefined)) be
     = HttpMcp.handleMCPRequest http
         (rpc id "tools/call" (toolCall "proxmox_get_vms" (JObj []))) be.
Proof.
  intros H. split.
  - simpl in H. decompose [or] H; subst; try contradiction; reflexivity.
  - reflexivity.
Qed.

End NoArguments.

Lemma stdio_tools_need_an_arguments_object_witness :
  Stdio.callTool (RT := plainRuntime) basic "proxmox_get_storage" JUndefined pve2pve1
  = (Normal (textResult "Error: Cannot read properties of undefined (reading 'node')"), []).
Proof.
  apply (proj1 (stdio_tools_need_an_arguments_object (RT := plainRuntime) basic
                  (HttpMcp.mkProxmoxMCPServer false) "proxmox_get_storage" JNull pve2pve1
                  (or_intror (or_intror (or_intror (or_intror (or_introl eq_refl))))))).
Defined.
